(** * Enrollment analytics scripts: a shallow embedding and its properties

    The repository is a handful of pandas scripts (analysis.py,
    analyze_enrollment.py, dashboard.py, app.py, generate_data.py).  Each
    script is embedded below in a module of its own name; data frames are a
    header plus positional rows, float64 values are IEEE 754 binary64 numbers
    (the Standard Library's [spec_float] at precision 53), Python exceptions are
    an error type threaded through a small result monad.

    Part I holds the definitions, Parts II and III the theorems. *)

From Stdlib Require Import ZArith Bool List Ascii String Lia Permutation Sorted.
From Stdlib Require Import Floats.SpecFloat.
From stdpp Require Import base list strings sorting.

Import ListNotations.
Local Open Scope string_scope.
Local Open Scope Z_scope.

(* ===================================================================== *)
(** * Part I: definitions *)
(* ===================================================================== *)

(** ** float64 *)

Module Binary64.

Definition prec : Z := 53.
Definition emax : Z := 1024.

Definition t : Type := spec_float.

(** [float(z)] for a Python int. *)
Definition of_Z (z : Z) : t := binary_normalize prec emax z 0 false.

Definition add : t -> t -> t := SFadd prec emax.
Definition sub : t -> t -> t := SFsub prec emax.
Definition mul : t -> t -> t := SFmul prec emax.
Definition div : t -> t -> t := SFdiv prec emax.

(** A decimal literal [n/d] with [d] a power of ten, such as [0.08] read as
    [lit 8 100]: the double nearest to the rational, which the correctly
    rounded quotient of the two exactly representable integers is. *)
Definition lit (n d : Z) : t := div (of_Z n) (of_Z d).

Definition is_nan (x : t) : bool :=
  match x with S754_nan => true | _ => false end.

Definition is_inf (x : t) : bool :=
  match x with S754_infinity _ => true | _ => false end.

Definition is_zero (x : t) : bool :=
  match x with S754_zero _ => true | _ => false end.

Definition is_finite (x : t) : bool :=
  match x with S754_zero _ | S754_finite _ _ _ => true | _ => false end.

(** [rint]: round to the nearest integer, halves to even, keeping the sign
    of a zero result; infinities and NaN pass through. *)
Definition rint (x : t) : t :=
  match x with
  | S754_finite s m e =>
      if 0 <=? e then x
      else
        let n := Z.opp e in
        let q := Z.shiftr (Zpos m) n in
        let r := Zpos m - Z.shiftl q n in
        let half := Z.shiftl 1 (n - 1) in
        let q' := match r ?= half with
                  | Lt => q
                  | Gt => q + 1
                  | Eq => if Z.even q then q else q + 1
                  end in
        binary_normalize prec emax (cond_Zopp s q') 0 s
  | _ => x
  end.

(** numpy's [round(x, decimals)] for [decimals > 0], which is what
    [Series.round] calls: multiply by [10**decimals], [rint], divide. *)
Definition round (x : t) (decimals : Z) : t :=
  let f := of_Z (10 ^ decimals) in
  div (rint (mul x f)) f.

(** Python's [int(x)]: truncation toward zero; [None] stands for the
    exception raised on NaN and on the infinities. *)
Definition to_int (x : t) : option Z :=
  match x with
  | S754_zero _ => Some 0
  | S754_finite s m e =>
      let a := if 0 <=? e then Z.shiftl (Zpos m) e else Z.shiftr (Zpos m) (- e) in
      Some (cond_Zopp s a)
  | _ => None
  end.

(** Whether the sign bit is clear; NaN, which [int] refuses anyway, counts
    as not negative. *)
Definition not_negative (x : t) : bool :=
  match x with
  | S754_zero s | S754_infinity s | S754_finite s _ _ => negb s
  | S754_nan => true
  end.

End Binary64.

(** ** Exceptions and results *)

Inductive exn : Type :=
| KeyError (labels : list string)
| ValueError (msg : string)
| TypeError (msg : string)
| FileNotFoundError (path : string).

Inductive result (A : Type) : Type :=
| Ok (a : A)
| Raise (e : exn).
Arguments Ok {A} a.
Arguments Raise {A} e.

#[global] Instance result_ret : MRet result := fun A a => Ok a.

#[global] Instance result_bind : MBind result := fun A B k r =>
  match r with
  | Ok a => k a
  | Raise e => Raise e
  end.

(** ** Data frames *)

Module Frame.

(** A calendar date as [to_datetime] yields it (midnight, no zone). *)
Record date : Type := mkDate { year : Z; month : Z; day : Z }.

(** The value of one cell.  [NaN] is the missing value (NaN, NaT or an empty
    CSV field); counts are integers, so numeric cells hold a [Z]. *)
Inductive cell : Type :=
| NaN
| Num (z : Z)
| Str (s : string)
| Timestamp (d : date).

Definition isna (c : cell) : bool :=
  match c with NaN => true | _ => false end.

(** Header and rows; the cells of a row stand in header order. *)
Record DataFrame : Type := mkFrame {
  columns : list string;
  rows : list (list cell)
}.

Fixpoint index_of (name : string) (cols : list string) : option nat :=
  match cols with
  | [] => None
  | c :: cols' =>
      if String.eqb c name then Some 0%nat
      else option_map S (index_of name cols')
  end.

(** [name in df.columns] *)
Definition has_column (df : DataFrame) (name : string) : bool :=
  match index_of name (columns df) with Some _ => true | None => false end.

(** The cell of row [r] at position [i]. *)
Definition at_ (r : list cell) (i : nat) : cell := nth i r NaN.

(** The cell of row [r] under column [name]; [NaN] when there is no such
    column. *)
Definition loc (df : DataFrame) (r : list cell) (name : string) : cell :=
  match index_of name (columns df) with
  | Some i => at_ r i
  | None => NaN
  end.

(** The labels of [names] that are not columns of [df], in order. *)
Definition missing_labels (df : DataFrame) (names : list string) : list string :=
  List.filter (fun n => negb (has_column df n)) names.

(** [df[name] = f(df[name])], cell by cell, [f] possibly raising. *)
Definition assign (i : nat) (f : cell -> result cell) (df : DataFrame)
  : result DataFrame :=
  rs ← mapM (fun r => c ← f (at_ r i); Ok (<[i := c]> r)) (rows df);
  Ok (mkFrame (columns df) rs).

(** The same for an [f] that cannot raise. *)
Definition assign_total (i : nat) (f : cell -> cell) (df : DataFrame) : DataFrame :=
  mkFrame (columns df) (List.map (fun r => <[i := f (at_ r i)]> r) (rows df)).

(** The number a cell adds to a sum: pandas sums skip missing values. *)
Definition cell_value (c : cell) : Z :=
  match c with Num z => z | _ => 0 end.

(** [df.rename(columns=mapping)]: labels absent from the frame are ignored. *)
Definition rename (mapping : list (string * string)) (df : DataFrame) : DataFrame :=
  let ren c :=
    match List.find (fun p => String.eqb (fst p) c) mapping with
    | Some p => snd p
    | None => c
    end in
  mkFrame (List.map ren (columns df)) (rows df).

(** [df.dropna()]: a row goes when any of its cells is missing. *)
Definition dropna_any (df : DataFrame) : DataFrame :=
  mkFrame (columns df)
          (List.filter (fun r => negb (existsb isna r)) (rows df)).

(** [df.dropna(subset=names, how='all')]: [KeyError] on labels that are not
    columns; otherwise a row goes when all its cells under [names] are
    missing. *)
Definition dropna_all (names : list string) (df : DataFrame) : result DataFrame :=
  match missing_labels df names with
  | [] =>
      Ok (mkFrame (columns df)
            (List.filter
               (fun r => negb (forallb (fun n => isna (loc df r n)) names))
               (rows df)))
  | absent => Raise (KeyError absent)
  end.

(** *** Group-by and sum

    [groupby(key)[col].sum()]: one entry per distinct key, in ascending key
    order (pandas sorts group keys); rows whose key is missing belong to no
    group (pandas drops them, [dropna=True] being the default). *)

Fixpoint group_add {K} (cmp : K -> K -> comparison) (k : K) (v : Z)
    (g : list (K * Z)) : list (K * Z) :=
  match g with
  | [] => [(k, v)]
  | (k', v') :: g' =>
      match cmp k k' with
      | Eq => (k', v' + v) :: g'
      | Lt => (k, v) :: g
      | Gt => (k', v') :: group_add cmp k v g'
      end
  end.

Definition groupby_sum {K} (cmp : K -> K -> comparison)
    (key : list cell -> option K) (val : list cell -> Z)
    (rs : list (list cell)) : list (K * Z) :=
  fold_left
    (fun g r => match key r with
                | Some k => group_add cmp k (val r) g
                | None => g
                end)
    rs [].

(** Whether a row has a group key. *)
Definition has_key {K} (key : list cell -> option K) (r : list cell) : bool :=
  match key r with Some _ => true | None => false end.

(** [Series.sum()] of a grouped result, and of a column of values. *)
Definition total {K} (g : list (K * Z)) : Z :=
  fold_right Z.add 0 (List.map snd g).

Definition column_sum (val : list cell -> Z) (rs : list (list cell)) : Z :=
  fold_right Z.add 0 (List.map val rs).

(** A text cell as a group key. *)
Definition text_key (c : cell) : option string :=
  match c with Str s => Some s | _ => None end.

(** A timestamp cell as a group key, and the order of dates. *)
Definition date_key (c : cell) : option date :=
  match c with Timestamp d => Some d | _ => None end.

Definition date_compare (a b : date) : comparison :=
  match year a ?= year b with
  | Eq => match month a ?= month b with
          | Eq => day a ?= day b
          | o => o
          end
  | o => o
  end.

(** *** Sorting a grouped result

    [sort_values(ascending=False)] runs numpy's default sort kind,
    quicksort, which is not stable: the result is the entries rearranged
    into non-increasing order of value, the order among equal values being
    whatever the sort leaves.  So sorting is a relation between a series and
    its admissible results. *)
Definition value_ge {K} (a b : K * Z) : Prop := snd b <= snd a.

Definition sort_values_descending {K} (s out : list (K * Z)) : Prop :=
  Permutation s out /\ Sorted value_ge out.

#[global] Instance value_ge_dec {K} (a b : K * Z) : Decision (value_ge a b) :=
  Z_le_dec (snd b) (snd a).

(** [head(n)] for [n >= 0]. *)
Definition head {A} (n : nat) (l : list A) : list A := firstn n l.

(** Whether entries of equal value stand in ascending order of their key. *)
Fixpoint ties_by_key_ascending (l : list (string * Z)) : bool :=
  match l with
  | a :: ((b :: _) as l') =>
      (if snd a =? snd b then String.ltb (fst a) (fst b) else true)
      && ties_by_key_ascending l'
  | _ => true
  end.

(** *** Distinct values, selections and the largest entry *)

Definition is_eq (c : comparison) : bool :=
  match c with Eq => true | _ => false end.

(** The values of a list without repeats (the last of equal values stays). *)
Fixpoint distinct {K} (cmp : K -> K -> comparison) (l : list K) : list K :=
  match l with
  | [] => []
  | k :: l' =>
      if existsb (fun k' => is_eq (cmp k k')) l' then distinct cmp l'
      else k :: distinct cmp l'
  end.

(** [df[col].nunique()]: the number of distinct values, missing ones apart. *)
Definition nunique {K} (cmp : K -> K -> comparison)
    (key : list cell -> option K) (rs : list (list cell)) : nat :=
  length (distinct cmp (omap key rs)).

(** [df[mask]] for a row-wise mask. *)
Definition select (mask : list cell -> bool) (df : DataFrame) : DataFrame :=
  mkFrame (columns df) (List.filter mask (rows df)).

(** [series.idxmax()] together with [series.max()]: the first entry holding
    the largest value; nothing for an empty series. *)
Fixpoint idxmax {K} (g : list (K * Z)) : option (K * Z) :=
  match g with
  | [] => None
  | x :: g' =>
      match idxmax g' with
      | Some y => if snd x <? snd y then Some y else Some x
      | None => Some x
      end
  end.

(** Entries in strictly ascending order of their keys. *)
Definition key_lt {K} (cmp : K -> K -> comparison) (a b : K * Z) : Prop :=
  cmp (fst a) (fst b) = Lt.

(** Whether the key of a row is there and passes a test. *)
Definition key_passes {K} (key : list cell -> option K) (p : K -> bool)
    (r : list cell) : bool :=
  match key r with Some k => p k | None => false end.

(** The sum of the entries whose key passes a test. *)
Definition total_where {K} (p : K -> bool) (g : list (K * Z)) : Z :=
  total (List.filter (fun x => p (fst x)) g).

(** [df[name] = value] for a label that is not a column yet and a scalar
    [value]: a new last column holding [value] in every row. *)
Definition add_column (name : string) (value : cell) (df : DataFrame) : DataFrame :=
  let n := length (columns df) in
  mkFrame (columns df ++ [name])%list
          (List.map (fun r => (firstn n (r ++ repeat NaN (n - length r)) ++ [value])%list)
                    (rows df)).

End Frame.

(** ** Reading numbers and dates from text *)

Module Parse.

Definition is_digit (c : ascii) : bool :=
  let n := nat_of_ascii c in ((48 <=? n) && (n <=? 57))%nat.

Definition digit_value (c : ascii) : Z := Z.of_nat (nat_of_ascii c) - 48.

(** Decimal value of a string of digits, [None] when empty or when some
    character is not a digit. *)
Fixpoint digits_from (acc : Z) (s : string) : option Z :=
  match s with
  | EmptyString => Some acc
  | String c s' =>
      if is_digit c then digits_from (10 * acc + digit_value c) s' else None
  end.

Definition digits (s : string) : option Z :=
  match s with
  | EmptyString => None
  | _ => digits_from 0 s
  end.

(** An integer numeral: an optional sign and digits.  Counts are integers;
    numerals with a fraction or an exponent, or with blanks around them, are
    outside this model (see [count_text] below). *)
Definition integer (s : string) : option Z :=
  match s with
  | String "-" s' => option_map Z.opp (digits s')
  | String "+" s' => digits s'
  | _ => digits s
  end.

(** The texts on which [integer] says what pandas' [to_numeric] does.

    [to_numeric] reads a text as a number when it is a decimal numeral
    (blanks, a sign, digits with or without a point, an exponent) or a
    spelling of infinity.  Of these the model has the whole-number numerals
    only: sign and digits, of a size a float64 holds exactly.  The texts
    that [to_numeric] cannot read are recognised by a sufficient test: ASCII
    text with no digit and no letter i holds neither a numeral nor an
    infinity.  Every other text (a numeral with a fraction, an exponent or
    blanks around it) is left out: the cell type has no place for a number
    that is not whole. *)
Definition whole_number (s : string) : bool :=
  match integer s with
  | Some z => Z.abs z <=? 2 ^ 53
  | None => false
  end.

Definition no_number (s : string) : bool :=
  forallb
    (fun c => (nat_of_ascii c <? 128)%nat && negb (is_digit c)
              && negb (Ascii.eqb c "i") && negb (Ascii.eqb c "I"))
    (list_ascii_of_string s).

Definition count_text (s : string) : bool := whole_number s || no_number s.

(** Python's [str.strip()] on ASCII text. *)
Definition is_space (c : ascii) : bool :=
  let n := nat_of_ascii c in
  (((9 <=? n) && (n <=? 13)) || ((28 <=? n) && (n <=? 32)))%nat.

Fixpoint lstrip (s : string) : string :=
  match s with
  | String c s' => if is_space c then lstrip s' else s
  | EmptyString => EmptyString
  end.

Fixpoint rstrip (s : string) : string :=
  match s with
  | EmptyString => EmptyString
  | String c s' =>
      match rstrip s' with
      | EmptyString => if is_space c then EmptyString else String c EmptyString
      | t => String c t
      end
  end.

Definition strip (s : string) : string := rstrip (lstrip s).

(** Split at every ["-"]. *)
Fixpoint split_dash (s : string) : list string :=
  match s with
  | EmptyString => [EmptyString]
  | String c s' =>
      match split_dash s' with
      | [] => [String c EmptyString]
      | f :: fs =>
          if Ascii.eqb c "-" then EmptyString :: f :: fs
          else String c f :: fs
      end
  end.

(** The directives of the format, as the regular expressions strptime
    builds for them: [%d] is [3[0-1]|[1-2]\d|0[1-9]|[1-9]| [1-9]], [%m] is
    [1[0-2]|0[1-9]|[1-9]], [%Y] is four digits. *)
Definition directive_d (s : string) : option Z :=
  match s with
  | String " " (String c EmptyString) =>
      if is_digit c && negb (Ascii.eqb c "0") then Some (digit_value c) else None
  | String c EmptyString =>
      if is_digit c && negb (Ascii.eqb c "0") then Some (digit_value c) else None
  | String _ (String _ EmptyString) =>
      match digits s with
      | Some n => if (1 <=? n) && (n <=? 31) then Some n else None
      | None => None
      end
  | _ => None
  end.

Definition directive_m (s : string) : option Z :=
  match s with
  | String c EmptyString =>
      if is_digit c && negb (Ascii.eqb c "0") then Some (digit_value c) else None
  | String _ (String _ EmptyString) =>
      match digits s with
      | Some n => if (1 <=? n) && (n <=? 12) then Some n else None
      | None => None
      end
  | _ => None
  end.

Definition directive_Y (s : string) : option Z :=
  match s with
  | String _ (String _ (String _ (String _ EmptyString))) => digits s
  | _ => None
  end.

Definition is_leap (y : Z) : bool :=
  ((y mod 4 =? 0) && negb (y mod 100 =? 0)) || (y mod 400 =? 0).

Definition days_in_month (y m : Z) : Z :=
  if m =? 2 then (if is_leap y then 29 else 28)
  else if (m =? 4) || (m =? 6) || (m =? 9) || (m =? 11) then 30
  else 31.

(** The dates a nanosecond timestamp can hold at midnight:
    1677-09-22 to 2262-04-11. *)
Definition in_bounds (d : Frame.date) : bool :=
  match Frame.date_compare (Frame.mkDate 1677 9 22) d,
        Frame.date_compare d (Frame.mkDate 2262 4 11) with
  | Gt, _ | _, Gt => false
  | _, _ => true
  end.

(** Parse under the format ['%d-%m-%Y']: the whole text must match, the
    day must exist in its month and the date must fit a timestamp. *)
Definition strptime (s : string) : option Frame.date :=
  match split_dash s with
  | [sd; sm; sy] =>
      match directive_d sd, directive_m sm, directive_Y sy with
      | Some d, Some m, Some y =>
          let dt := Frame.mkDate y m d in
          if (d <=? days_in_month y m) && in_bounds dt then Some dt else None
      | _, _, _ => None
      end
  | _ => None
  end.

(** What [strptime] accepts as a date: an existing day of an existing
    month, within the bounds of a timestamp. *)
Definition valid (d : Frame.date) : bool :=
  (1 <=? Frame.month d) && (Frame.month d <=? 12)
  && (1 <=? Frame.day d) && (Frame.day d <=? days_in_month (Frame.year d) (Frame.month d))
  && in_bounds d.

End Parse.

(** ** Writing dates as text *)

Module Format.

(** The character of a decimal digit. *)
Definition digit (n : Z) : ascii := ascii_of_nat (Z.to_nat (48 + n)).

(** A number below 100 on two digits, and one below 10000 on four. *)
Definition two_digits (n : Z) : string :=
  String (digit (n / 10)) (String (digit (n mod 10)) EmptyString).

Definition four_digits (n : Z) : string :=
  (two_digits (n / 100) ++ two_digits (n mod 100))%string.

(** [strftime('%d-%m-%Y')] of a date that a timestamp can hold: day and
    month on two digits, the year on four. *)
Definition strftime (d : Frame.date) : string :=
  (two_digits (Frame.day d) ++ "-" ++ two_digits (Frame.month d) ++ "-"
   ++ four_digits (Frame.year d))%string.

End Format.

(** ** analysis.py *)

Module analysis.
Import Frame.

(** The four columns the script adds to each row. *)
Record derived : Type := mkDerived {
  Expected_Children : Binary64.t;
  Enrolment_Gap : Binary64.t;
  Gap_Ratio : Binary64.t;
  Enrolment_Percentage : Binary64.t
}.

(** Lines 27-35 on one row: [Population * 0.08], the gap, the gap ratio
    rounded to 2 decimals and the percentage rounded to 1. *)
Definition derive (Population Enrolment : Binary64.t) : derived :=
  let expected := Binary64.mul Population (Binary64.lit 8 100) in
  let gap := Binary64.sub expected Enrolment in
  {| Expected_Children := expected;
     Enrolment_Gap := gap;
     Gap_Ratio := Binary64.round (Binary64.div gap expected) 2;
     Enrolment_Percentage :=
       Binary64.round
         (Binary64.mul (Binary64.div Enrolment expected) (Binary64.of_Z 100)) 1 |}.

(** [pd.to_numeric(column)] with the default [errors='raise'], on the cells
    the model covers: numbers, missing values and text that
    [Parse.count_text] admits. *)
Definition to_numeric (c : cell) : result cell :=
  match c with
  | Str s =>
      match Parse.integer s with
      | Some z => Ok (Num z)
      | None => Raise (ValueError "Unable to parse string")
      end
  | Timestamp _ => Raise (TypeError "Invalid object type")
  | _ => Ok c
  end.

(** A cell as an operand of float arithmetic. *)
Definition as_float (c : cell) : result Binary64.t :=
  match c with
  | Num z => Ok (Binary64.of_Z z)
  | NaN => Ok S754_nan
  | _ => Raise (TypeError "unsupported operand type")
  end.

(** The body of the [try] block up to the derived columns. *)
Definition process (df : DataFrame) : result (list derived) :=
  let df := dropna_any df in
  let df := rename [("State Name", "State"); ("Enrolment Count", "Enrolment")] df in
  match index_of "Enrolment" (columns df) with
  | None => Raise (KeyError ["Enrolment"])
  | Some i =>
      df ← assign i to_numeric df;
      match index_of "Population" (columns df) with
      | None => Raise (KeyError ["Population"])
      | Some j =>
          mapM (fun r =>
                  p ← as_float (at_ r j);
                  e ← as_float (at_ r i);
                  Ok (derive p e))
               (rows df)
      end
  end.

(** What the script prints in the end: the two [except] clauses. *)
Inductive report : Type :=
| AnalysisComplete (table : list derived)
| InputFileNotFound
| AnErrorOccurred (e : exn).

(** [csv] is the content of the input file, [None] when there is no file. *)
Definition script (csv : option DataFrame) : report :=
  match csv with
  | None => InputFileNotFound
  | Some df =>
      match process df with
      | Ok table => AnalysisComplete table
      | Raise (FileNotFoundError _) => InputFileNotFound
      | Raise e => AnErrorOccurred e
      end
  end.

End analysis.

(** ** analyze_enrollment.py *)

Module analyze_enrollment.
Import Frame.

Definition numeric_cols : list string := ["age_0_5"; "age_5_17"; "age_18_greater"].
Definition age_columns : list string := ["age_0_5"; "age_5_17"; "age_18_greater"].

(** Text that [to_datetime] reads as a missing date. *)
Definition nat_strings : list string :=
  [""; "NaT"; "nat"; "NAT"; "nan"; "NaN"; "NAN"].

(** [pd.to_datetime(column, format='%d-%m-%Y')] on one cell, with the
    default [errors='raise']: a missing value becomes NaT, text that does
    not parse raises, and so does a number (its decimal writing never
    matches the format). *)
Definition to_datetime (c : cell) : result cell :=
  match c with
  | NaN => Ok NaN
  | Timestamp d => Ok (Timestamp d)
  | Str s =>
      if existsb (String.eqb s) nat_strings then Ok NaN
      else
        match Parse.strptime s with
        | Some d => Ok (Timestamp d)
        | None => Raise (ValueError "time data doesn't match format")
        end
  | Num _ => Raise (ValueError "time data doesn't match format")
  end.

(** [pd.to_numeric(column, errors='coerce')] on one cell.  This is what
    pandas does on the cells that [count_cell] below admits; on other text
    (a numeral with a fraction, an exponent or blanks) pandas returns a
    number where this function returns a missing value, so the statements
    about the bucket columns are restricted to frames whose bucket cells
    [count_cell] admits. *)
Definition to_numeric_coerce (c : cell) : cell :=
  match c with
  | Num z => Num z
  | Str s =>
      match Parse.integer s with
      | Some z => Num z
      | None => NaN
      end
  | _ => NaN
  end.

(** A cell of a bucket column that the model covers: a missing value, a
    whole number, or text that is a whole-number numeral or holds no number
    at all. *)
Definition count_cell (c : cell) : bool :=
  match c with
  | NaN | Num _ => true
  | Str s => Parse.count_text s
  | Timestamp _ => false
  end.

(** Whether the three bucket cells of a row are such cells. *)
Definition counts_only (cols : list string) (r : list cell) : bool :=
  forallb (fun n => count_cell (loc (mkFrame cols []) r n)) numeric_cols.

(** The loop over [numeric_cols], guarded by [if col in df.columns]. *)
Definition convert_numeric (df : DataFrame) : DataFrame :=
  fold_left
    (fun df col =>
       match index_of col (columns df) with
       | Some j => assign_total j to_numeric_coerce df
       | None => df
       end)
    numeric_cols df.

Definition clean_data (df : DataFrame) : result DataFrame :=
  let df := mkFrame (List.map Parse.strip (columns df)) (rows df) in
  match index_of "date" (columns df) with
  | None => Raise (KeyError ["date"])
  | Some i =>
      df ← assign i to_datetime df;
      dropna_all (["state"; "district"; "pincode"] ++ numeric_cols)
                 (convert_numeric df)
  end.

(** *** [clean_data] row by row

    What the column-wise steps do to one row, for stating what becomes of
    it: whether its date parses, the cell the date conversion leaves, the row
    after the numeric conversions, and the test of [dropna]. *)
Definition parses (c : cell) : bool :=
  match to_datetime c with Ok _ => true | Raise _ => false end.

Definition date_value (c : cell) : cell :=
  match to_datetime c with Ok c' => c' | Raise _ => c end.

Definition convert_row (cols : list string) (r : list cell) : list cell :=
  fold_left
    (fun r col =>
       match index_of col cols with
       | Some j => <[j := to_numeric_coerce (at_ r j)]> r
       | None => r
       end)
    numeric_cols r.

Definition clean_row (cols : list string) (i : nat) (r : list cell) : list cell :=
  convert_row cols (<[i := date_value (at_ r i)]> r).

(** The cell [clean_data] leaves under column [n] for a cell [c]. *)
Definition cleaned (n : string) (c : cell) : cell :=
  if String.eqb n "date" then date_value c
  else if existsb (String.eqb n) numeric_cols then to_numeric_coerce c
  else c.

Definition key_columns : list string :=
  ["state"; "district"; "pincode"] ++ numeric_cols.

Definition all_missing (cols : list string) (r : list cell) : bool :=
  forallb (fun n => isna (loc (mkFrame cols []) r n)) key_columns.

(** [df[age_columns].sum(axis=1)] on one row. *)
Definition total_enrollments (df : DataFrame) (r : list cell) : Z :=
  fold_right Z.add 0 (List.map (fun col => cell_value (loc df r col)) age_columns).

(** [df.groupby(by)['total_enrollments'].sum()], the new column being
    [df[age_columns].sum(axis=1)]; labels that are not columns raise. *)
Definition grouped_totals {K} (cmp : K -> K -> comparison)
    (by_ : string) (key : cell -> option K) (df : DataFrame)
  : result (list (K * Z)) :=
  match missing_labels df age_columns, has_column df by_ with
  | [], true =>
      Ok (groupby_sum cmp (fun r => key (loc df r by_))
                      (total_enrollments df) (rows df))
  | [], false => Raise (KeyError [by_])
  | absent, _ => Raise (KeyError absent)
  end.

Definition state_totals (df : DataFrame) : result (list (string * Z)) :=
  grouped_totals String.compare "state" text_key df.

Definition daily_enrollments (df : DataFrame) : result (list (date * Z)) :=
  grouped_totals date_compare "date" date_key df.

(** [df['total_enrollments'].sum()], the ungrouped total. *)
Definition overall_total (df : DataFrame) : Z :=
  column_sum (total_enrollments df) (rows df).

(** Line 88: [state_totals.sort_values(ascending=False).head(10)]. *)
Definition analyze_enrollment (df : DataFrame)
    (out : result (list (string * Z))) : Prop :=
  match state_totals df with
  | Ok s => exists sorted,
      sort_values_descending s sorted /\ out = Ok (head 10 sorted)
  | Raise e => out = Raise e
  end.

(** The count [main] prints after loading and the one
    [sort_and_save_data] prints after cleaning. *)
Definition records_loaded (df : DataFrame) : nat := length (rows df).
Definition records_saved (cleaned : DataFrame) : nat := length (rows cleaned).

(** [main]: every exception of the pipeline ends in the one
    [except Exception] clause.  [loaded] is what [load_data] returned or
    raised; the stages after cleaning are left out. *)
Inductive report : Type :=
| AnalysisComplete (cleaned : DataFrame)
| AnErrorOccurred (e : exn).

Definition main (loaded : result DataFrame) : report :=
  match df ← loaded; clean_data df with
  | Ok cleaned => AnalysisComplete cleaned
  | Raise e => AnErrorOccurred e
  end.

(** [df[age_columns].sum()] (lines 82 and 114): the total of each age
    column, missing values adding nothing. *)
Definition age_totals (df : DataFrame) : result (list (string * Z)) :=
  match missing_labels df age_columns with
  | [] =>
      Ok (List.map
            (fun col => (col, column_sum (fun r => cell_value (loc df r col)) (rows df)))
            age_columns)
  | absent => Raise (KeyError absent)
  end.

(** [df['date'].dt.to_period('M').dt.to_timestamp()] on one cell: the first
    day of the month of the date; NaT stays NaT. *)
Definition month_year (d : date) : date := mkDate (year d) (month d) 1.

Definition month_year_key (c : cell) : option date :=
  option_map month_year (date_key c).

(** [df.groupby('month_year')[age_columns].sum()] (lines 149-150): for each
    age column its totals by month. *)
Definition monthly (df : DataFrame) : result (list (string * list (date * Z))) :=
  match has_column df "date", missing_labels df age_columns with
  | false, _ => Raise (KeyError ["date"])
  | true, [] =>
      Ok (List.map
            (fun col =>
               (col, groupby_sum date_compare
                       (fun r => month_year_key (loc df r "date"))
                       (fun r => cell_value (loc df r col)) (rows df)))
            age_columns)
  | true, absent => Raise (KeyError absent)
  end.

(** *** [sort_and_save_data]

    The frame is what [clean_data] returned: its date column holds
    timestamps and NaT. *)
Definition has_date (df : DataFrame) (r : list cell) : bool :=
  has_key (fun r => date_key (loc df r "date")) r.

Definition date_ascending (df : DataFrame) (a b : list cell) : Prop :=
  match date_key (loc df a "date"), date_key (loc df b "date") with
  | Some x, Some y => date_compare x y <> Gt
  | _, _ => True
  end.

(** [df.sort_values('date')] followed by [reset_index(drop=True)]: the
    rows with a date rearranged into ascending order of the date (the
    default sort is not stable, so the order among equal dates is whatever
    it leaves), then the rows without a date in their original order. *)
Definition sort_values_date (df : DataFrame) (sorted : list (list cell)) : Prop :=
  exists dated,
    Permutation (List.filter (has_date df) (rows df)) dated /\
    Sorted (date_ascending df) dated /\
    sorted = (dated ++ List.filter (fun r => negb (has_date df r)) (rows df))%list.

(** [.dt.strftime('%d-%m-%Y')] on one cell; NaT gives a missing value. *)
Definition strftime_cell (c : cell) : cell :=
  match c with
  | Timestamp d => Str (Format.strftime d)
  | _ => NaN
  end.

(** Whether a cell is one of a datetime column that [strptime] filled. *)
Definition datetime_cell (c : cell) : bool :=
  match c with
  | NaN => true
  | Timestamp d => Parse.valid d
  | _ => false
  end.

(** [sort_and_save_data(df)]: the frame written to the output file, with
    the dates as text, and the frame returned, with the dates read back. *)
Definition sort_and_save_data (df : DataFrame)
    (outcome : result (DataFrame * DataFrame)) : Prop :=
  match index_of "date" (columns df) with
  | None => outcome = Raise (KeyError ["date"])
  | Some i =>
      exists sorted,
        sort_values_date df sorted /\
        outcome
        = (let saved := assign_total i strftime_cell (mkFrame (columns df) sorted) in
           returned ← assign i to_datetime saved;
           Ok (saved, returned))
  end.

End analyze_enrollment.

(** ** dashboard.py *)

Module dashboard.
Import Frame.

(** [df.groupby('state')['total_enrollments'].sum()]; the column comes
    with the data here.  Labels that are not columns raise. *)
Definition state_totals (df : DataFrame) : result (list (string * Z)) :=
  match missing_labels df ["state"; "total_enrollments"] with
  | [] =>
      Ok (groupby_sum String.compare (fun r => text_key (loc df r "state"))
            (fun r => cell_value (loc df r "total_enrollments")) (rows df))
  | absent => Raise (KeyError absent)
  end.

(** [plot_state_comparison(df, top_n)]: the series that is plotted,
    [state_totals.sort_values(ascending=False).head(top_n)]. *)
Definition plot_state_comparison (df : DataFrame) (top_n : nat)
    (out : result (list (string * Z))) : Prop :=
  match state_totals df with
  | Ok s => exists sorted,
      sort_values_descending s sorted /\ out = Ok (head top_n sorted)
  | Raise e => out = Raise e
  end.

(** [calculate_metrics(df)['total_enrollments']] *)
Definition total_enrollments (df : DataFrame) : Z :=
  column_sum (fun r => cell_value (loc df r "total_enrollments")) (rows df).

(** [calculate_metrics(df)]: the total, the mean of the daily sums, the
    number of distinct states and the number of distinct dates.  The first
    column that is not there raises. *)
Definition daily_totals (df : DataFrame) : list (date * Z) :=
  groupby_sum date_compare (fun r => date_key (loc df r "date"))
              (fun r => cell_value (loc df r "total_enrollments")) (rows df).

(** [series.mean()] of whole numbers; NaN for an empty series. *)
Definition series_mean {K} (s : list (K * Z)) : Binary64.t :=
  Binary64.div (Binary64.of_Z (total s)) (Binary64.of_Z (Z.of_nat (length s))).

Record metrics : Type := mkMetrics {
  metric_total_enrollments : Z;
  avg_daily : Binary64.t;
  total_states : nat;
  total_days : nat
}.

Definition calculate_metrics (df : DataFrame) : result metrics :=
  match missing_labels df ["total_enrollments"; "date"; "state"] with
  | [] =>
      Ok {| metric_total_enrollments := total_enrollments df;
            avg_daily := series_mean (daily_totals df);
            total_states :=
              nunique String.compare (fun r => text_key (loc df r "state")) (rows df);
            total_days :=
              nunique date_compare (fun r => date_key (loc df r "date")) (rows df) |}
  | label :: _ => Raise (KeyError [label])
  end.

(** The three masks of [main], and the filtered frame.  [date_range] is
    what the date picker returned: the date mask applies only when it holds
    two dates.  A missing value passes none of the masks. *)
Definition date_between (lo hi : date) (c : cell) : bool :=
  match c with
  | Timestamp d =>
      match date_compare lo d with Gt => false | _ => true end
      && match date_compare d hi with Gt => false | _ => true end
  | _ => false
  end.

Definition isin (values : list string) (c : cell) : bool :=
  match c with
  | Str s => existsb (String.eqb s) values
  | _ => false
  end.

Definition other_masks (date_range : list date) (center_types : list string)
    (df : DataFrame) (r : list cell) : bool :=
  match date_range with
  | [lo; hi] => date_between lo hi (loc df r "date")
  | _ => true
  end
  && isin center_types (loc df r "center_type").

Definition apply_filters (date_range : list date)
    (selected_states center_types : list string) (df : DataFrame)
  : result DataFrame :=
  match missing_labels df
          (match date_range with [_; _] => ["date"] | _ => [] end
           ++ ["state"; "center_type"]) with
  | [] =>
      Ok (select (fun r => other_masks date_range center_types df r
                           && isin selected_states (loc df r "state")) df)
  | label :: _ => Raise (KeyError [label])
  end.

(** [generate_insights]: the top state and its count,
    [state_totals.idxmax()] and [state_totals.max()]. *)
Definition top_state (df : DataFrame) : result (string * Z) :=
  s ← state_totals df;
  match idxmax s with
  | Some x => Ok x
  | None => Raise (ValueError "attempt to get argmax of an empty sequence")
  end.

End dashboard.

(** ** app.py *)

Module app.

(** [calc_mean]: the running sum over the number of observations, NaN while
    there are fewer than [min_periods] of them. *)
Definition calc_mean (min_periods : nat) (nobs : nat) (sum_x : Z) : Binary64.t :=
  if ((min_periods <=? nobs) && (0 <? nobs))%nat
  then Binary64.div (Binary64.of_Z sum_x) (Binary64.of_Z (Z.of_nat nobs))
  else S754_nan.

(** The sliding pass of [rolling(window, min_periods).mean()] over a series
    without missing values: at position [i] the value that left the window,
    [values[i - window]], is removed from the running sum, [values[i]] is
    added, and the mean is emitted.  The series holds whole numbers (daily
    sums of counts), so the running sum is kept in [Z]. *)
Fixpoint roll_mean (window min_periods : nat) (values : list Z)
    (i : nat) (todo : list Z) (sum_x : Z) (nobs : nat) : list Binary64.t :=
  match todo with
  | [] => []
  | v :: todo' =>
      let '(sum_x, nobs) :=
        if (window <=? i)%nat
        then (sum_x - nth (i - window) values 0, pred nobs)
        else (sum_x, nobs) in
      let sum_x := sum_x + v in
      let nobs := S nobs in
      calc_mean min_periods nobs sum_x
        :: roll_mean window min_periods values (S i) todo' sum_x nobs
  end.

(** [series.rolling(window=window, min_periods=min_periods).mean()];
    pandas refuses [min_periods > window]. *)
Definition rolling_mean (window min_periods : nat) (values : list Z)
  : result (list Binary64.t) :=
  if (window <? min_periods)%nat
  then Raise (ValueError "min_periods must be <= window")
  else Ok (roll_mean window min_periods values 0 values 0 0).

(** Lines 326-327 of [plot_forecasting]. *)
Definition ma7 (daily_ts : list Z) : result (list Binary64.t) :=
  rolling_mean 7 1 daily_ts.
Definition ma30 (daily_ts : list Z) : result (list Binary64.t) :=
  rolling_mean 30 1 daily_ts.

(** The reading of the specification: the point at position [i] is the
    mean of the points at positions [i - window + 1 .. i], as many of them
    as exist. *)
Definition preceding (window : nat) (values : list Z) (i : nat) : list Z :=
  firstn (S i - (S i - window)) (skipn (S i - window) values).

Definition mean (l : list Z) : Binary64.t :=
  Binary64.div (Binary64.of_Z (fold_right Z.add 0 l))
               (Binary64.of_Z (Z.of_nat (length l))).

Definition spec_rolling_mean (window : nat) (values : list Z) : list Binary64.t :=
  List.map (fun i => mean (preceding window values i)) (seq 0 (length values)).

(** *** [load_data] and the state table

    [load_data] on the content [csv] of the data file (the sample data made
    up when there is no file are left out): the columns [Date] and [State]
    are added when the file has none, [today] being the text of the current
    date. *)
Definition load_data (today : string) (csv : Frame.DataFrame) : Frame.DataFrame :=
  let df := if Frame.has_column csv "Date" then csv
            else Frame.add_column "Date" (Frame.Str today) csv in
  if Frame.has_column df "State" then df
  else Frame.add_column "State" (Frame.Str "Unknown") df.

(** [plot_geographical_analysis]: the state totals behind the chart and
    the table, before they are sorted; nothing is shown for a frame without a
    [State] column. *)
Definition state_data (df : Frame.DataFrame) : result (option (list (string * Z))) :=
  if Frame.has_column df "State" then
    if Frame.has_column df "Total_Enrolments" then
      Ok (Some (Frame.groupby_sum String.compare
                  (fun r => Frame.text_key (Frame.loc df r "State"))
                  (fun r => Frame.cell_value (Frame.loc df r "Total_Enrolments"))
                  (Frame.rows df)))
    else Raise (KeyError ["Total_Enrolments"])
  else Ok None.

(** *** [plot_forecasting]

    [daily_ts] is the series of daily sums, indexed by the number of the
    day and in ascending order of the days (the group keys come sorted, and
    line 322 sorts the index again). *)

(** The point of a day, if the series has one. *)
Definition lookup_day (d : Z) (s : list (Z * Z)) : option Z :=
  option_map snd (List.find (fun p => fst p =? d) s).

Definition first_day (s : list (Z * Z)) : Z := fst (List.hd (0, 0) s).
Definition last_day (s : list (Z * Z)) : Z := fst (List.last s (0, 0)).

(** [daily_ts.asfreq('D')]: a point for every day from the first to the
    last one, missing where the series has none. *)
Definition asfreq_D (s : list (Z * Z)) : list (Z * option Z) :=
  match s with
  | [] => []
  | _ :: _ =>
      List.map (fun k => let d := first_day s + Z.of_nat k in (d, lookup_day d s))
               (seq 0 (Z.to_nat (last_day s - first_day s + 1)))
  end.

(** [fillna(method='ffill')]: a missing point takes the last value seen
    before it, and stays missing when there is none. *)
Fixpoint ffill (prev : option Z) (l : list (Z * option Z)) : list (Z * option Z) :=
  match l with
  | [] => []
  | (d, Some v) :: l' => (d, Some v) :: ffill (Some v) l'
  | (d, None) :: l' => (d, prev) :: ffill prev l'
  end.

(** Line 325. *)
Definition filled (s : list (Z * Z)) : list (Z * option Z) :=
  ffill None (asfreq_D s).

(** For stating what the filling leaves: the days in ascending order, and
    the value of the last point at or before a day. *)
Definition day_lt (a b : Z * Z) : Prop := fst a < fst b.

Fixpoint latest (d : Z) (s : list (Z * Z)) : option Z :=
  match s with
  | [] => None
  | p :: s' =>
      match latest d s' with
      | Some v => Some v
      | None => if fst p <=? d then Some (snd p) else None
      end
  end.

(** [series.mean()] of whole numbers; NaN for an empty series. *)
Definition series_mean (values : list Z) : Binary64.t :=
  Binary64.div (Binary64.of_Z (fold_right Z.add 0 values))
               (Binary64.of_Z (Z.of_nat (length values))).

(** [daily_ts[-n:]] *)
Definition last_points (n : nat) (values : list Z) : list Z :=
  skipn (length values - n) values.

(** Line 333: the forecast, one value repeated over the 30 forecast dates. *)
Definition forecast_values (daily_ts : list Z) : list Binary64.t :=
  repeat (if (30 <=? length daily_ts)%nat
          then series_mean (last_points 30 daily_ts)
          else series_mean daily_ts) 30.

(** The traces of the figure; nothing is drawn when the series has fewer
    than 30 points. *)
Record forecast : Type := mkForecast {
  observed : list Z;
  ma7_line : list Binary64.t;
  ma30_line : list Binary64.t;
  forecast_line : list Binary64.t
}.

Definition plot_forecasting (daily_ts : list (Z * Z)) : result (option forecast) :=
  if (length daily_ts <? 30)%nat then Ok None
  else
    let ts := omap snd (filled daily_ts) in
    m7 ← ma7 ts;
    m30 ← ma30 ts;
    Ok (Some (mkForecast ts m7 m30 (forecast_values ts))).

End app.

(** ** generate_data.py *)

Module generate_data.

(** One generated row, the fields the claims are about. *)
Record row : Type := mkRow {
  total_enrollments : Z;
  male_enrollments : Z;
  female_enrollments : Z;
  child_enrollments : Z;
  adult_enrollments : Z;
  senior_enrollments : Z
}.

Definition winter (month : Z) : bool := (month =? 1) || (month =? 2) || (month =? 12).
Definition monsoon (month : Z) : bool := (month =? 6) || (month =? 7) || (month =? 8).

(** *** With the script's float64 arithmetic

    The body of the inner loop.  The three random draws of an iteration are
    arguments: [state_factor] from [uniform(0.5, 2.0)], [poisson] from
    [poisson(500)], [male_ratio] from [uniform(0.48, 0.52)]. *)
Definition seasonal_factor (month : Z) : Binary64.t :=
  if winter month then Binary64.lit 12 10
  else if monsoon month then Binary64.lit 8 10
  else Binary64.of_Z 1.

Definition weekend_factor (day_of_week : Z) : Binary64.t :=
  if 5 <=? day_of_week then Binary64.lit 6 10 else Binary64.of_Z 1.

Definition base_enrollments (month day_of_week : Z)
    (state_factor : Binary64.t) (poisson : Z) : Binary64.t :=
  Binary64.mul
    (Binary64.mul (Binary64.mul (Binary64.of_Z poisson) state_factor)
                  (seasonal_factor month))
    (weekend_factor day_of_week).

Definition make_row (month day_of_week : Z)
    (state_factor : Binary64.t) (poisson : Z) (male_ratio : Binary64.t)
  : option row :=
  let base := base_enrollments month day_of_week state_factor poisson in
  male ← Binary64.to_int (Binary64.mul base male_ratio);
  female ← Binary64.to_int
             (Binary64.mul base (Binary64.sub (Binary64.of_Z 1) male_ratio));
  child ← Binary64.to_int (Binary64.mul base (Binary64.lit 25 100));
  adult ← Binary64.to_int (Binary64.mul base (Binary64.lit 55 100));
  senior ← Binary64.to_int (Binary64.mul base (Binary64.lit 20 100));
  total ← Binary64.to_int base;
  Some (mkRow total male female child adult senior).

End generate_data.

(** ** Sample inputs *)

Module samples.
Import Frame.

Definition enrollment_columns : list string :=
  ["date"; "state"; "district"; "pincode"; "age_0_5"; "age_5_17"; "age_18_greater"].

(** Two records of one day; the second one has no state. *)
Definition two_records : DataFrame :=
  mkFrame enrollment_columns
    [[Str "01-03-2025"; Str "A"; Str "North"; Num 110001; Num 5; Num 0; Num 0];
     [Str "01-03-2025"; NaN; Str "South"; Num 110002; Num 10; Num 0; Num 0]].

(** The second record's date is written year first. *)
Definition one_bad_date : DataFrame :=
  mkFrame enrollment_columns
    [[Str "01-03-2025"; Str "A"; Str "North"; Num 110001; Num 5; Num 0; Num 0];
     [Str "2025-03-02"; Str "B"; Str "South"; Num 110002; Num 10; Num 0; Num 0]].

(** No bucket of the first record is a number; the second record has one
    bucket that is not; the third has nothing but a date. *)
Definition bad_buckets : DataFrame :=
  mkFrame enrollment_columns
    [[Str "01-03-2025"; Str "A"; Str "North"; Num 110001; Str "x"; Str "y"; Str "z"];
     [Str "01-03-2025"; Str "B"; Str "South"; Num 110002; Num 7; Str "seven"; Num 4];
     [Str "02-03-2025"; NaN; NaN; NaN; Str "x"; NaN; NaN]].

(** The rows of the specification's example: region A with 5 in the first
    bucket, and a record without region with 10. *)
Definition region_example : DataFrame :=
  mkFrame enrollment_columns
    [[Str "01-03-2025"; Str "A"; NaN; NaN; Num 5; NaN; NaN];
     [Str "01-03-2025"; NaN; NaN; NaN; Num 10; NaN; NaN]].

(** A frame without the [age_5_17] column, and one without [date]. *)
Definition no_age_5_17 : DataFrame :=
  mkFrame ["date"; "state"; "district"; "pincode"; "age_0_5"; "age_18_greater"]
    [[Str "01-03-2025"; Str "A"; Str "North"; Num 110001; Num 5; Num 1]].

Definition no_date : DataFrame :=
  mkFrame ["state"; "district"; "pincode"; "age_0_5"; "age_5_17"; "age_18_greater"]
    [[Str "A"; Str "North"; Num 110001; Num 5; Num 0; Num 1]].

(** Eighteen states with the same total. *)
Definition tied_states : list string :=
  ["S00"; "S01"; "S02"; "S03"; "S04"; "S05"; "S06"; "S07"; "S08";
   "S09"; "S10"; "S11"; "S12"; "S13"; "S14"; "S15"; "S16"; "S17"].

Definition tied_frame : DataFrame :=
  mkFrame ["state"; "total_enrollments"]
          (List.map (fun s => [Str s; Num 1]) tied_states).

(** The same states rearranged: the first two, then the sixteenth down to
    the third, then the last. *)
Definition tied_outcome : list (string * Z) :=
  List.map (fun s => (s, 1))
    ["S00"; "S01"; "S16"; "S15"; "S14"; "S13"; "S12"; "S11"; "S10";
     "S09"; "S08"; "S07"; "S06"; "S05"; "S04"; "S03"; "S02"; "S17"].

(** Three states with different totals. *)
Definition three_states : DataFrame :=
  mkFrame ["state"; "total_enrollments"]
    [[Str "Goa"; Num 40]; [Str "Bihar"; Num 70]; [Str "Goa"; Num 25];
     [Str "Delhi"; Num 90]].

(** Records as [clean_data] leaves them, of three days in two months. *)
Definition cleaned_records : DataFrame :=
  mkFrame enrollment_columns
    [[Timestamp (mkDate 2025 3 1); Str "A"; Str "North"; Num 110001; Num 5; Num 2; Num 1];
     [Timestamp (mkDate 2025 3 9); Str "B"; Str "South"; Num 110002; Num 10; NaN; Num 4];
     [Timestamp (mkDate 2025 4 2); Str "A"; Str "North"; Num 110001; Num 7; Num 3; Num 0];
     [NaN; Str "B"; Str "South"; Num 110002; Num 1; Num 1; Num 1]].

(** Daily sums of three days, with one day without records in between. *)
Definition daily_series : list (Z * Z) := [(10, 5); (12, 7); (13, 1)].

(** Daily sums of 30 days out of 31: day 29 has no records. *)
Definition month_series : list (Z * Z) :=
  (List.map (fun k => (Z.of_nat k, 100 + Z.of_nat k)) (seq 1 28)
   ++ [(30, 50); (31, 60)])%list.

(** The content of a data file of app.py without a [State] column. *)
Definition no_state_file : DataFrame :=
  mkFrame ["Date"; "Total_Enrolments"]
    [[Str "2025-03-01"; Num 12]; [Str "2025-03-02"; Num 30]].

(** A frame as dashboard.py loads it; the last record has no state. *)
Definition dashboard_sample : DataFrame :=
  mkFrame ["date"; "state"; "total_enrollments"; "center_type"]
    [[Timestamp (mkDate 2023 1 1); Str "Goa"; Num 40; Str "Permanent"];
     [Timestamp (mkDate 2023 1 1); Str "Bihar"; Num 70; Str "Temporary"];
     [Timestamp (mkDate 2023 1 2); Str "Goa"; Num 25; Str "Permanent"];
     [Timestamp (mkDate 2023 1 2); Str "Delhi"; Num 90; Str "Permanent"];
     [Timestamp (mkDate 2023 2 1); NaN; Num 5; Str "Permanent"]].

End samples.

(* ===================================================================== *)
(** * Part II: theorems *)
(* ===================================================================== *)

(** ** float64 literals and rounding *)

(** The literal [0.08] is the double [0x1.47ae147ae147bp-4]. *)
Example lit_0_08 : Binary64.lit 8 100 = S754_finite false 5764607523034235 (-56).
Proof. vm_compute. reflexivity. Qed.

(** Halves go to the even neighbour: [round(0.125, 2)] is [0.12] and
    [round(0.375, 2)] is [0.38]. *)
Example round_half_even :
  Binary64.round (Binary64.lit 125 1000) 2 = Binary64.lit 12 100 /\
  Binary64.round (Binary64.lit 375 1000) 2 = Binary64.lit 38 100.
Proof. split; vm_compute; reflexivity. Qed.

Lemma round_nan (decimals : Z) : Binary64.round S754_nan decimals = S754_nan.
Proof. reflexivity. Qed.

Lemma round_infinity (s : bool) :
  Binary64.round (S754_infinity s) 1 = S754_infinity s /\
  Binary64.round (S754_infinity s) 2 = S754_infinity s.
Proof. destruct s; split; vm_compute; reflexivity. Qed.

Lemma mul_infinity_100 (s : bool) :
  Binary64.mul (S754_infinity s) (Binary64.of_Z 100) = S754_infinity s.
Proof. destruct s; vm_compute; reflexivity. Qed.

(** ** Reading text *)

(** The format ['%d-%m-%Y'] takes days and months with or without a leading
    zero; it refuses a date written year first, a day its month does not
    have, and text after the year. *)
Example strptime_examples :
  Parse.strptime "15-01-2023" = Some (Frame.mkDate 2023 1 15) /\
  Parse.strptime "5-1-2023" = Some (Frame.mkDate 2023 1 5) /\
  Parse.strptime "29-02-2024" = Some (Frame.mkDate 2024 2 29) /\
  Parse.strptime "2023-01-15" = None /\
  Parse.strptime "31-02-2023" = None /\
  Parse.strptime "15-01-2023 " = None /\
  Parse.strptime "15/01/2023" = None.
Proof. repeat split; vm_compute; reflexivity. Qed.

Example to_numeric_coerce_examples :
  analyze_enrollment.to_numeric_coerce (Frame.Str "12") = Frame.Num 12 /\
  analyze_enrollment.to_numeric_coerce (Frame.Str "-3") = Frame.Num (-3) /\
  analyze_enrollment.to_numeric_coerce (Frame.Str "twelve") = Frame.NaN /\
  analyze_enrollment.to_numeric_coerce (Frame.Num 7) = Frame.Num 7 /\
  analyze_enrollment.to_numeric_coerce Frame.NaN = Frame.NaN.
Proof. repeat split; vm_compute; reflexivity. Qed.

(** Groups come out in ascending order of the key, whatever the order of the
    rows. *)
Example state_totals_three_states :
  dashboard.state_totals samples.three_states
  = Ok [("Bihar", 70); ("Delhi", 90); ("Goa", 65)].
Proof. vm_compute. reflexivity. Qed.

(** ** analysis.py: the derived columns *)

(** C1, as the script has it: the expected number is the population times
    the constant 0.08 (the script takes no fraction from its caller), the gap
    is expected minus enrolment, the gap ratio is gap / expected rounded to 2
    decimals, the percentage is enrolment / expected * 100 rounded to 1
    decimal; population 1000 with enrolment 60 gives expected 80, gap 20, gap
    ratio 0.25 (and percentage 75.0), also through the whole script. *)
Theorem derived_metrics (Population Enrolment : Binary64.t) :
  let d := analysis.derive Population Enrolment in
  analysis.Expected_Children d = Binary64.mul Population (Binary64.lit 8 100) /\
  analysis.Enrolment_Gap d = Binary64.sub (analysis.Expected_Children d) Enrolment /\
  analysis.Gap_Ratio d =
    Binary64.round
      (Binary64.div (analysis.Enrolment_Gap d) (analysis.Expected_Children d)) 2 /\
  analysis.Enrolment_Percentage d =
    Binary64.round
      (Binary64.mul (Binary64.div Enrolment (analysis.Expected_Children d))
                    (Binary64.of_Z 100)) 1 /\
  analysis.derive (Binary64.of_Z 1000) (Binary64.of_Z 60) =
    analysis.mkDerived (Binary64.of_Z 80) (Binary64.of_Z 20)
                       (Binary64.lit 25 100) (Binary64.of_Z 75) /\
  analysis.script
    (Some (Frame.mkFrame ["State Name"; "Enrolment Count"; "Population"]
             [[Frame.Str "Goa"; Frame.Num 60; Frame.Num 1000]])) =
    analysis.AnalysisComplete
      [analysis.mkDerived (Binary64.of_Z 80) (Binary64.of_Z 20)
                          (Binary64.lit 25 100) (Binary64.of_Z 75)].
Proof.
  cbv zeta. unfold analysis.derive. cbn [analysis.Expected_Children
    analysis.Enrolment_Gap analysis.Gap_Ratio analysis.Enrolment_Percentage].
  do 4 (split; [reflexivity | ]).
  split; vm_compute; reflexivity.
Qed.

(** C1 as stated fails: a caller's fraction has no effect.  With population
    1000 and a fraction of 0.5 the expected number is still 80, not 500. *)
Lemma expected_fraction_is_not_an_input :
  analysis.Expected_Children (analysis.derive (Binary64.of_Z 1000) (Binary64.of_Z 60))
    = Binary64.of_Z 80 /\
  Binary64.mul (Binary64.of_Z 1000) (Binary64.lit 5 10) = Binary64.of_Z 500 /\
  SFeqb (analysis.Expected_Children
           (analysis.derive (Binary64.of_Z 1000) (Binary64.of_Z 60)))
        (Binary64.mul (Binary64.of_Z 1000) (Binary64.lit 5 10)) = false.
Proof. repeat split; vm_compute; reflexivity. Qed.




(** ** Group-by: conservation of the total *)

Lemma total_cons {K} (k : K) (v : Z) (g : list (K * Z)) :
  Frame.total ((k, v) :: g) = v + Frame.total g.
Proof. reflexivity. Qed.

Lemma total_group_add {K} (cmp : K -> K -> comparison) (k : K) (v : Z)
    (g : list (K * Z)) :
  Frame.total (Frame.group_add cmp k v g) = Frame.total g + v.
Proof.
  induction g as [| [k' v'] g IH]; cbn [Frame.group_add].
  - rewrite total_cons. unfold Frame.total. cbn. lia.
  - destruct (cmp k k'); rewrite !total_cons; [lia | lia |].
    rewrite IH. lia.
Qed.

Lemma total_fold_rows {K} (cmp : K -> K -> comparison)
    (key : list Frame.cell -> option K) (val : list Frame.cell -> Z)
    (rs : list (list Frame.cell)) (g : list (K * Z)) :
  Frame.total
    (fold_left (fun g r => match key r with
                           | Some k => Frame.group_add cmp k (val r) g
                           | None => g
                           end) rs g)
  = Frame.total g + Frame.column_sum val (List.filter (Frame.has_key key) rs).
Proof.
  revert g. induction rs as [| r rs IH]; intros g; cbn [fold_left List.filter].
  - unfold Frame.column_sum. cbn. lia.
  - rewrite IH. unfold Frame.has_key at 2.
    destruct (key r) as [k |].
    + rewrite total_group_add. unfold Frame.column_sum. cbn. lia.
    + reflexivity.
Qed.

Lemma column_sum_split (val : list Frame.cell -> Z) (p : list Frame.cell -> bool)
    (rs : list (list Frame.cell)) :
  Frame.column_sum val (List.filter p rs)
  + Frame.column_sum val (List.filter (fun r => negb (p r)) rs)
  = Frame.column_sum val rs.
Proof.
  unfold Frame.column_sum.
  induction rs as [| r rs IH]; cbn; [reflexivity |].
  destruct (p r); cbn; lia.
Qed.

(** The per-group totals add up to the total over the rows that have a
    key. *)
Lemma groupby_sum_keyed_rows {K} (cmp : K -> K -> comparison)
    (key : list Frame.cell -> option K) (val : list Frame.cell -> Z)
    (rs : list (list Frame.cell)) :
  Frame.total (Frame.groupby_sum cmp key val rs)
  = Frame.column_sum val (List.filter (Frame.has_key key) rs).
Proof. unfold Frame.groupby_sum. rewrite total_fold_rows. reflexivity. Qed.

Lemma groupby_sum_with_unkeyed_rows {K} (cmp : K -> K -> comparison)
    (key : list Frame.cell -> option K) (val : list Frame.cell -> Z)
    (rs : list (list Frame.cell)) :
  Frame.total (Frame.groupby_sum cmp key val rs)
  + Frame.column_sum val (List.filter (fun r => negb (Frame.has_key key r)) rs)
  = Frame.column_sum val rs.
Proof. rewrite groupby_sum_keyed_rows. apply column_sum_split. Qed.

(** C3, as the scripts have it: for every grouping key, the per-group totals
    add up to the total over the rows that have a key; together with the
    total over the rows whose key is missing they make the ungrouped total. *)
Theorem grouped_totals_conservation :
  forall (K : Type) (cmp : K -> K -> comparison)
         (key : list Frame.cell -> option K) (val : list Frame.cell -> Z)
         (rs : list (list Frame.cell)),
    Frame.total (Frame.groupby_sum cmp key val rs)
      = Frame.column_sum val (List.filter (Frame.has_key key) rs) /\
    Frame.total (Frame.groupby_sum cmp key val rs)
      + Frame.column_sum val (List.filter (fun r => negb (Frame.has_key key r)) rs)
      = Frame.column_sum val rs.
Proof.
  intros K cmp key val rs. split.
  - apply groupby_sum_keyed_rows.
  - apply groupby_sum_with_unkeyed_rows.
Qed.

(** When no row lacks its key, grouping conserves the total. *)
Corollary grouped_totals_all_keyed {K} (cmp : K -> K -> comparison)
    (key : list Frame.cell -> option K) (val : list Frame.cell -> Z)
    (rs : list (list Frame.cell)) :
  forallb (Frame.has_key key) rs = true ->
  Frame.total (Frame.groupby_sum cmp key val rs) = Frame.column_sum val rs.
Proof.
  intros Hall. rewrite groupby_sum_keyed_rows.
  f_equal. induction rs as [| r rs IH]; [reflexivity |].
  cbn in Hall |- *. apply andb_prop in Hall as [-> Hrs].
  f_equal. auto.
Qed.

(** The same for the state totals of analyze_enrollment.py and of
    dashboard.py. *)
Lemma state_totals_conservation (df : Frame.DataFrame) (s : list (string * Z)) :
  analyze_enrollment.state_totals df = Ok s ->
  Frame.total s
  + Frame.column_sum (analyze_enrollment.total_enrollments df)
      (List.filter
         (fun r => negb (Frame.has_key
                           (fun r => Frame.text_key (Frame.loc df r "state")) r))
         (Frame.rows df))
  = analyze_enrollment.overall_total df.
Proof.
  unfold analyze_enrollment.state_totals, analyze_enrollment.grouped_totals.
  destruct (Frame.missing_labels df analyze_enrollment.age_columns);
    [| discriminate].
  destruct (Frame.has_column df "state"); [| discriminate].
  intros [= <-]. apply groupby_sum_with_unkeyed_rows.
Qed.

Lemma dashboard_totals_conservation (df : Frame.DataFrame) (s : list (string * Z)) :
  dashboard.state_totals df = Ok s ->
  Frame.total s
  + Frame.column_sum (fun r => Frame.cell_value (Frame.loc df r "total_enrollments"))
      (List.filter
         (fun r => negb (Frame.has_key
                           (fun r => Frame.text_key (Frame.loc df r "state")) r))
         (Frame.rows df))
  = dashboard.total_enrollments df.
Proof.
  unfold dashboard.state_totals.
  destruct (Frame.missing_labels df ["state"; "total_enrollments"]);
    [| discriminate].
  intros [= <-]. apply groupby_sum_with_unkeyed_rows.
Qed.

(** C3 as stated fails on what [clean_data] returns: the record without a
    state survives cleaning and is in no group, so the state totals add up to
    5 while the ungrouped total is 15. *)
Lemma missing_state_is_not_grouped :
  (df ← analyze_enrollment.clean_data samples.two_records;
   s ← analyze_enrollment.state_totals df;
   Ok (s, Frame.total s, analyze_enrollment.overall_total df))
  = Ok ([("A", 5)], 5, 15).
Proof. vm_compute. reflexivity. Qed.

(** ** Sorting and the first [n] *)

Lemma value_ge_total {K} : Total (@Frame.value_ge K).
Proof. intros a b. unfold Frame.value_ge. lia. Qed.

Lemma value_ge_transitive {K} : Transitive (@Frame.value_ge K).
Proof. intros a b c. unfold Frame.value_ge. lia. Qed.

(** A sorted arrangement always exists: sorting raises nothing. *)
Lemma sort_values_descending_exists {K} (s : list (K * Z)) :
  exists out, Frame.sort_values_descending s out.
Proof.
  exists (merge_sort Frame.value_ge s). split.
  - symmetry. apply merge_sort_Permutation.
  - apply (Sorted_merge_sort _ (Total0 := value_ge_total)).
Qed.

(** What [head n] keeps of a sorted series, and what it leaves out. *)
Lemma head_of_sorted {K} (s sorted : list (K * Z)) (n : nat) :
  Frame.sort_values_descending s sorted ->
  length (Frame.head n sorted) = Nat.min n (length s) /\
  StronglySorted Frame.value_ge (Frame.head n sorted) /\
  Permutation s (Frame.head n sorted ++ skipn n sorted) /\
  Forall (fun b => Forall (fun a => snd b <= snd a) (Frame.head n sorted))
         (skipn n sorted).
Proof.
  intros [Hperm Hsorted]. unfold Frame.head.
  apply (Sorted_StronglySorted _ (Transitive0 := value_ge_transitive)) in Hsorted.
  rewrite <- (firstn_skipn n sorted) in Hsorted.
  apply StronglySorted_app in Hsorted as (Hcross & Hl & _).
  repeat split.
  - rewrite length_firstn, (Permutation_length Hperm). reflexivity.
  - exact Hl.
  - rewrite firstn_skipn. exact Hperm.
  - apply Forall_forall. intros b Hb. apply Forall_forall. intros a Ha.
    apply (Hcross a b); assumption.
Qed.

(** C8, as dashboard.py has it: when the frame has the two columns,
    [plot_state_comparison] yields a result and raises nothing; whatever it
    yields has [min top_n (number of states)] entries, every earlier total at
    least every later one, taken from the state totals so that no state left
    out has a larger total than one kept; all states are there when [top_n]
    is at least their number.  The order among equal totals is not part of
    it. *)
Theorem plot_state_comparison_top_n (df : Frame.DataFrame) (top_n : nat)
    (s : list (string * Z)) :
  dashboard.state_totals df = Ok s ->
  (exists out, dashboard.plot_state_comparison df top_n (Ok out)) /\
  (forall res, dashboard.plot_state_comparison df top_n res ->
     exists out rest,
       res = Ok out /\
       length out = Nat.min top_n (length s) /\
       StronglySorted Frame.value_ge out /\
       Permutation s (out ++ rest) /\
       Forall (fun b => Forall (fun a => snd b <= snd a) out) rest /\
       ((length s <= top_n)%nat -> Permutation s out)).
Proof.
  intros Hs. unfold dashboard.plot_state_comparison. rewrite Hs. split.
  - destruct (sort_values_descending_exists s) as [sorted Hsorted].
    exists (Frame.head top_n sorted), sorted. split; [exact Hsorted | reflexivity].
  - intros res (sorted & Hsorted & ->).
    destruct (head_of_sorted s sorted top_n Hsorted) as (Hlen & Hss & Hperm & Hcut).
    exists (Frame.head top_n sorted), (skipn top_n sorted).
    repeat split; try assumption.
    intros Hall. destruct Hsorted as [Hp _].
    unfold Frame.head. rewrite firstn_all2; [exact Hp |].
    rewrite <- (Permutation_length Hp). exact Hall.
Qed.

Lemma plot_state_comparison_top_n_witness :
  dashboard.state_totals samples.three_states
    = Ok [("Bihar", 70); ("Delhi", 90); ("Goa", 65)] /\
  ((exists out, dashboard.plot_state_comparison samples.three_states 2 (Ok out)) /\
   (forall res, dashboard.plot_state_comparison samples.three_states 2 res ->
      exists out rest,
        res = Ok out /\
        length out = Nat.min 2 (length [("Bihar", 70); ("Delhi", 90); ("Goa", 65)]) /\
        StronglySorted Frame.value_ge out /\
        Permutation [("Bihar", 70); ("Delhi", 90); ("Goa", 65)] (out ++ rest) /\
        Forall (fun b => Forall (fun a => snd b <= snd a) out) rest /\
        ((length [("Bihar", 70); ("Delhi", 90); ("Goa", 65)] <= 2)%nat ->
         Permutation [("Bihar", 70); ("Delhi", 90); ("Goa", 65)] out))).
Proof.
  split.
  - vm_compute. reflexivity.
  - apply (plot_state_comparison_top_n samples.three_states 2).
    vm_compute. reflexivity.
Defined.

(** The two states with the largest totals, in that order, are a result for
    the three-state sample with [top_n = 2]. *)
Example plot_state_comparison_three_states :
  dashboard.plot_state_comparison samples.three_states 2
    (Ok [("Delhi", 90); ("Bihar", 70)]).
Proof.
  unfold dashboard.plot_state_comparison.
  replace (dashboard.state_totals samples.three_states)
    with (Ok (A := list (string * Z)) [("Bihar", 70); ("Delhi", 90); ("Goa", 65)])
    by (vm_compute; reflexivity).
  exists [("Delhi", 90); ("Bihar", 70); ("Goa", 65)]. split; [split |].
  - apply perm_swap.
  - repeat constructor; unfold Frame.value_ge; cbn; lia.
  - reflexivity.
Qed.

(** C8 as stated fails on ties: for eighteen states with equal totals, a
    rearrangement that is not in ascending order of the state is a result of
    [plot_state_comparison]. *)
Lemma tied_totals_in_any_order :
  dashboard.plot_state_comparison samples.tied_frame 18 (Ok samples.tied_outcome) /\
  Frame.ties_by_key_ascending samples.tied_outcome = false.
Proof.
  split; [| vm_compute; reflexivity].
  unfold dashboard.plot_state_comparison.
  replace (dashboard.state_totals samples.tied_frame)
    with (Ok (A := list (string * Z)) (List.map (fun s => (s, 1)) samples.tied_states))
    by (vm_compute; reflexivity).
  exists samples.tied_outcome. split; [split |].
  - apply (bool_decide_eq_true_1 _). vm_compute. reflexivity.
  - apply (bool_decide_eq_true_1 _). vm_compute. reflexivity.
  - vm_compute. reflexivity.
Qed.

(** ** Cells of a row *)

Lemma at_insert_same (f : Frame.cell -> Frame.cell) (r : list Frame.cell) (j : nat) :
  f Frame.NaN = Frame.NaN ->
  Frame.at_ (<[j := f (Frame.at_ r j)]> r) j = f (Frame.at_ r j).
Proof.
  intros HNaN. unfold Frame.at_.
  destruct (decide (j < length r)%nat) as [Hlt | Hge].
  - rewrite nth_lookup, list_lookup_insert_eq by exact Hlt. reflexivity.
  - rewrite list_insert_ge by lia.
    rewrite (nth_overflow r Frame.NaN) by lia. symmetry. exact HNaN.
Qed.

Lemma at_insert_other (c : Frame.cell) (r : list Frame.cell) (j k : nat) :
  j <> k -> Frame.at_ (<[j := c]> r) k = Frame.at_ r k.
Proof.
  intros Hne. unfold Frame.at_.
  rewrite !nth_lookup, list_lookup_insert_ne by exact Hne. reflexivity.
Qed.

Lemma index_of_nth (n : string) (cols : list string) (j : nat) :
  Frame.index_of n cols = Some j -> nth_error cols j = Some n.
Proof.
  revert j. induction cols as [| c cols IH]; intros j; cbn; [discriminate |].
  destruct (String.eqb_spec c n) as [-> | Hne].
  - intros [= <-]. reflexivity.
  - destruct (Frame.index_of n cols) as [k |]; cbn; [| discriminate].
    intros [= <-]. cbn. apply IH. reflexivity.
Qed.

(** Two labels found at the same position are the same label. *)
Lemma index_of_injective (n m : string) (cols : list string) (j : nat) :
  Frame.index_of n cols = Some j -> Frame.index_of m cols = Some j -> n = m.
Proof.
  intros Hn Hm. apply index_of_nth in Hn, Hm. congruence.
Qed.

(** One column-wise conversion seen from the cell under label [n]. *)
Lemma conversion_step (cols : list string) (col n : string)
    (f : Frame.cell -> Frame.cell) (r : list Frame.cell) (j : nat) :
  f Frame.NaN = Frame.NaN ->
  Frame.index_of n cols = Some j ->
  Frame.at_
    (match Frame.index_of col cols with
     | Some k => <[k := f (Frame.at_ r k)]> r
     | None => r
     end) j
  = if String.eqb n col then f (Frame.at_ r j) else Frame.at_ r j.
Proof.
  intros HNaN Hn.
  destruct (String.eqb_spec n col) as [<- | Hne].
  - rewrite Hn. apply at_insert_same. exact HNaN.
  - destruct (Frame.index_of col cols) as [k |] eqn:Hk; [| reflexivity].
    apply at_insert_other. intros ->. apply Hne.
    eapply index_of_injective; eassumption.
Qed.

Lemma date_value_NaN : analyze_enrollment.date_value Frame.NaN = Frame.NaN.
Proof. reflexivity. Qed.

Lemma to_numeric_coerce_NaN : analyze_enrollment.to_numeric_coerce Frame.NaN = Frame.NaN.
Proof. reflexivity. Qed.

Lemma to_numeric_coerce_idempotent (c : Frame.cell) :
  analyze_enrollment.to_numeric_coerce (analyze_enrollment.to_numeric_coerce c)
  = analyze_enrollment.to_numeric_coerce c.
Proof.
  destruct c as [| z | s | d]; cbn; try reflexivity.
  destruct (Parse.integer s); reflexivity.
Qed.

Lemma cleaned_NaN (n : string) : analyze_enrollment.cleaned n Frame.NaN = Frame.NaN.
Proof.
  unfold analyze_enrollment.cleaned.
  destruct (String.eqb n "date"); [reflexivity |].
  destruct (existsb _ _); reflexivity.
Qed.

(** What [clean_data] leaves in each cell of a row. *)
Lemma clean_row_cells (cols : list string) (i : nat) (r : list Frame.cell) (n : string) :
  Frame.index_of "date" cols = Some i ->
  Frame.loc (Frame.mkFrame cols []) (analyze_enrollment.clean_row cols i r) n
  = analyze_enrollment.cleaned n (Frame.loc (Frame.mkFrame cols []) r n).
Proof.
  intros Hdate. unfold Frame.loc. cbn [Frame.columns].
  destruct (Frame.index_of n cols) as [j |] eqn:Hn; [| symmetry; apply cleaned_NaN].
  unfold analyze_enrollment.clean_row, analyze_enrollment.convert_row,
    analyze_enrollment.numeric_cols.
  cbn [fold_left].
  rewrite !(conversion_step cols _ n analyze_enrollment.to_numeric_coerce _ j
              to_numeric_coerce_NaN Hn).
  pose proof (conversion_step cols "date" n analyze_enrollment.date_value r j
                date_value_NaN Hn) as Hd.
  rewrite Hdate in Hd. rewrite Hd.
  unfold analyze_enrollment.cleaned, analyze_enrollment.numeric_cols.
  cbn [existsb].
  destruct (String.eqb_spec n "date") as [-> | Hnd]; [reflexivity |].
  destruct (String.eqb n "age_0_5"), (String.eqb n "age_5_17"),
    (String.eqb n "age_18_greater"); cbn [orb];
    rewrite ?to_numeric_coerce_idempotent; reflexivity.
Qed.

(** ** analyze_enrollment.py: [clean_data] *)

Lemma to_datetime_raises (c : Frame.cell) :
  analyze_enrollment.parses c = false ->
  analyze_enrollment.to_datetime c
  = Raise (ValueError "time data doesn't match format").
Proof.
  unfold analyze_enrollment.parses.
  destruct c as [| z | s | d]; cbn [analyze_enrollment.to_datetime];
    try discriminate; try reflexivity.
  destruct (existsb _ _); [discriminate |].
  destruct (Parse.strptime s); [discriminate | reflexivity].
Qed.

Lemma to_datetime_returns (c : Frame.cell) :
  analyze_enrollment.parses c = true ->
  analyze_enrollment.to_datetime c = Ok (analyze_enrollment.date_value c).
Proof.
  unfold analyze_enrollment.parses, analyze_enrollment.date_value.
  destruct (analyze_enrollment.to_datetime c); [reflexivity | discriminate].
Qed.

(** The date conversion of a whole column: every row converted, or the
    exception of the first cell that does not parse. *)
Lemma assign_to_datetime (i : nat) (df : Frame.DataFrame) :
  Frame.assign i analyze_enrollment.to_datetime df
  = if forallb (fun r => analyze_enrollment.parses (Frame.at_ r i)) (Frame.rows df)
    then Ok (Frame.assign_total i analyze_enrollment.date_value df)
    else Raise (ValueError "time data doesn't match format").
Proof.
  destruct df as [cols rs]. unfold Frame.assign, Frame.assign_total.
  cbn [Frame.rows Frame.columns].
  induction rs as [| r rs IH]; [reflexivity |].
  cbn [forallb List.map mapM].
  destruct (analyze_enrollment.parses (Frame.at_ r i)) eqn:Hr; cbn [andb].
  - rewrite (to_datetime_returns _ Hr).
    unfold mbind, result_bind in *. cbn.
    destruct (mapM _ rs) as [rs' |] eqn:Hrs;
      destruct (forallb _ rs); cbn in *; try discriminate; congruence.
  - rewrite (to_datetime_raises _ Hr). reflexivity.
Qed.

Lemma convert_columns_rows (names : list string) (df : Frame.DataFrame) :
  fold_left
    (fun df col =>
       match Frame.index_of col (Frame.columns df) with
       | Some j => Frame.assign_total j analyze_enrollment.to_numeric_coerce df
       | None => df
       end) names df
  = Frame.mkFrame (Frame.columns df)
      (List.map
         (fun r =>
            fold_left
              (fun r col =>
                 match Frame.index_of col (Frame.columns df) with
                 | Some j => <[j := analyze_enrollment.to_numeric_coerce (Frame.at_ r j)]> r
                 | None => r
                 end) names r)
         (Frame.rows df)).
Proof.
  revert df. induction names as [| col names IH]; intros [cols rs].
  - cbn. rewrite List.map_id. reflexivity.
  - cbn [fold_left Frame.columns Frame.rows]. rewrite IH.
    destruct (Frame.index_of col cols) as [j |];
      cbn [Frame.assign_total Frame.columns Frame.rows].
    + rewrite List.map_map. reflexivity.
    + reflexivity.
Qed.

Lemma convert_numeric_rows (df : Frame.DataFrame) :
  analyze_enrollment.convert_numeric df
  = Frame.mkFrame (Frame.columns df)
      (List.map (analyze_enrollment.convert_row (Frame.columns df)) (Frame.rows df)).
Proof. apply convert_columns_rows. Qed.

(** [clean_data] in terms of the rows: with a [date] column, either some
    date does not parse and the call raises, or every row is converted and
    the result is what [dropna] makes of the converted rows. *)
Lemma clean_data_by_dates (df : Frame.DataFrame) (i : nat) :
  Frame.index_of "date" (List.map Parse.strip (Frame.columns df)) = Some i ->
  analyze_enrollment.clean_data df
  = if forallb (fun r => analyze_enrollment.parses (Frame.at_ r i)) (Frame.rows df)
    then Frame.dropna_all analyze_enrollment.key_columns
           (Frame.mkFrame (List.map Parse.strip (Frame.columns df))
              (List.map
                 (analyze_enrollment.clean_row
                    (List.map Parse.strip (Frame.columns df)) i)
                 (Frame.rows df)))
    else Raise (ValueError "time data doesn't match format").
Proof.
  intros Hdate. unfold analyze_enrollment.clean_data.
  cbn [Frame.columns]. rewrite Hdate, assign_to_datetime. cbn [Frame.rows].
  destruct (forallb _ (Frame.rows df)); [| reflexivity].
  unfold mbind, result_bind.
  rewrite convert_numeric_rows.
  unfold Frame.assign_total. cbn [Frame.columns Frame.rows].
  rewrite List.map_map. reflexivity.
Qed.

Lemma dropna_all_present (names : list string) (cols : list string)
    (rs : list (list Frame.cell)) :
  Frame.missing_labels (Frame.mkFrame cols []) names = [] ->
  Frame.dropna_all names (Frame.mkFrame cols rs)
  = Ok (Frame.mkFrame cols
          (List.filter
             (fun r => negb (forallb (fun n => Frame.isna
                                        (Frame.loc (Frame.mkFrame cols []) r n)) names))
             rs)).
Proof.
  intros Hnone. unfold Frame.dropna_all.
  change (Frame.missing_labels (Frame.mkFrame cols rs) names)
    with (Frame.missing_labels (Frame.mkFrame cols []) names).
  rewrite Hnone. reflexivity.
Qed.

Lemma dropna_all_absent (names : list string) (cols : list string)
    (rs : list (list Frame.cell)) :
  Frame.missing_labels (Frame.mkFrame cols []) names <> [] ->
  Frame.dropna_all names (Frame.mkFrame cols rs)
  = Raise (KeyError (Frame.missing_labels (Frame.mkFrame cols []) names)).
Proof.
  intros Hsome. unfold Frame.dropna_all.
  change (Frame.missing_labels (Frame.mkFrame cols rs) names)
    with (Frame.missing_labels (Frame.mkFrame cols []) names).
  destruct (Frame.missing_labels (Frame.mkFrame cols []) names);
    [contradiction | reflexivity].
Qed.

(** C4, as the script has it: with a [date] column, one row whose date
    does not parse under ['%d-%m-%Y'] makes [clean_data] raise ValueError, so
    no row of the batch is returned, and [main] ends in its error report; a
    missing date is not such a failure (it parses to NaT). *)
Theorem unparsable_date_aborts_cleaning (df : Frame.DataFrame) (i : nat)
    (r : list Frame.cell) :
  Frame.index_of "date" (List.map Parse.strip (Frame.columns df)) = Some i ->
  In r (Frame.rows df) ->
  analyze_enrollment.parses (Frame.at_ r i) = false ->
  analyze_enrollment.clean_data df
    = Raise (ValueError "time data doesn't match format") /\
  analyze_enrollment.main (Ok df)
    = analyze_enrollment.AnErrorOccurred
        (ValueError "time data doesn't match format") /\
  analyze_enrollment.to_datetime Frame.NaN = Ok Frame.NaN.
Proof.
  intros Hdate Hin Hbad.
  assert (Hraise : analyze_enrollment.clean_data df
                   = Raise (ValueError "time data doesn't match format")).
  { rewrite (clean_data_by_dates df i Hdate).
    destruct (forallb _ (Frame.rows df)) eqn:Hall; [| reflexivity].
    rewrite forallb_forall in Hall. specialize (Hall r Hin). cbn in Hall.
    congruence. }
  split; [exact Hraise |]. split; [| reflexivity].
  unfold analyze_enrollment.main, mbind, result_bind. rewrite Hraise. reflexivity.
Qed.

Lemma unparsable_date_aborts_cleaning_witness :
  Frame.index_of "date"
    (List.map Parse.strip (Frame.columns samples.one_bad_date)) = Some 0%nat /\
  In [Frame.Str "2025-03-02"; Frame.Str "B"; Frame.Str "South"; Frame.Num 110002;
      Frame.Num 10; Frame.Num 0; Frame.Num 0]
     (Frame.rows samples.one_bad_date) /\
  analyze_enrollment.parses
    (Frame.at_ [Frame.Str "2025-03-02"; Frame.Str "B"; Frame.Str "South";
                Frame.Num 110002; Frame.Num 10; Frame.Num 0; Frame.Num 0] 0) = false /\
  (analyze_enrollment.clean_data samples.one_bad_date
     = Raise (ValueError "time data doesn't match format") /\
   analyze_enrollment.main (Ok samples.one_bad_date)
     = analyze_enrollment.AnErrorOccurred
         (ValueError "time data doesn't match format") /\
   analyze_enrollment.to_datetime Frame.NaN = Ok Frame.NaN).
Proof.
  assert (H1 : Frame.index_of "date"
                 (List.map Parse.strip (Frame.columns samples.one_bad_date))
               = Some 0%nat) by (vm_compute; reflexivity).
  assert (H2 : In [Frame.Str "2025-03-02"; Frame.Str "B"; Frame.Str "South";
                   Frame.Num 110002; Frame.Num 10; Frame.Num 0; Frame.Num 0]
                  (Frame.rows samples.one_bad_date)) by (cbn; auto).
  assert (H3 : analyze_enrollment.parses
                 (Frame.at_ [Frame.Str "2025-03-02"; Frame.Str "B";
                             Frame.Str "South"; Frame.Num 110002; Frame.Num 10;
                             Frame.Num 0; Frame.Num 0] 0) = false)
    by (vm_compute; reflexivity).
  split; [exact H1 |]. split; [exact H2 |]. split; [exact H3 |].
  exact (unparsable_date_aborts_cleaning samples.one_bad_date 0 _ H1 H2 H3).
Defined.

(** C4 as stated fails: of two records, the second with its date written
    year first, [clean_data] returns neither; it raises. *)
Lemma bad_date_is_fatal_to_the_batch :
  analyze_enrollment.clean_data samples.one_bad_date
  = Raise (ValueError "time data doesn't match format").
Proof. vm_compute. reflexivity. Qed.

Lemma cleaned_bucket (c : Frame.cell) :
  analyze_enrollment.cleaned "age_0_5" c = analyze_enrollment.to_numeric_coerce c /\
  analyze_enrollment.cleaned "age_5_17" c = analyze_enrollment.to_numeric_coerce c /\
  analyze_enrollment.cleaned "age_18_greater" c = analyze_enrollment.to_numeric_coerce c.
Proof. repeat split. Qed.

Lemma cleaned_key (c : Frame.cell) :
  analyze_enrollment.cleaned "state" c = c /\
  analyze_enrollment.cleaned "district" c = c /\
  analyze_enrollment.cleaned "pincode" c = c.
Proof. repeat split. Qed.

(** The rows [clean_data] returns when it returns. *)
Lemma clean_data_rows (df : Frame.DataFrame) (cols : list string) (i : nat) :
  List.map Parse.strip (Frame.columns df) = cols ->
  Frame.index_of "date" cols = Some i ->
  forallb (fun r => analyze_enrollment.parses (Frame.at_ r i)) (Frame.rows df) = true ->
  Frame.missing_labels (Frame.mkFrame cols []) analyze_enrollment.key_columns = [] ->
  analyze_enrollment.clean_data df
  = Ok (Frame.mkFrame cols
          (List.filter (fun r => negb (analyze_enrollment.all_missing cols r))
             (List.map (analyze_enrollment.clean_row cols i) (Frame.rows df)))).
Proof.
  intros <- Hdate Hparse Hcols.
  rewrite (clean_data_by_dates df i Hdate), Hparse.
  apply dropna_all_present. exact Hcols.
Qed.

(** Text without a number is no numeral, so its conversion is a missing
    value; a whole-number numeral converts to its number. *)
Lemma no_digits_no_value (s : string) :
  forallb (fun c => negb (Parse.is_digit c)) (list_ascii_of_string s) = true ->
  Parse.digits s = None.
Proof.
  destruct s as [| c s]; [reflexivity |].
  cbn [list_ascii_of_string forallb Parse.digits Parse.digits_from].
  intros H. apply andb_prop in H as [Hc _]. apply negb_true_iff in Hc.
  rewrite Hc. reflexivity.
Qed.

Lemma no_number_weaken (s : string) :
  Parse.no_number s = true ->
  forallb (fun c => negb (Parse.is_digit c)) (list_ascii_of_string s) = true.
Proof.
  unfold Parse.no_number. intros H. rewrite forallb_forall in H |- *.
  intros c Hc. specialize (H c Hc).
  apply andb_prop in H as [H _]. apply andb_prop in H as [H _].
  apply andb_prop in H as [_ H]. exact H.
Qed.

Lemma no_number_not_integer (s : string) :
  Parse.no_number s = true -> Parse.integer s = None.
Proof.
  intros H. apply no_number_weaken in H.
  destruct s as [| c s]; [reflexivity |].
  assert (Hs : Parse.digits s = None).
  { apply no_digits_no_value. cbn [list_ascii_of_string forallb] in H.
    apply andb_prop in H as [_ H]. exact H. }
  pose proof (no_digits_no_value (String c s) H) as Hcs.
  destruct c as [[] [] [] [] [] [] [] []]; cbn [Parse.integer];
    first [exact Hcs | rewrite Hs; reflexivity].
Qed.

Lemma coerced_missing (c : Frame.cell) :
  analyze_enrollment.count_cell c = true ->
  Frame.isna (analyze_enrollment.to_numeric_coerce c)
  = match c with
    | Frame.NaN => true
    | Frame.Str s => Parse.no_number s
    | _ => false
    end.
Proof.
  destruct c as [| z | s | d]; cbn [analyze_enrollment.count_cell
    analyze_enrollment.to_numeric_coerce Frame.isna]; try reflexivity;
    [| discriminate].
  unfold Parse.count_text, Parse.whole_number. intros H.
  destruct (Parse.no_number s) eqn:Hno.
  - rewrite (no_number_not_integer s Hno). reflexivity.
  - rewrite orb_false_r in H.
    destruct (Parse.integer s); [reflexivity | discriminate].
Qed.







(** [main] has one clause for every exception of the pipeline. *)
Lemma main_reports_every_exception (loaded : result Frame.DataFrame) (e : exn) :
  (df ← loaded; analyze_enrollment.clean_data df) = Raise e ->
  analyze_enrollment.main loaded = analyze_enrollment.AnErrorOccurred e.
Proof. intros H. unfold analyze_enrollment.main. rewrite H. reflexivity. Qed.

(** C7, as the script has it: when [date] or one of the key columns is not
    in the frame (and no date fails to parse first), [clean_data] raises
    KeyError with the absent labels, so nothing is aggregated; [main] reports
    it through its single [except Exception] clause, like any other
    exception. *)
Theorem missing_column_raises_key_error (df : Frame.DataFrame) (cols : list string) :
  List.map Parse.strip (Frame.columns df) = cols ->
  Frame.missing_labels (Frame.mkFrame cols [])
    ("date" :: analyze_enrollment.key_columns) <> [] ->
  (forall i, Frame.index_of "date" cols = Some i ->
             forallb (fun r => analyze_enrollment.parses (Frame.at_ r i))
                     (Frame.rows df) = true) ->
  exists labels,
    labels <> [] /\
    labels = (if Frame.has_column (Frame.mkFrame cols []) "date"
              then Frame.missing_labels (Frame.mkFrame cols [])
                     analyze_enrollment.key_columns
              else ["date"]) /\
    analyze_enrollment.clean_data df = Raise (KeyError labels) /\
    analyze_enrollment.main (Ok df)
    = analyze_enrollment.AnErrorOccurred (KeyError labels) /\
    (forall loaded e,
       (d ← loaded; analyze_enrollment.clean_data d) = Raise e ->
       analyze_enrollment.main loaded = analyze_enrollment.AnErrorOccurred e).
Proof.
  intros <- Habsent Hparse.
  set (cols := List.map Parse.strip (Frame.columns df)) in *.
  assert (Hclean : exists labels,
             labels <> [] /\
             labels = (if Frame.has_column (Frame.mkFrame cols []) "date"
                       then Frame.missing_labels (Frame.mkFrame cols [])
                              analyze_enrollment.key_columns
                       else ["date"]) /\
             analyze_enrollment.clean_data df = Raise (KeyError labels)).
  { unfold Frame.has_column. cbn [Frame.columns].
    destruct (Frame.index_of "date" cols) as [i |] eqn:Hdate.
    - assert (Hkeys : Frame.missing_labels (Frame.mkFrame cols [])
                        analyze_enrollment.key_columns <> []).
      { intros Hnil. apply Habsent.
        unfold Frame.missing_labels in *. cbn [List.filter].
        unfold Frame.has_column at 1. cbn [Frame.columns].
        rewrite Hdate. cbn [negb]. exact Hnil. }
      eexists. split; [exact Hkeys |]. split; [reflexivity |].
      rewrite (clean_data_by_dates df i Hdate), (Hparse i eq_refl).
      apply dropna_all_absent. exact Hkeys.
    - exists ["date"]. split; [discriminate |]. split; [reflexivity |].
      unfold analyze_enrollment.clean_data. cbn [Frame.columns].
      fold cols. rewrite Hdate. reflexivity. }
  destruct Hclean as (labels & Hne & Hlabels & Hraise).
  exists labels. repeat split; try assumption.
  - apply main_reports_every_exception. exact Hraise.
  - apply main_reports_every_exception.
Qed.

Lemma missing_column_raises_key_error_witness :
  List.map Parse.strip (Frame.columns samples.no_age_5_17)
  = ["date"; "state"; "district"; "pincode"; "age_0_5"; "age_18_greater"] /\
  analyze_enrollment.clean_data samples.no_age_5_17 = Raise (KeyError ["age_5_17"]) /\
  exists labels,
    labels <> [] /\
    analyze_enrollment.clean_data samples.no_age_5_17 = Raise (KeyError labels).
Proof.
  assert (H1 : List.map Parse.strip (Frame.columns samples.no_age_5_17)
               = ["date"; "state"; "district"; "pincode"; "age_0_5"; "age_18_greater"])
    by (vm_compute; reflexivity).
  split; [exact H1 |]. split; [vm_compute; reflexivity |].
  destruct (missing_column_raises_key_error samples.no_age_5_17 _ H1)
    as (labels & Hne & _ & Hraise & _).
  - vm_compute. discriminate.
  - intros i Hi. vm_compute in Hi. injection Hi as <-. vm_compute. reflexivity.
  - exists labels. split; assumption.
Defined.

(** C7 as stated fails on the reporting: a frame without a column, a date
    that does not parse and a directory without input files all end in the
    same clause of [main]; in analysis.py a missing column ends in the generic
    clause as well, only the missing file has a clause of its own. *)
Lemma missing_column_meets_the_catch_all :
  analyze_enrollment.main (Ok samples.no_age_5_17)
    = analyze_enrollment.AnErrorOccurred (KeyError ["age_5_17"]) /\
  analyze_enrollment.main (Ok samples.no_date)
    = analyze_enrollment.AnErrorOccurred (KeyError ["date"]) /\
  analyze_enrollment.main (Ok samples.one_bad_date)
    = analyze_enrollment.AnErrorOccurred (ValueError "time data doesn't match format") /\
  analyze_enrollment.main (Raise (ValueError "No objects to concatenate"))
    = analyze_enrollment.AnErrorOccurred (ValueError "No objects to concatenate") /\
  analysis.script
    (Some (Frame.mkFrame ["State Name"; "Enrolment Count"]
             [[Frame.Str "Goa"; Frame.Num 60]]))
    = analysis.AnErrorOccurred (KeyError ["Population"]).
Proof. repeat split; vm_compute; reflexivity. Qed.

(** ** app.py: the rolling mean *)

Lemma skipn_cons_inv {A} (d : A) (l : list A) (i : nat) (v : A) (t : list A) :
  skipn i l = v :: t -> (i < length l)%nat /\ nth i l d = v /\ skipn (S i) l = t.
Proof.
  revert l. induction i as [| i IH]; intros [| x l] H; cbn in H; try discriminate.
  - injection H as -> ->. cbn. repeat split. lia.
  - destruct (IH l H) as (Hlt & Hnth & Hskip). cbn. repeat split; auto. lia.
Qed.

Lemma prefix_sum_succ (l : list Z) (k : nat) :
  fold_right Z.add 0 (firstn (S k) l) = fold_right Z.add 0 (firstn k l) + nth k l 0.
Proof.
  revert k. induction l as [| x l IH]; intros k.
  - destruct k; reflexivity.
  - destruct k as [| k].
    + cbn. destruct l; cbn; lia.
    + change (firstn (S (S k)) (x :: l)) with (x :: firstn (S k) l).
      change (firstn (S k) (x :: l)) with (x :: firstn k l).
      cbn [fold_right nth]. rewrite IH. lia.
Qed.

Lemma firstn_split {A} (l : list A) (a b : nat) :
  (a <= b)%nat -> firstn b l = (firstn a l ++ firstn (b - a) (skipn a l))%list.
Proof.
  revert l b. induction a as [| a IH]; intros l b Hab.
  - cbn. rewrite Nat.sub_0_r. reflexivity.
  - destruct b as [| b]; [lia |]. destruct l as [| x l].
    + cbn. rewrite firstn_nil. reflexivity.
    + cbn. f_equal. apply IH. lia.
Qed.

(** The sum over a window is a difference of two prefix sums. *)
Lemma window_sum (l : list Z) (a b : nat) :
  (a <= b)%nat ->
  fold_right Z.add 0 (firstn (b - a) (skipn a l))
  = fold_right Z.add 0 (firstn b l) - fold_right Z.add 0 (firstn a l).
Proof.
  intros Hab. rewrite (firstn_split l a b Hab).
  generalize (firstn a l) as p. generalize (firstn (b - a) (skipn a l)) as q.
  intros q p. induction p as [| x p IH]; cbn; [lia |]. rewrite IH. lia.
Qed.

Lemma window_length (l : list Z) (a b : nat) :
  (b <= length l)%nat -> length (firstn (b - a) (skipn a l)) = (b - a)%nat.
Proof. intros Hb. rewrite length_firstn, length_skipn. lia. Qed.

Lemma roll_mean_invariant (window : nat) (values : list Z) :
  (1 <= window)%nat ->
  forall (todo : list Z) (i : nat) (sum_x : Z) (nobs : nat),
    skipn i values = todo ->
    sum_x = fold_right Z.add 0 (firstn i values)
            - fold_right Z.add 0 (firstn (i - window) values) ->
    nobs = (i - (i - window))%nat ->
    app.roll_mean window 1 values i todo sum_x nobs
    = List.map (fun j => app.mean (app.preceding window values j))
               (seq i (length todo)).
Proof.
  intros Hw todo. induction todo as [| v todo IH]; intros i sum_x nobs Hskip Hsum Hobs.
  - reflexivity.
  - destruct (skipn_cons_inv 0 values i v todo Hskip) as (Hlt & Hv & Hskip').
    cbn [app.roll_mean length seq List.map].
    assert (Hstep :
      (if (window <=? i)%nat
       then (sum_x - nth (i - window) values 0, Nat.pred nobs)
       else (sum_x, nobs))
      = (fold_right Z.add 0 (firstn (S i) values)
         - fold_right Z.add 0 (firstn (S i - window) values) - v,
         (S i - (S i - window) - 1)%nat)).
    { destruct (window <=? i)%nat eqn:Hwi.
      - apply Nat.leb_le in Hwi.
        replace (S i - window)%nat with (S (i - window)) by lia.
        rewrite !prefix_sum_succ, Hv. f_equal; lia.
      - apply Nat.leb_gt in Hwi.
        replace (S i - window)%nat with 0%nat by lia.
        replace (i - window)%nat with 0%nat in Hsum, Hobs by lia.
        rewrite prefix_sum_succ, Hv. f_equal; lia. }
    rewrite Hstep.
    replace (fold_right Z.add 0 (firstn (S i) values)
             - fold_right Z.add 0 (firstn (S i - window) values) - v + v)
      with (fold_right Z.add 0 (firstn (S i) values)
            - fold_right Z.add 0 (firstn (S i - window) values)) by lia.
    replace (S (S i - (S i - window) - 1)) with (S i - (S i - window))%nat by lia.
    f_equal.
    + unfold app.calc_mean, app.mean, app.preceding.
      rewrite window_sum by lia. rewrite window_length by lia.
      replace ((1 <=? S i - (S i - window))%nat && (0 <? S i - (S i - window))%nat)
        with true; [reflexivity |].
      symmetry. apply andb_true_intro. split.
      * apply Nat.leb_le. lia.
      * apply Nat.ltb_lt. lia.
    + apply IH; [exact Hskip' | reflexivity | reflexivity].
Qed.

(** C9: for a window of at least one point, the rolling mean with
    [min_periods=1] raises nothing and gives, at each position, the mean of
    the points from [window - 1] positions back up to that position, as many
    as there are; [rolling_mean([10, 20, 30], window=2)] is [10, 15, 25]. *)
Theorem rolling_mean_is_window_mean (window : nat) (values : list Z) :
  (1 <= window)%nat ->
  app.rolling_mean window 1 values = Ok (app.spec_rolling_mean window values) /\
  (forall i, (i < length values)%nat ->
     nth i (app.spec_rolling_mean window values) S754_nan
     = app.mean (firstn (Nat.min (S i) window) (skipn (S i - window) values))) /\
  app.rolling_mean 2 1 [10; 20; 30]
  = Ok [Binary64.of_Z 10; Binary64.of_Z 15; Binary64.of_Z 25].
Proof.
  intros Hw. split; [| split].
  - unfold app.rolling_mean.
    replace (window <? 1)%nat with false by (symmetry; apply Nat.ltb_ge; exact Hw).
    f_equal. unfold app.spec_rolling_mean.
    apply (roll_mean_invariant window values Hw values 0 0 0); reflexivity.
  - intros i Hi. unfold app.spec_rolling_mean.
    rewrite (nth_indep _ S754_nan (app.mean (app.preceding window values 0)))
      by (rewrite length_map, length_seq; exact Hi).
    rewrite (List.map_nth (fun j => app.mean (app.preceding window values j))).
    rewrite seq_nth by exact Hi. cbn [Nat.add].
    unfold app.preceding. do 2 f_equal. lia.
  - vm_compute. reflexivity.
Qed.

Lemma rolling_mean_is_window_mean_witness :
  (1 <= 7)%nat /\
  app.ma7 [3; 1; 4; 1; 5; 9; 2; 6; 5; 3]
  = Ok (app.spec_rolling_mean 7 [3; 1; 4; 1; 5; 9; 2; 6; 5; 3]).
Proof.
  assert (H : (1 <= 7)%nat) by lia.
  split; [exact H |].
  exact (proj1 (rolling_mean_is_window_mean 7 [3; 1; 4; 1; 5; 9; 2; 6; 5; 3] H)).
Defined.

(** ** generate_data.py: the demographic splits *)

(** The splits of a row are not bounded by its total through the arithmetic
    alone.  On a weekday in March, with [poisson = 497],
    [state_factor = 1.0080482897384304] and
    [male_ratio = 0.48702594810379246] (both inside the ranges of their
    draws), the base value is 500.99999999999994: the total is 500, while
    the two products round up to 244.0 and 257.0, and 244 + 257 = 501.
    These three values are chosen, not drawn: whether the one stream that
    the script seeds ever yields such a row is not decided here. *)
Lemma float_gender_split_exceeds_total :
  SFleb (Binary64.lit 5 10) (S754_finite false 4539845902037461 (-52)) = true /\
  SFltb (S754_finite false 4539845902037461 (-52)) (Binary64.of_Z 2) = true /\
  SFleb (Binary64.lit 48 100) (S754_finite false 8773479513600009 (-54)) = true /\
  SFltb (S754_finite false 8773479513600009 (-54)) (Binary64.lit 52 100) = true /\
  generate_data.base_enrollments 3 0 (S754_finite false 4539845902037461 (-52)) 497
    = S754_finite false 8813685208252415 (-44) /\
  generate_data.make_row 3 0 (S754_finite false 4539845902037461 (-52)) 497
                         (S754_finite false 8773479513600009 (-54))
    = Some (generate_data.mkRow 500 244 257 125 275 100) /\
  (500 <? 244 + 257) = true.
Proof. repeat split; vm_compute; reflexivity. Qed.

(* ===================================================================== *)
(** * Part III: further properties of the scripts *)
(* ===================================================================== *)

(** ** Group-by: the groups, their order and their entries *)

Section GroupBy.

Context {K : Type} (cmp : K -> K -> comparison).
Hypothesis cmp_eq : forall a b, cmp a b = Eq -> a = b.
Hypothesis cmp_refl : forall a, cmp a a = Eq.
Hypothesis cmp_antisym : forall a b, cmp a b = CompOpp (cmp b a).
Hypothesis cmp_trans : forall a b c, cmp a b = Lt -> cmp b c = Lt -> cmp a c = Lt.

Lemma group_add_keys (k : K) (v : Z) (g : list (K * Z)) (x : K * Z) :
  In x (Frame.group_add cmp k v g) -> fst x = k \/ exists y, In y g /\ fst y = fst x.
Proof.
  induction g as [| [k' v'] g IH]; cbn [Frame.group_add].
  - intros [<- | []]. left. reflexivity.
  - destruct (cmp k k') eqn:Hc.
    + intros [<- | Hin].
      * right. exists (k', v'). split; [left; reflexivity | reflexivity].
      * right. exists x. split; [right; exact Hin | reflexivity].
    + intros [<- | Hin]; [left; reflexivity |].
      right. exists x. split; [exact Hin | reflexivity].
    + intros [<- | Hin].
      * right. exists (k', v'). split; [left; reflexivity | reflexivity].
      * destruct (IH Hin) as [Hk | (y & Hy & Hfst)]; [left; exact Hk |].
        right. exists y. split; [right; exact Hy | exact Hfst].
Qed.

Lemma group_add_sorted (k : K) (v : Z) (g : list (K * Z)) :
  StronglySorted (Frame.key_lt cmp) g ->
  StronglySorted (Frame.key_lt cmp) (Frame.group_add cmp k v g).
Proof.
  induction g as [| [k' v'] g IH]; cbn [Frame.group_add]; intros Hs.
  - repeat constructor.
  - apply StronglySorted_inv in Hs as [Hg Hall].
    destruct (cmp k k') eqn:Hc.
    + constructor; [exact Hg |].
      eapply Forall_impl; [exact Hall |]. intros y Hy. exact Hy.
    + constructor; [constructor; assumption |].
      constructor; [exact Hc |].
      eapply Forall_impl; [exact Hall |]. intros y Hy.
      unfold Frame.key_lt in *. cbn [fst] in *. eapply cmp_trans; eassumption.
    + constructor; [apply IH; exact Hg |].
      apply List.Forall_forall. intros x Hx.
      destruct (group_add_keys k v g x Hx) as [Hk | (y & Hy & Hfst)].
      * unfold Frame.key_lt. cbn [fst]. rewrite Hk, cmp_antisym, Hc. reflexivity.
      * rewrite List.Forall_forall in Hall. specialize (Hall y Hy).
        unfold Frame.key_lt in *. rewrite <- Hfst. exact Hall.
Qed.

(** The groups come in strictly ascending order of their keys. *)
Lemma groupby_sum_sorted (key : list Frame.cell -> option K)
    (val : list Frame.cell -> Z) (rs : list (list Frame.cell)) :
  StronglySorted (Frame.key_lt cmp) (Frame.groupby_sum cmp key val rs).
Proof.
  unfold Frame.groupby_sum.
  assert (H : forall g, StronglySorted (Frame.key_lt cmp) g ->
            StronglySorted (Frame.key_lt cmp)
              (fold_left (fun g r => match key r with
                                     | Some k => Frame.group_add cmp k (val r) g
                                     | None => g
                                     end) rs g)).
  { induction rs as [| r rs IH]; intros g Hg; cbn [fold_left]; [exact Hg |].
    apply IH. destruct (key r); [apply group_add_sorted |]; exact Hg. }
  apply H. constructor.
Qed.

Lemma total_where_group_add (p : K -> bool) (k : K) (v : Z) (g : list (K * Z)) :
  Frame.total_where p (Frame.group_add cmp k v g)
  = Frame.total_where p g + (if p k then v else 0).
Proof.
  unfold Frame.total_where.
  induction g as [| [k' v'] g IH]; cbn [Frame.group_add List.filter fst].
  - destruct (p k); cbn; unfold Frame.total; cbn; lia.
  - destruct (cmp k k') eqn:Hc; cbn [List.filter fst].
    + apply cmp_eq in Hc. subst k'.
      destruct (p k); unfold Frame.total; cbn; lia.
    + destruct (p k), (p k'); unfold Frame.total; cbn; lia.
    + destruct (p k') eqn:Hp'.
      * unfold Frame.total in *. cbn [List.map fold_right snd]. rewrite IH. lia.
      * exact IH.
Qed.

(** The entries whose key passes a test add up to the sum over the rows
    whose key passes it. *)
Lemma total_where_groupby_sum (p : K -> bool) (key : list Frame.cell -> option K)
    (val : list Frame.cell -> Z) (rs : list (list Frame.cell)) :
  Frame.total_where p (Frame.groupby_sum cmp key val rs)
  = Frame.column_sum val (List.filter (Frame.key_passes key p) rs).
Proof.
  unfold Frame.groupby_sum.
  assert (H : forall g,
            Frame.total_where p
              (fold_left (fun g r => match key r with
                                     | Some k => Frame.group_add cmp k (val r) g
                                     | None => g
                                     end) rs g)
            = Frame.total_where p g
              + Frame.column_sum val (List.filter (Frame.key_passes key p) rs)).
  { induction rs as [| r rs IH]; intros g; cbn [fold_left List.filter].
    - unfold Frame.column_sum. cbn. lia.
    - rewrite IH. unfold Frame.key_passes at 2.
      destruct (key r) as [k |].
      + rewrite total_where_group_add.
        destruct (p k); unfold Frame.column_sum; cbn; lia.
      + reflexivity. }
  rewrite H. reflexivity.
Qed.

Lemma group_add_has_key (k : K) (v : Z) (g : list (K * Z)) :
  In k (List.map fst (Frame.group_add cmp k v g)).
Proof.
  induction g as [| [k' v'] g IH]; cbn [Frame.group_add].
  - left. reflexivity.
  - destruct (cmp k k') eqn:Hc; cbn [List.map fst In].
    + left. symmetry. apply cmp_eq. exact Hc.
    + left. reflexivity.
    + right. exact IH.
Qed.

Lemma group_add_keeps_keys (k k0 : K) (v : Z) (g : list (K * Z)) :
  In k0 (List.map fst g) -> In k0 (List.map fst (Frame.group_add cmp k v g)).
Proof.
  induction g as [| [k' v'] g IH]; cbn [Frame.group_add List.map fst In]; [tauto |].
  destruct (cmp k k'); cbn [List.map fst In]; tauto.
Qed.

(** The keys of the groups are the keys of the rows. *)
Lemma groupby_sum_keys (key : list Frame.cell -> option K)
    (val : list Frame.cell -> Z) (rs : list (list Frame.cell)) (k : K) :
  In k (List.map fst (Frame.groupby_sum cmp key val rs))
  <-> exists r, In r rs /\ key r = Some k.
Proof.
  unfold Frame.groupby_sum.
  assert (H : forall g,
            In k (List.map fst
                    (fold_left (fun g r => match key r with
                                           | Some k => Frame.group_add cmp k (val r) g
                                           | None => g
                                           end) rs g))
            <-> In k (List.map fst g) \/ exists r, In r rs /\ key r = Some k).
  { induction rs as [| r rs IH]; intros g; cbn [fold_left].
    - split; [tauto |]. intros [H | (r & [] & _)]. exact H.
    - rewrite IH. split.
      + intros [Hin | (r' & Hr' & Hk)].
        * destruct (key r) as [k1 |] eqn:Hkey; [| tauto].
          apply in_map_iff in Hin as (x & Hfst & Hx).
          destruct (group_add_keys k1 (val r) g x Hx) as [Hk | (y & Hy & Hfy)].
          -- right. exists r. split; [left; reflexivity | congruence].
          -- left. apply in_map_iff. exists y. split; [congruence | exact Hy].
        * right. exists r'. split; [right; exact Hr' | exact Hk].
      + intros [Hin | (r' & [<- | Hr'] & Hk)].
        * left. destruct (key r); [apply group_add_keeps_keys |]; exact Hin.
        * left. rewrite Hk. apply group_add_has_key.
        * right. exists r'. split; assumption. }
  rewrite H. cbn [List.map In]. tauto.
Qed.

(** In a list in strictly ascending key order, a key has one entry. *)
Lemma sorted_entry_unique (g : list (K * Z)) (k : K) (v : Z) :
  StronglySorted (Frame.key_lt cmp) g ->
  In (k, v) g ->
  Frame.total_where (fun k' => Frame.is_eq (cmp k k')) g = v.
Proof.
  unfold Frame.total_where.
  induction g as [| [k' v'] g IH]; intros Hs Hin; [destruct Hin |].
  apply StronglySorted_inv in Hs as [Hg Hall]. cbn [List.filter fst].
  destruct Hin as [[= -> ->] | Hin].
  - rewrite cmp_refl. cbn [Frame.is_eq].
    assert (Hnone : List.filter (fun x => Frame.is_eq (cmp k (fst x))) g = []).
    { clear IH Hg. induction g as [| y g IHg]; [reflexivity |].
      apply Forall_cons in Hall as [Hy Hall]. cbn [List.filter].
      unfold Frame.key_lt in Hy. cbn [fst] in Hy. rewrite Hy. cbn [Frame.is_eq].
      apply IHg. exact Hall. }
    rewrite Hnone. unfold Frame.total. cbn. lia.
  - rewrite List.Forall_forall in Hall. pose proof (Hall _ Hin) as Hlt.
    unfold Frame.key_lt in Hlt. cbn [fst] in Hlt.
    rewrite cmp_antisym, Hlt. cbn [CompOpp Frame.is_eq].
    apply IH; assumption.
Qed.

Lemma sorted_keys_NoDup (g : list (K * Z)) :
  StronglySorted (Frame.key_lt cmp) g -> List.NoDup (List.map fst g).
Proof.
  induction g as [| [k v] g IH]; intros Hs; cbn [List.map fst]; [constructor |].
  apply StronglySorted_inv in Hs as [Hg Hall].
  apply List.NoDup_cons; [| apply IH; exact Hg].
  intros Hin. apply in_map_iff in Hin as (y & Hfst & Hy).
  rewrite List.Forall_forall in Hall. specialize (Hall y Hy).
  unfold Frame.key_lt in Hall. cbn [fst] in Hall.
  rewrite Hfst, cmp_refl in Hall. discriminate.
Qed.

Lemma existsb_is_eq (k : K) (l : list K) :
  existsb (fun k' => Frame.is_eq (cmp k k')) l = true <-> In k l.
Proof.
  rewrite existsb_exists. split.
  - intros (k' & Hin & Heq). destruct (cmp k k') eqn:Hc; try discriminate.
    apply cmp_eq in Hc. subst. exact Hin.
  - intros Hin. exists k. split; [exact Hin |]. rewrite cmp_refl. reflexivity.
Qed.

Lemma distinct_In (l : list K) (k : K) : In k (Frame.distinct cmp l) <-> In k l.
Proof.
  induction l as [| a l IH]; cbn [Frame.distinct]; [tauto |].
  destruct (existsb _ l) eqn:He.
  - rewrite IH. apply existsb_is_eq in He. cbn [In]. split; [tauto |].
    intros [<- | H]; assumption.
  - cbn [In]. rewrite IH. tauto.
Qed.

Lemma distinct_NoDup (l : list K) : List.NoDup (Frame.distinct cmp l).
Proof.
  induction l as [| a l IH]; cbn [Frame.distinct]; [constructor |].
  destruct (existsb _ l) eqn:He; [exact IH |].
  apply List.NoDup_cons; [| exact IH].
  rewrite distinct_In. intros Hin. apply existsb_is_eq in Hin. congruence.
Qed.

Lemma omap_In (key : list Frame.cell -> option K) (rs : list (list Frame.cell)) (k : K) :
  In k (omap key rs) <-> exists r, In r rs /\ key r = Some k.
Proof.
  rewrite <- list_elem_of_In, list_elem_of_omap.
  split; intros (r & Hr & Hk); exists r; split; try exact Hk;
    apply list_elem_of_In; exact Hr.
Qed.

(** There are as many groups as distinct keys. *)
Lemma groupby_sum_length (key : list Frame.cell -> option K)
    (val : list Frame.cell -> Z) (rs : list (list Frame.cell)) :
  length (Frame.groupby_sum cmp key val rs) = Frame.nunique cmp key rs.
Proof.
  unfold Frame.nunique.
  rewrite <- (length_map fst (Frame.groupby_sum cmp key val rs)).
  apply Permutation_length, Permutation.NoDup_Permutation.
  - apply sorted_keys_NoDup, groupby_sum_sorted.
  - apply distinct_NoDup.
  - intros k. rewrite groupby_sum_keys, distinct_In, omap_In. reflexivity.
Qed.

Lemma group_add_below_all (k : K) (v : Z) (g : list (K * Z)) :
  Forall (fun x => cmp k (fst x) = Lt) g -> Frame.group_add cmp k v g = (k, v) :: g.
Proof.
  destruct g as [| [k' v'] g]; [reflexivity |].
  intros H. apply Forall_cons in H as [Hk _]. cbn [fst] in Hk.
  cbn [Frame.group_add]. rewrite Hk. reflexivity.
Qed.

Lemma filter_group_add (p : K -> bool) (k : K) (v : Z) (g : list (K * Z)) :
  StronglySorted (Frame.key_lt cmp) g ->
  List.filter (fun x => p (fst x)) (Frame.group_add cmp k v g)
  = if p k then Frame.group_add cmp k v (List.filter (fun x => p (fst x)) g)
    else List.filter (fun x => p (fst x)) g.
Proof.
  induction g as [| [k' v'] g IH]; intros Hs; cbn [Frame.group_add List.filter fst].
  - destruct (p k); reflexivity.
  - apply StronglySorted_inv in Hs as [Hg Hall].
    destruct (cmp k k') eqn:Hc; cbn [List.filter fst].
    + apply cmp_eq in Hc. subst k'. destruct (p k); [| reflexivity].
      cbn [Frame.group_add]. rewrite cmp_refl. reflexivity.
    + destruct (p k) eqn:Hp; [| reflexivity].
      symmetry. apply group_add_below_all.
      assert (Hbelow : Forall (fun x => cmp k (fst x) = Lt)
                         (List.filter (fun x => p (fst x)) g)).
      { apply List.Forall_forall. intros y Hy. apply filter_In in Hy as [Hy _].
        rewrite List.Forall_forall in Hall. specialize (Hall y Hy).
        unfold Frame.key_lt in Hall. cbn [fst] in Hall.
        eapply cmp_trans; eassumption. }
      destruct (p k'); [constructor; [exact Hc | exact Hbelow] | exact Hbelow].
    + rewrite (IH Hg). destruct (p k'), (p k); try reflexivity.
      cbn [Frame.group_add]. rewrite Hc. reflexivity.
Qed.

(** Selecting rows by their key and grouping is the same as grouping and
    selecting groups by their key. *)
Lemma groupby_sum_select (p : K -> bool) (key : list Frame.cell -> option K)
    (val : list Frame.cell -> Z) (rs : list (list Frame.cell)) :
  Frame.groupby_sum cmp key val (List.filter (Frame.key_passes key p) rs)
  = List.filter (fun x => p (fst x)) (Frame.groupby_sum cmp key val rs).
Proof.
  unfold Frame.groupby_sum.
  assert (H : forall g,
            StronglySorted (Frame.key_lt cmp) g ->
            fold_left (fun g r => match key r with
                                  | Some k => Frame.group_add cmp k (val r) g
                                  | None => g
                                  end)
                      (List.filter (Frame.key_passes key p) rs)
                      (List.filter (fun x => p (fst x)) g)
            = List.filter (fun x => p (fst x))
                (fold_left (fun g r => match key r with
                                       | Some k => Frame.group_add cmp k (val r) g
                                       | None => g
                                       end) rs g)).
  { induction rs as [| r rs IH]; intros g Hg; cbn [fold_left List.filter];
      [reflexivity |].
    unfold Frame.key_passes at 1.
    destruct (key r) as [k |] eqn:Hkey.
    - rewrite <- (IH _ (group_add_sorted k (val r) g Hg)).
      rewrite (filter_group_add p k (val r) g Hg).
      destruct (p k); cbn [fold_left]; [rewrite Hkey |]; reflexivity.
    - apply IH. exact Hg. }
  apply (H []). constructor.
Qed.

End GroupBy.

(** ** The orders of the group keys *)

Lemma string_compare_eq (a b : string) : String.compare a b = Eq -> a = b.
Proof. apply String.compare_eq_iff. Qed.

Lemma string_compare_refl (a : string) : String.compare a a = Eq.
Proof.
  induction a as [| x a IH]; cbn; [reflexivity |].
  replace (Ascii.compare x x) with Eq
    by (symmetry; unfold Ascii.compare; apply N.compare_refl).
  exact IH.
Qed.

Lemma ascii_compare_lt_trans (a b c : ascii) :
  Ascii.compare a b = Lt -> Ascii.compare b c = Lt -> Ascii.compare a c = Lt.
Proof.
  unfold Ascii.compare. rewrite !N.compare_lt_iff. lia.
Qed.

Lemma string_compare_lt_trans (a b c : string) :
  String.compare a b = Lt -> String.compare b c = Lt -> String.compare a c = Lt.
Proof.
  revert b c. induction a as [| x a IH]; intros [| y b] [| z c]; cbn;
    try discriminate; try reflexivity.
  destruct (Ascii.compare x y) eqn:Hxy; try discriminate;
    destruct (Ascii.compare y z) eqn:Hyz; try discriminate.
  - apply Ascii.compare_eq_iff in Hxy, Hyz. subst.
    replace (Ascii.compare z z) with Eq
      by (symmetry; unfold Ascii.compare; apply N.compare_refl).
    apply IH.
  - apply Ascii.compare_eq_iff in Hxy. subst. rewrite Hyz. reflexivity.
  - apply Ascii.compare_eq_iff in Hyz. subst. rewrite Hxy. reflexivity.
  - rewrite (ascii_compare_lt_trans x y z Hxy Hyz). reflexivity.
Qed.

Lemma date_compare_eq (a b : Frame.date) : Frame.date_compare a b = Eq -> a = b.
Proof.
  destruct a as [ya ma da], b as [yb mb db]. unfold Frame.date_compare. cbn.
  destruct (ya ?= yb) eqn:Hy; try discriminate.
  destruct (ma ?= mb) eqn:Hm; try discriminate.
  intros Hd. apply Z.compare_eq in Hy, Hm, Hd. congruence.
Qed.

Lemma date_compare_refl (a : Frame.date) : Frame.date_compare a a = Eq.
Proof.
  destruct a as [y m d]. unfold Frame.date_compare. cbn.
  rewrite !Z.compare_refl. reflexivity.
Qed.

Lemma date_compare_antisym (a b : Frame.date) :
  Frame.date_compare a b = CompOpp (Frame.date_compare b a).
Proof.
  destruct a as [ya ma da], b as [yb mb db]. unfold Frame.date_compare. cbn.
  rewrite (Z.compare_antisym yb ya), (Z.compare_antisym mb ma),
    (Z.compare_antisym db da).
  destruct (yb ?= ya); cbn; try reflexivity.
  destruct (mb ?= ma); cbn; reflexivity.
Qed.

Lemma date_compare_lt_trans (a b c : Frame.date) :
  Frame.date_compare a b = Lt -> Frame.date_compare b c = Lt ->
  Frame.date_compare a c = Lt.
Proof.
  destruct a as [ya ma da], b as [yb mb db], c as [yc mc dc].
  unfold Frame.date_compare. cbn.
  destruct (ya ?= yb) eqn:H1; try discriminate;
    destruct (yb ?= yc) eqn:H2; try discriminate;
    try apply Z.compare_eq in H1; try apply Z.compare_eq in H2;
    try rewrite Z.compare_lt_iff in H1; try rewrite Z.compare_lt_iff in H2; subst.
  - rewrite Z.compare_refl.
    destruct (ma ?= mb) eqn:H3; try discriminate;
      destruct (mb ?= mc) eqn:H4; try discriminate;
      try apply Z.compare_eq in H3; try apply Z.compare_eq in H4;
      try rewrite Z.compare_lt_iff in H3; try rewrite Z.compare_lt_iff in H4; subst.
    + rewrite Z.compare_refl. rewrite !Z.compare_lt_iff. lia.
    + intros _ _. rewrite (proj2 (Z.compare_lt_iff _ _) H4). reflexivity.
    + intros _ _. rewrite (proj2 (Z.compare_lt_iff _ _) H3). reflexivity.
    + intros _ _. assert (H : ma < mc) by lia.
      rewrite (proj2 (Z.compare_lt_iff _ _) H). reflexivity.
  - intros _ _. rewrite (proj2 (Z.compare_lt_iff _ _) H2). reflexivity.
  - intros _ _. rewrite (proj2 (Z.compare_lt_iff _ _) H1). reflexivity.
  - intros _ _. assert (H : ya < yc) by lia.
    rewrite (proj2 (Z.compare_lt_iff _ _) H). reflexivity.
Qed.

Ltac order_laws :=
  first
    [ exact string_compare_eq | exact string_compare_refl
    | exact String.compare_antisym | exact string_compare_lt_trans
    | exact date_compare_eq | exact date_compare_refl
    | exact date_compare_antisym | exact date_compare_lt_trans ].

(** ** dashboard.py: state totals, metrics, filters, insights *)

Lemma is_eq_string_compare (a b : string) :
  Frame.is_eq (String.compare a b) = String.eqb b a.
Proof.
  destruct (String.eqb_spec b a) as [-> | Hne].
  - rewrite string_compare_refl. reflexivity.
  - destruct (String.compare a b) eqn:Hc; try reflexivity.
    apply string_compare_eq in Hc. congruence.
Qed.

Lemma state_mask_is_key_test (df : Frame.DataFrame) (values : list string)
    (r : list Frame.cell) :
  Frame.key_passes (fun r => Frame.text_key (Frame.loc df r "state"))
                   (fun k => existsb (String.eqb k) values) r
  = dashboard.isin values (Frame.loc df r "state").
Proof.
  unfold Frame.key_passes, dashboard.isin.
  destruct (Frame.loc df r "state"); reflexivity.
Qed.

(** X1.  The state totals hold an entry for a state exactly when some row
    has that state, and its value is the sum of [total_enrollments] over the
    rows of that state. *)
Theorem state_totals_entries (df : Frame.DataFrame) (s : list (string * Z))
    (st : string) (v : Z) :
  dashboard.state_totals df = Ok s ->
  (In (st, v) s <->
   (exists r, In r (Frame.rows df) /\ Frame.loc df r "state" = Frame.Str st) /\
   v = Frame.column_sum
         (fun r => Frame.cell_value (Frame.loc df r "total_enrollments"))
         (List.filter (fun r => dashboard.isin [st] (Frame.loc df r "state"))
                      (Frame.rows df))).
Proof.
  unfold dashboard.state_totals.
  destruct (Frame.missing_labels df ["state"; "total_enrollments"]); [| discriminate].
  intros [= <-].
  set (key := fun r => Frame.text_key (Frame.loc df r "state")).
  set (val := fun r => Frame.cell_value (Frame.loc df r "total_enrollments")).
  assert (Hsum : forall v',
            In (st, v') (Frame.groupby_sum String.compare key val (Frame.rows df)) ->
            v' = Frame.column_sum val
                   (List.filter (fun r => dashboard.isin [st] (Frame.loc df r "state"))
                                (Frame.rows df))).
  { intros v' Hin.
    assert (Hone : Frame.total_where (fun k' => Frame.is_eq (String.compare st k'))
                     (Frame.groupby_sum String.compare key val (Frame.rows df)) = v').
    { apply sorted_entry_unique;
        [order_laws | order_laws | apply groupby_sum_sorted; order_laws | exact Hin]. }
    rewrite <- Hone. rewrite total_where_groupby_sum by order_laws.
    f_equal. apply filter_ext. intros r.
    rewrite <- state_mask_is_key_test. unfold Frame.key_passes, key.
    destruct (Frame.text_key (Frame.loc df r "state")) as [k |]; [| reflexivity].
    cbn [existsb]. rewrite is_eq_string_compare, orb_false_r. reflexivity. }
  assert (Hkey : In st (List.map fst (Frame.groupby_sum String.compare key val
                                        (Frame.rows df)))
                 <-> exists r, In r (Frame.rows df)
                               /\ Frame.loc df r "state" = Frame.Str st).
  { rewrite groupby_sum_keys by order_laws.
    split; intros (r & Hr & Hk); exists r; split; try exact Hr.
    - unfold key in Hk. destruct (Frame.loc df r "state"); cbn in Hk; congruence.
    - unfold key. rewrite Hk. reflexivity. }
  split.
  - intros Hin. split; [| apply Hsum; exact Hin].
    apply Hkey. apply in_map_iff. exists (st, v). split; [reflexivity | exact Hin].
  - intros [Hrow ->]. apply Hkey in Hrow.
    apply in_map_iff in Hrow as ([st' v'] & Hfst & Hin). cbn in Hfst. subst st'.
    rewrite <- (Hsum v' Hin). exact Hin.
Qed.

Lemma state_totals_entries_witness :
  dashboard.state_totals samples.three_states
    = Ok [("Bihar", 70); ("Delhi", 90); ("Goa", 65)] /\
  (In ("Goa", 65) [("Bihar", 70); ("Delhi", 90); ("Goa", 65)] <->
   (exists r, In r (Frame.rows samples.three_states)
              /\ Frame.loc samples.three_states r "state" = Frame.Str "Goa") /\
   65 = Frame.column_sum
          (fun r => Frame.cell_value (Frame.loc samples.three_states r "total_enrollments"))
          (List.filter
             (fun r => dashboard.isin ["Goa"] (Frame.loc samples.three_states r "state"))
             (Frame.rows samples.three_states))).
Proof.
  assert (H : dashboard.state_totals samples.three_states
              = Ok [("Bihar", 70); ("Delhi", 90); ("Goa", 65)])
    by (vm_compute; reflexivity).
  split; [exact H |].
  exact (state_totals_entries samples.three_states _ "Goa" 65 H).
Defined.

(** X2.  The state totals come in strictly ascending order of the state
    name, so no state has two entries. *)
Theorem state_totals_ascending (df : Frame.DataFrame) (s : list (string * Z)) :
  dashboard.state_totals df = Ok s ->
  StronglySorted (Frame.key_lt String.compare) s /\ List.NoDup (List.map fst s).
Proof.
  unfold dashboard.state_totals.
  destruct (Frame.missing_labels df ["state"; "total_enrollments"]); [| discriminate].
  intros [= <-].
  assert (Hs : StronglySorted (Frame.key_lt String.compare)
                 (Frame.groupby_sum String.compare
                    (fun r => Frame.text_key (Frame.loc df r "state"))
                    (fun r => Frame.cell_value (Frame.loc df r "total_enrollments"))
                    (Frame.rows df))).
  { apply groupby_sum_sorted; order_laws. }
  split; [exact Hs |].
  apply (sorted_keys_NoDup String.compare); first [exact Hs | order_laws].
Qed.

Lemma state_totals_ascending_witness :
  dashboard.state_totals samples.three_states
    = Ok [("Bihar", 70); ("Delhi", 90); ("Goa", 65)] /\
  StronglySorted (Frame.key_lt String.compare)
                 [("Bihar", 70); ("Delhi", 90); ("Goa", 65)].
Proof.
  assert (H : dashboard.state_totals samples.three_states
              = Ok [("Bihar", 70); ("Delhi", 90); ("Goa", 65)])
    by (vm_compute; reflexivity).
  split; [exact H |].
  exact (proj1 (state_totals_ascending samples.three_states _ H)).
Defined.

Lemma missing_labels_nil (df : Frame.DataFrame) (names : list string) :
  Frame.missing_labels df names = [] <->
  forall n, In n names -> Frame.has_column df n = true.
Proof.
  unfold Frame.missing_labels.
  induction names as [| a names IH]; cbn [List.filter].
  - split; [intros _ n [] | reflexivity].
  - destruct (Frame.has_column df a) eqn:Ha; cbn [negb].
    + rewrite IH. split.
      * intros H n [<- | Hn]; auto.
      * intros H n Hn. apply H. right. exact Hn.
    + split; [discriminate |].
      intros H. specialize (H a (or_introl eq_refl)). congruence.
Qed.

(** X3.  The metrics count the groups: [total_states] is the number of
    entries of the state totals and [total_days] the number of daily
    totals. *)
Theorem metrics_count_the_groups (df : Frame.DataFrame) (m : dashboard.metrics) :
  dashboard.calculate_metrics df = Ok m ->
  exists s, dashboard.state_totals df = Ok s /\
            dashboard.total_states m = length s /\
            dashboard.total_days m = length (dashboard.daily_totals df).
Proof.
  unfold dashboard.calculate_metrics, dashboard.state_totals.
  destruct (Frame.missing_labels df ["total_enrollments"; "date"; "state"]) eqn:Hm;
    [| discriminate].
  intros [= <-].
  assert (Hs : Frame.missing_labels df ["state"; "total_enrollments"] = []).
  { apply missing_labels_nil. intros n Hn.
    apply (proj1 (missing_labels_nil _ _) Hm). cbn in Hn |- *. tauto. }
  rewrite Hs. eexists. split; [reflexivity |].
  cbn [dashboard.total_states dashboard.total_days]. unfold dashboard.daily_totals.
  split; symmetry; apply groupby_sum_length; order_laws.
Qed.

Lemma metrics_count_the_groups_witness :
  dashboard.calculate_metrics samples.dashboard_sample
    = Ok {| dashboard.metric_total_enrollments := 230;
            dashboard.avg_daily := Binary64.lit 230 3;
            dashboard.total_states := 3;
            dashboard.total_days := 3 |} /\
  exists s, dashboard.state_totals samples.dashboard_sample = Ok s /\
            3%nat = length s /\
            3%nat = length (dashboard.daily_totals samples.dashboard_sample).
Proof.
  assert (H : dashboard.calculate_metrics samples.dashboard_sample
              = Ok {| dashboard.metric_total_enrollments := 230;
                      dashboard.avg_daily := Binary64.lit 230 3;
                      dashboard.total_states := 3;
                      dashboard.total_days := 3 |})
    by (vm_compute; reflexivity).
  split; [exact H |].
  exact (metrics_count_the_groups samples.dashboard_sample _ H).
Defined.

(** What [apply_filters] returns: the rows that pass the masks, under the
    same header. *)
Lemma apply_filters_returns (date_range : list Frame.date)
    (selected_states center_types : list string) (df f : Frame.DataFrame) :
  dashboard.apply_filters date_range selected_states center_types df = Ok f ->
  f = Frame.select
        (fun r => dashboard.other_masks date_range center_types df r
                  && dashboard.isin selected_states (Frame.loc df r "state")) df.
Proof.
  unfold dashboard.apply_filters.
  destruct (Frame.missing_labels df _); [| discriminate].
  intros [= <-]. reflexivity.
Qed.

Lemma isin_text (values : list string) (c : Frame.cell) :
  dashboard.isin values c = true -> exists s, c = Frame.Str s /\ In s values.
Proof.
  destruct c as [| z | s | d]; cbn; try discriminate.
  intros H. apply existsb_exists in H as (s' & Hin & Heq).
  apply String.eqb_eq in Heq. subst s'. exists s. split; [reflexivity | exact Hin].
Qed.

Lemma isin_subset (small large : list string) (c : Frame.cell) :
  (forall s, In s small -> In s large) ->
  dashboard.isin small c = true -> dashboard.isin large c = true.
Proof.
  intros Hsub H. apply isin_text in H as (s & -> & Hin). cbn.
  apply existsb_exists. exists s. split; [auto | apply String.eqb_refl].
Qed.

Lemma filter_twice {A} (p q : A -> bool) (l : list A) :
  List.filter q (List.filter p l) = List.filter (fun x => p x && q x) l.
Proof.
  induction l as [| a l IH]; [reflexivity |]. cbn [List.filter].
  destruct (p a); cbn [List.filter andb]; [destruct (q a) |]; rewrite IH; reflexivity.
Qed.



(** X5.  Narrowing the selection of states removes the bars of the states
    left out and changes no other bar: the state totals under a selection
    are those under any wider selection, restricted to the selected
    states. *)
Theorem state_selection_restricts_state_totals (date_range : list Frame.date)
    (selected wider center_types : list string) (df f f' : Frame.DataFrame)
    (s' : list (string * Z)) :
  (forall st, In st selected -> In st wider) ->
  dashboard.apply_filters date_range selected center_types df = Ok f ->
  dashboard.apply_filters date_range wider center_types df = Ok f' ->
  dashboard.state_totals f' = Ok s' ->
  dashboard.state_totals f
  = Ok (List.filter (fun x => existsb (String.eqb (fst x)) selected) s').
Proof.
  intros Hsub Hf Hf' Hs'.
  apply apply_filters_returns in Hf. apply apply_filters_returns in Hf'.
  subst f f'. revert Hs'. unfold dashboard.state_totals.
  change (Frame.missing_labels (Frame.select _ df) ?l)
    with (Frame.missing_labels df l).
  destruct (Frame.missing_labels df ["state"; "total_enrollments"]); [| discriminate].
  intros [= <-]. f_equal. cbn [Frame.select Frame.rows].
  change (fun r => Frame.text_key (Frame.loc (Frame.select _ df) r "state"))
    with (fun r => Frame.text_key (Frame.loc df r "state")).
  change (fun r => Frame.cell_value (Frame.loc (Frame.select _ df) r "total_enrollments"))
    with (fun r => Frame.cell_value (Frame.loc df r "total_enrollments")).
  rewrite <- (groupby_sum_select String.compare string_compare_eq
                string_compare_refl String.compare_antisym string_compare_lt_trans
                (fun k => existsb (String.eqb k) selected)).
  f_equal. rewrite filter_twice. apply filter_ext. intros r.
  rewrite state_mask_is_key_test.
  destruct (dashboard.other_masks date_range center_types df r); cbn [andb];
    [| reflexivity].
  destruct (dashboard.isin selected (Frame.loc df r "state")) eqn:Hsel.
  - rewrite (isin_subset selected wider _ Hsub Hsel). reflexivity.
  - symmetry. apply andb_false_r.
Qed.

Lemma state_selection_restricts_state_totals_witness :
  (In "Goa" ["Goa"; "Delhi"; "Bihar"] /\ In "Delhi" ["Goa"; "Delhi"; "Bihar"]) /\
  dashboard.state_totals
    (Frame.select
       (fun r => dashboard.other_masks [] ["Permanent"; "Temporary"]
                   samples.dashboard_sample r
                 && dashboard.isin ["Goa"; "Delhi"]
                      (Frame.loc samples.dashboard_sample r "state"))
       samples.dashboard_sample)
  = Ok (List.filter (fun x => existsb (String.eqb (fst x)) ["Goa"; "Delhi"])
          [("Bihar", 70); ("Delhi", 90); ("Goa", 65)]).
Proof.
  split; [cbn; tauto |].
  apply (state_selection_restricts_state_totals
           [] ["Goa"; "Delhi"] ["Goa"; "Delhi"; "Bihar"] ["Permanent"; "Temporary"]
           samples.dashboard_sample _
           (Frame.select
              (fun r => dashboard.other_masks [] ["Permanent"; "Temporary"]
                          samples.dashboard_sample r
                        && dashboard.isin ["Goa"; "Delhi"; "Bihar"]
                             (Frame.loc samples.dashboard_sample r "state"))
              samples.dashboard_sample)).
  - intros st [<- | [<- | []]]; cbn; tauto.
  - reflexivity.
  - reflexivity.
  - vm_compute. reflexivity.
Defined.


(** The entry [idxmax] picks: one of the series, as large as every entry,
    and standing before every other entry as large. *)
Lemma idxmax_None {K} (g : list (K * Z)) : Frame.idxmax g = None -> g = [].
Proof.
  destruct g as [| x g]; [reflexivity |]. cbn [Frame.idxmax].
  destruct (Frame.idxmax g) as [y |]; [destruct (snd x <? snd y) |]; discriminate.
Qed.

Lemma idxmax_largest {K} (cmp : K -> K -> comparison)
    (cmp_refl : forall a, cmp a a = Eq) (g : list (K * Z)) (x : K * Z) :
  StronglySorted (Frame.key_lt cmp) g ->
  Frame.idxmax g = Some x ->
  In x g /\
  forall y, In y g ->
    snd y <= snd x /\ (snd y = snd x -> cmp (fst x) (fst y) <> Gt).
Proof.
  revert x. induction g as [| a g IH]; intros x Hs; [discriminate |].
  apply StronglySorted_inv in Hs as [Hg Hall]. cbn [Frame.idxmax].
  destruct (Frame.idxmax g) as [m |] eqn:Hm.
  - destruct (IH m Hg eq_refl) as [Hin Hmax].
    destruct (snd a <? snd m) eqn:Hlt; intros [= <-].
    + apply Z.ltb_lt in Hlt. split; [right; exact Hin |].
      intros y [<- | Hy]; [split; lia | apply Hmax; exact Hy].
    + apply Z.ltb_ge in Hlt. split; [left; reflexivity |].
      intros y [<- | Hy].
      * split; [lia |]. intros _. rewrite cmp_refl. discriminate.
      * split; [destruct (Hmax y Hy); lia |]. intros _.
        rewrite List.Forall_forall in Hall. rewrite (Hall y Hy). discriminate.
  - intros [= <-]. apply idxmax_None in Hm. subst g.
    split; [left; reflexivity |].
    intros y [<- | []]. split; [lia |]. intros _. rewrite cmp_refl. discriminate.
Qed.

Lemma state_totals_sorted (df : Frame.DataFrame) (s : list (string * Z)) :
  dashboard.state_totals df = Ok s ->
  StronglySorted (Frame.key_lt String.compare) s.
Proof.
  unfold dashboard.state_totals.
  destruct (Frame.missing_labels df ["state"; "total_enrollments"]); [| discriminate].
  intros [= <-]. apply groupby_sum_sorted; order_laws.
Qed.

Lemma top_state_returns (df : Frame.DataFrame) (x : string * Z) :
  dashboard.top_state df = Ok x ->
  exists s, dashboard.state_totals df = Ok s /\ Frame.idxmax s = Some x.
Proof.
  unfold dashboard.top_state.
  destruct (dashboard.state_totals df) as [s | e]; cbn; [| discriminate].
  destruct (Frame.idxmax s) as [y |] eqn:Hmax; [| discriminate].
  intros [= <-]. exists s. split; [reflexivity | exact Hmax].
Qed.

(** X6.  The top state of the insights is a state of the state totals, no
    state has a larger total, and among the states with that total it is the
    first in the order of the names. *)
Theorem top_state_is_the_first_largest (df : Frame.DataFrame) (st : string) (v : Z) :
  dashboard.top_state df = Ok (st, v) ->
  exists s, dashboard.state_totals df = Ok s /\ In (st, v) s /\
    forall st' v', In (st', v') s ->
      v' <= v /\ (v' = v -> String.compare st st' <> Gt).
Proof.
  intros Htop. apply top_state_returns in Htop as (s & Hs & Hmax).
  exists s. split; [exact Hs |].
  destruct (idxmax_largest String.compare string_compare_refl s (st, v)
              (state_totals_sorted df s Hs) Hmax) as [Hin Hall].
  split; [exact Hin |].
  intros st' v' Hin'. exact (Hall (st', v') Hin').
Qed.

Lemma top_state_is_the_first_largest_witness :
  dashboard.top_state samples.dashboard_sample = Ok ("Delhi", 90) /\
  exists s, dashboard.state_totals samples.dashboard_sample = Ok s /\
            In ("Delhi", 90) s.
Proof.
  assert (H : dashboard.top_state samples.dashboard_sample = Ok ("Delhi", 90))
    by (vm_compute; reflexivity).
  split; [exact H |].
  destruct (top_state_is_the_first_largest samples.dashboard_sample "Delhi" 90 H)
    as (s & Hs & Hin & _).
  exists s. split; [exact Hs | exact Hin].
Defined.

(** X7.  Whatever order the sort leaves among equal totals, the first bar
    of the state comparison carries the count the insights report for the top
    state. *)
Theorem first_bar_has_the_top_count (df : Frame.DataFrame) (n : nat)
    (x : string * Z) (rest : list (string * Z)) (st : string) (v : Z) :
  dashboard.plot_state_comparison df (S n) (Ok (x :: rest)) ->
  dashboard.top_state df = Ok (st, v) ->
  snd x = v.
Proof.
  intros Hplot Htop. apply top_state_returns in Htop as (s & Hs & Hmax).
  unfold dashboard.plot_state_comparison in Hplot. rewrite Hs in Hplot.
  destruct Hplot as (sorted & [Hperm Hsorted] & Hhead).
  destruct (idxmax_largest String.compare string_compare_refl s (st, v)
              (state_totals_sorted df s Hs) Hmax) as [Hin Hall].
  destruct sorted as [| y sorted]; [discriminate |].
  injection Hhead as -> _.
  apply (Sorted_StronglySorted _ (Transitive0 := value_ge_transitive)) in Hsorted.
  apply StronglySorted_inv in Hsorted as [_ Hge].
  assert (Hy : In y s).
  { apply (Permutation_in _ (Permutation_sym Hperm)). left. reflexivity. }
  assert (Hle : snd y <= v) by (destruct (Hall y Hy) as [H _]; exact H).
  assert (Hv : v <= snd y).
  { apply (Permutation_in _ Hperm) in Hin. destruct Hin as [-> | Hin]; [cbn; lia |].
    rewrite List.Forall_forall in Hge. exact (Hge _ Hin). }
  lia.
Qed.

Lemma first_bar_has_the_top_count_witness :
  dashboard.plot_state_comparison samples.three_states 2
    (Ok [("Delhi", 90); ("Bihar", 70)]) /\
  dashboard.top_state samples.three_states = Ok ("Delhi", 90) /\
  snd ("Delhi", 90) = 90.
Proof.
  assert (Hplot : dashboard.plot_state_comparison samples.three_states 2
                    (Ok [("Delhi", 90); ("Bihar", 70)])).
  { unfold dashboard.plot_state_comparison.
    replace (dashboard.state_totals samples.three_states)
      with (Ok (A := list (string * Z)) [("Bihar", 70); ("Delhi", 90); ("Goa", 65)])
      by (vm_compute; reflexivity).
    exists [("Delhi", 90); ("Bihar", 70); ("Goa", 65)]. split; [split |].
    - apply perm_swap.
    - repeat constructor; unfold Frame.value_ge; cbn; lia.
    - reflexivity. }
  assert (Htop : dashboard.top_state samples.three_states = Ok ("Delhi", 90))
    by (vm_compute; reflexivity).
  split; [exact Hplot |]. split; [exact Htop |].
  exact (first_bar_has_the_top_count samples.three_states 1 _ _ "Delhi" 90 Hplot Htop).
Defined.

Lemma no_keys_no_groups {K} (cmp : K -> K -> comparison)
    (cmp_eq : forall a b, cmp a b = Eq -> a = b)
    (key : list Frame.cell -> option K) (val : list Frame.cell -> Z)
    (rs : list (list Frame.cell)) :
  Frame.groupby_sum cmp key val rs = [] <-> forall r, In r rs -> key r = None.
Proof.
  split.
  - intros Hnil r Hr. destruct (key r) as [k |] eqn:Hk; [| reflexivity].
    assert (Hin : In k (List.map fst (Frame.groupby_sum cmp key val rs))).
    { apply (groupby_sum_keys cmp cmp_eq). exists r. split; assumption. }
    rewrite Hnil in Hin. destruct Hin.
  - intros Hnone.
    destruct (Frame.groupby_sum cmp key val rs) as [| [k v] g] eqn:Hg; [reflexivity |].
    assert (Hin : In k (List.map fst (Frame.groupby_sum cmp key val rs))).
    { rewrite Hg. left. reflexivity. }
    apply (groupby_sum_keys cmp cmp_eq) in Hin as (r & Hr & Hk).
    rewrite (Hnone r Hr) in Hk. discriminate.
Qed.

(** X8.  With both columns there, the insights fail to name a top state,
    raising [ValueError], exactly when no row has a state: an empty
    selection ends in the error, not in an empty insight. *)
Theorem top_state_raises_without_states (df : Frame.DataFrame) :
  Frame.missing_labels df ["state"; "total_enrollments"] = [] ->
  (dashboard.top_state df
     = Raise (ValueError "attempt to get argmax of an empty sequence")
   <-> forall r, In r (Frame.rows df) ->
                 Frame.text_key (Frame.loc df r "state") = None).
Proof.
  intros Hcols. unfold dashboard.top_state, dashboard.state_totals.
  rewrite Hcols. cbn [mbind result_bind].
  rewrite <- (no_keys_no_groups String.compare string_compare_eq
                (fun r => Frame.text_key (Frame.loc df r "state"))
                (fun r => Frame.cell_value (Frame.loc df r "total_enrollments"))).
  destruct (Frame.idxmax _) as [x |] eqn:Hmax.
  - split; [discriminate |]. intros Hnil. rewrite Hnil in Hmax. discriminate.
  - split; [| reflexivity]. intros _. apply idxmax_None. exact Hmax.
Qed.

Lemma top_state_raises_without_states_witness :
  Frame.missing_labels
    (Frame.select (fun _ => false) samples.dashboard_sample)
    ["state"; "total_enrollments"] = [] /\
  dashboard.top_state (Frame.select (fun _ => false) samples.dashboard_sample)
  = Raise (ValueError "attempt to get argmax of an empty sequence").
Proof.
  split; [reflexivity |].
  apply (proj2 (top_state_raises_without_states
                  (Frame.select (fun _ => false) samples.dashboard_sample)
                  eq_refl)).
  intros r [].
Defined.

Lemma filter_none {A} (p : A -> bool) (l : list A) :
  (forall x, p x = false) -> List.filter p l = [].
Proof.
  intros Hp. induction l as [| a l IH]; [reflexivity |].
  cbn [List.filter]. rewrite Hp. exact IH.
Qed.

(** X9.  With no state selected nothing passes the filters, and the
    insights end in the [ValueError] of an empty series. *)
Theorem empty_selection_has_no_top_state (date_range : list Frame.date)
    (center_types : list string) (df f : Frame.DataFrame) :
  dashboard.apply_filters date_range [] center_types df = Ok f ->
  Frame.has_column df "total_enrollments" = true ->
  Frame.rows f = [] /\
  dashboard.top_state f
  = Raise (ValueError "attempt to get argmax of an empty sequence").
Proof.
  intros Hf Htotal.
  assert (Hstate : Frame.has_column df "state" = true).
  { unfold dashboard.apply_filters in Hf.
    destruct (Frame.missing_labels df _) eqn:Hl; [| discriminate].
    apply (proj1 (missing_labels_nil _ _) Hl).
    apply in_or_app. right. left. reflexivity. }
  apply apply_filters_returns in Hf. subst f.
  assert (Hrows : Frame.rows
                    (Frame.select
                       (fun r => dashboard.other_masks date_range center_types df r
                                 && dashboard.isin [] (Frame.loc df r "state")) df)
                  = []).
  { cbn [Frame.select Frame.rows]. apply filter_none. intros r.
    destruct (Frame.loc df r "state"); apply andb_false_r. }
  split; [exact Hrows |].
  unfold dashboard.top_state, dashboard.state_totals.
  change (Frame.missing_labels (Frame.select _ df) ?l)
    with (Frame.missing_labels df l).
  assert (Hcols : Frame.missing_labels df ["state"; "total_enrollments"] = []).
  { apply missing_labels_nil. intros n [<- | [<- | []]]; assumption. }
  rewrite Hcols, Hrows. reflexivity.
Qed.

Lemma empty_selection_has_no_top_state_witness :
  dashboard.apply_filters [] [] ["Permanent"] samples.dashboard_sample
    = Ok (Frame.select (fun _ => false) samples.dashboard_sample) /\
  Frame.has_column samples.dashboard_sample "total_enrollments" = true /\
  Frame.rows (Frame.select (fun _ => false) samples.dashboard_sample) = [] /\
  dashboard.top_state (Frame.select (fun _ => false) samples.dashboard_sample)
  = Raise (ValueError "attempt to get argmax of an empty sequence").
Proof.
  assert (Hf : dashboard.apply_filters [] [] ["Permanent"] samples.dashboard_sample
               = Ok (Frame.select (fun _ => false) samples.dashboard_sample))
    by (vm_compute; reflexivity).
  split; [exact Hf |]. split; [reflexivity |].
  exact (empty_selection_has_no_top_state [] ["Permanent"]
           samples.dashboard_sample _ Hf eq_refl).
Defined.

(** ** analyze_enrollment.py: the age totals and the monthly trends *)

Lemma column_sum_cons (val : list Frame.cell -> Z) (r : list Frame.cell)
    (rs : list (list Frame.cell)) :
  Frame.column_sum val (r :: rs) = val r + Frame.column_sum val rs.
Proof. reflexivity. Qed.

(** Summing the columns one by one or the rows one by one gives the same. *)
Lemma column_sums_by_rows (f : string -> list Frame.cell -> Z) (cols : list string)
    (rs : list (list Frame.cell)) :
  fold_right Z.add 0 (List.map (fun col => Frame.column_sum (f col) rs) cols)
  = Frame.column_sum (fun r => fold_right Z.add 0 (List.map (fun col => f col r) cols)) rs.
Proof.
  induction rs as [| r rs IH].
  - unfold Frame.column_sum. cbn. induction cols as [| c cols IHc]; cbn; lia.
  - rewrite column_sum_cons, <- IH. clear IH.
    induction cols as [| c cols IHc]; cbn [List.map fold_right]; [lia |].
    rewrite column_sum_cons, IHc. lia.
Qed.

(** X10.  The totals of the three age columns add up to the total of the
    [total_enrollments] column that [main] adds. *)
Theorem age_totals_add_up (df : Frame.DataFrame) (totals : list (string * Z)) :
  analyze_enrollment.age_totals df = Ok totals ->
  Frame.total totals = analyze_enrollment.overall_total df.
Proof.
  unfold analyze_enrollment.age_totals.
  destruct (Frame.missing_labels df analyze_enrollment.age_columns); [| discriminate].
  intros H.
  assert (Ht : totals
               = List.map
                   (fun col =>
                      (col, Frame.column_sum
                              (fun r => Frame.cell_value (Frame.loc df r col))
                              (Frame.rows df)))
                   analyze_enrollment.age_columns) by congruence.
  rewrite Ht. unfold Frame.total. rewrite List.map_map. cbn [snd].
  unfold analyze_enrollment.overall_total, analyze_enrollment.total_enrollments.
  apply (column_sums_by_rows (fun col r => Frame.cell_value (Frame.loc df r col))).
Qed.

Lemma age_totals_add_up_witness :
  analyze_enrollment.age_totals samples.cleaned_records
    = Ok [("age_0_5", 23); ("age_5_17", 6); ("age_18_greater", 6)] /\
  Frame.total [("age_0_5", 23); ("age_5_17", 6); ("age_18_greater", 6)]
    = analyze_enrollment.overall_total samples.cleaned_records.
Proof.
  assert (H : analyze_enrollment.age_totals samples.cleaned_records
              = Ok [("age_0_5", 23); ("age_5_17", 6); ("age_18_greater", 6)])
    by (vm_compute; reflexivity).
  split; [exact H |].
  exact (age_totals_add_up samples.cleaned_records _ H).
Defined.

Lemma month_of_date_key (df : Frame.DataFrame) (p : Frame.date -> bool)
    (r : list Frame.cell) :
  Frame.key_passes
    (fun r => analyze_enrollment.month_year_key (Frame.loc df r "date")) p r
  = Frame.key_passes (fun r => Frame.date_key (Frame.loc df r "date"))
      (fun d => p (analyze_enrollment.month_year d)) r.
Proof.
  unfold Frame.key_passes, analyze_enrollment.month_year_key.
  destruct (Frame.date_key (Frame.loc df r "date")); reflexivity.
Qed.

(** X11.  For every month, the monthly totals of the three age columns add
    up to the daily enrollments of the days of that month. *)
Theorem monthly_trends_add_up_the_days (df : Frame.DataFrame)
    (lines : list (string * list (Frame.date * Z)))
    (daily : list (Frame.date * Z)) (m : Frame.date) :
  analyze_enrollment.monthly df = Ok lines ->
  analyze_enrollment.daily_enrollments df = Ok daily ->
  fold_right Z.add 0
    (List.map
       (fun line =>
          Frame.total_where (fun k => Frame.is_eq (Frame.date_compare m k)) (snd line))
       lines)
  = Frame.total_where
      (fun d => Frame.is_eq (Frame.date_compare m (analyze_enrollment.month_year d)))
      daily.
Proof.
  unfold analyze_enrollment.monthly, analyze_enrollment.daily_enrollments,
    analyze_enrollment.grouped_totals.
  destruct (Frame.has_column df "date"); [| discriminate].
  destruct (Frame.missing_labels df analyze_enrollment.age_columns); [| discriminate].
  intros Hl [= <-].
  assert (Ht : lines
               = List.map
                   (fun col =>
                      (col, Frame.groupby_sum Frame.date_compare
                              (fun r => analyze_enrollment.month_year_key
                                          (Frame.loc df r "date"))
                              (fun r => Frame.cell_value (Frame.loc df r col))
                              (Frame.rows df)))
                   analyze_enrollment.age_columns) by congruence.
  rewrite Ht. clear Hl Ht.
  rewrite List.map_map. cbn [snd].
  rewrite (total_where_groupby_sum Frame.date_compare date_compare_eq).
  erewrite List.map_ext.
  2:{ intros col.
      rewrite (total_where_groupby_sum Frame.date_compare date_compare_eq).
      erewrite filter_ext; [reflexivity |].
      intros r. apply month_of_date_key. }
  cbv beta.
  apply (column_sums_by_rows (fun col r => Frame.cell_value (Frame.loc df r col))).
Qed.

Lemma monthly_trends_add_up_the_days_witness :
  analyze_enrollment.monthly samples.cleaned_records
    = Ok [("age_0_5", [(Frame.mkDate 2025 3 1, 15); (Frame.mkDate 2025 4 1, 7)]);
          ("age_5_17", [(Frame.mkDate 2025 3 1, 2); (Frame.mkDate 2025 4 1, 3)]);
          ("age_18_greater", [(Frame.mkDate 2025 3 1, 5); (Frame.mkDate 2025 4 1, 0)])] /\
  analyze_enrollment.daily_enrollments samples.cleaned_records
    = Ok [(Frame.mkDate 2025 3 1, 8); (Frame.mkDate 2025 3 9, 14);
          (Frame.mkDate 2025 4 2, 10)] /\
  15 + (2 + (5 + 0)) = 8 + (14 + 0).
Proof.
  assert (Hm : analyze_enrollment.monthly samples.cleaned_records
    = Ok [("age_0_5", [(Frame.mkDate 2025 3 1, 15); (Frame.mkDate 2025 4 1, 7)]);
          ("age_5_17", [(Frame.mkDate 2025 3 1, 2); (Frame.mkDate 2025 4 1, 3)]);
          ("age_18_greater", [(Frame.mkDate 2025 3 1, 5); (Frame.mkDate 2025 4 1, 0)])])
    by (vm_compute; reflexivity).
  assert (Hd : analyze_enrollment.daily_enrollments samples.cleaned_records
    = Ok [(Frame.mkDate 2025 3 1, 8); (Frame.mkDate 2025 3 9, 14);
          (Frame.mkDate 2025 4 2, 10)])
    by (vm_compute; reflexivity).
  split; [exact Hm |]. split; [exact Hd |].
  exact (monthly_trends_add_up_the_days samples.cleaned_records _ _
           (Frame.mkDate 2025 3 1) Hm Hd).
Defined.

(** ** app.py: the forecast *)

Lemma rolling_mean_30 (ts : list Z) :
  app.ma30 ts
  = Ok (List.map (fun j => app.mean (app.preceding 30 ts j)) (seq 0 (length ts))).
Proof.
  unfold app.ma30, app.rolling_mean. cbn [Nat.ltb Nat.leb]. f_equal.
  apply (roll_mean_invariant 30 ts); [lia | reflexivity | reflexivity | reflexivity].
Qed.

Lemma rolling_mean_7 (ts : list Z) :
  app.ma7 ts
  = Ok (List.map (fun j => app.mean (app.preceding 7 ts j)) (seq 0 (length ts))).
Proof.
  unfold app.ma7, app.rolling_mean. cbn [Nat.ltb Nat.leb]. f_equal.
  apply (roll_mean_invariant 7 ts); [lia | reflexivity | reflexivity | reflexivity].
Qed.

Lemma last_window (ts : list Z) (k : nat) :
  length ts = S k ->
  app.preceding 30 ts k = app.last_points 30 ts.
Proof.
  intros Hlen. unfold app.preceding, app.last_points. rewrite Hlen.
  apply firstn_all2. rewrite length_skipn. lia.
Qed.

(** X12.  The flat forecast continues the 30-day moving average: each of
    its 30 values is the last point of [ma30] (NaN for an empty series). *)
Theorem forecast_is_last_ma30_point (ts : list Z) :
  exists l, app.ma30 ts = Ok l /\
            app.forecast_values ts = repeat (List.last l S754_nan) 30.
Proof.
  eexists. split; [apply rolling_mean_30 |].
  unfold app.forecast_values. f_equal.
  destruct (length ts) as [| k] eqn:Hlen.
  - apply length_zero_iff_nil in Hlen. subst ts. vm_compute. reflexivity.
  - rewrite seq_S, List.map_app. cbn [List.map Nat.add]. rewrite last_last.
    rewrite (last_window ts k Hlen).
    destruct (30 <=? S k)%nat eqn:Hk; [reflexivity |].
    apply Nat.leb_gt in Hk. unfold app.last_points.
    replace (length ts - 30)%nat with 0%nat by lia. reflexivity.
Qed.

(** ** app.py: a point for every day *)

Lemma day_sorted_first (s : list (Z * Z)) (p : Z * Z) :
  StronglySorted app.day_lt s -> In p s -> app.first_day s <= fst p.
Proof.
  intros Hs Hp. destruct s as [| a s]; [destruct Hp |].
  apply StronglySorted_inv in Hs as [_ Hall]. unfold app.first_day. cbn [List.hd].
  destruct Hp as [<- | Hp]; [lia |].
  rewrite List.Forall_forall in Hall. specialize (Hall p Hp).
  unfold app.day_lt in Hall. lia.
Qed.

Lemma day_sorted_last (s : list (Z * Z)) (p : Z * Z) :
  StronglySorted app.day_lt s -> In p s -> fst p <= app.last_day s.
Proof.
  unfold app.last_day. revert p. induction s as [| a s IH]; intros p Hs Hp;
    [destruct Hp |].
  apply StronglySorted_inv in Hs as [Hs Hall].
  destruct s as [| b s]; [destruct Hp as [<- | []]; cbn; lia |].
  change (List.last (a :: b :: s) (0, 0)) with (List.last (b :: s) (0, 0)).
  destruct Hp as [<- | Hp]; [| apply IH; assumption].
  apply List.Forall_inv in Hall. unfold app.day_lt in Hall.
  specialize (IH b Hs (or_introl eq_refl)). lia.
Qed.

Lemma day_sorted_unique (s : list (Z * Z)) (d v v' : Z) :
  StronglySorted app.day_lt s -> In (d, v) s -> In (d, v') s -> v = v'.
Proof.
  induction s as [| a s IH]; intros Hs H1 H2; [destruct H1 |].
  apply StronglySorted_inv in Hs as [Hs Hall]. rewrite List.Forall_forall in Hall.
  destruct H1 as [-> | H1], H2 as [H2 | H2].
  - congruence.
  - specialize (Hall _ H2). unfold app.day_lt in Hall. cbn in Hall. lia.
  - subst a. specialize (Hall _ H1). unfold app.day_lt in Hall. cbn in Hall. lia.
  - apply IH; assumption.
Qed.

Lemma day_sorted_length (s : list (Z * Z)) :
  StronglySorted app.day_lt s -> s <> [] ->
  Z.of_nat (length s) <= app.last_day s - app.first_day s + 1.
Proof.
  unfold app.last_day, app.first_day.
  induction s as [| a s IH]; intros Hs Hne; [contradiction |].
  apply StronglySorted_inv in Hs as [Hs Hall].
  destruct s as [| b s]; [cbn; lia |].
  change (List.last (a :: b :: s) (0, 0)) with (List.last (b :: s) (0, 0)).
  apply List.Forall_inv in Hall. unfold app.day_lt in Hall.
  specialize (IH Hs ltac:(discriminate)). cbn [List.hd] in IH |- *.
  rewrite (length_cons a). lia.
Qed.

Lemma lookup_day_In (s : list (Z * Z)) (d v : Z) :
  StronglySorted app.day_lt s ->
  app.lookup_day d s = Some v <-> In (d, v) s.
Proof.
  intros Hs. unfold app.lookup_day. split.
  - destruct (List.find _ s) as [[d' v'] |] eqn:Hf; [| discriminate].
    intros [= <-]. apply find_some in Hf as [Hin Heq].
    apply Z.eqb_eq in Heq. cbn in Heq. subst d'. exact Hin.
  - intros Hin. destruct (List.find _ s) as [[d' v'] |] eqn:Hf.
    + apply find_some in Hf as [Hin' Heq]. apply Z.eqb_eq in Heq. cbn in Heq.
      subst d'. cbn. f_equal. exact (day_sorted_unique s d v' v Hs Hin' Hin).
    + apply (find_none _ _ Hf) in Hin. cbn in Hin. lia.
Qed.

Lemma latest_None (d : Z) (s : list (Z * Z)) :
  app.latest d s = None <-> forall p, In p s -> d < fst p.
Proof.
  induction s as [| a s IH]; cbn [app.latest].
  - split; [intros _ p [] | reflexivity].
  - destruct (app.latest d s) as [w |].
    + split; [discriminate |]. intros H.
      assert (Hnone : Some w = None); [| discriminate].
      apply (proj2 IH). intros p Hp. apply H. right. exact Hp.
    + destruct (fst a <=? d) eqn:Ha.
      * split; [discriminate |]. intros H. specialize (H a (or_introl eq_refl)). lia.
      * split; [| reflexivity]. intros _ p [<- | Hp]; [lia |].
        apply (proj1 IH); [reflexivity | exact Hp].
Qed.

(** On a series in ascending order of the days, [latest] is the value of
    the last day at or before [d]. *)
Lemma latest_Some (d : Z) (s : list (Z * Z)) (v : Z) :
  StronglySorted app.day_lt s ->
  app.latest d s = Some v <->
  exists d', In (d', v) s /\ d' <= d /\ forall p, In p s -> fst p <= d -> fst p <= d'.
Proof.
  intros Hs.
  assert (Hto : forall s v, StronglySorted app.day_lt s -> app.latest d s = Some v ->
            exists d', In (d', v) s /\ d' <= d /\
                       forall p, In p s -> fst p <= d -> fst p <= d').
  { clear s v Hs. induction s as [| a s IH]; intros v Hs; cbn [app.latest];
      [discriminate |].
    apply StronglySorted_inv in Hs as [Hs Hall]. rewrite List.Forall_forall in Hall.
    destruct (app.latest d s) as [w |] eqn:Hl.
    - intros [= <-]. destruct (IH w Hs eq_refl) as (d' & Hin & Hle & Hmax).
      exists d'. split; [right; exact Hin |]. split; [exact Hle |].
      intros p [<- | Hp] Hpd; [| apply Hmax; assumption].
      specialize (Hall _ Hin). unfold app.day_lt in Hall. cbn in Hall. lia.
    - destruct (fst a <=? d) eqn:Ha; [| discriminate]. intros [= <-].
      exists (fst a). split; [left; destruct a; reflexivity |]. split; [lia |].
      intros p [<- | Hp] Hpd; [lia |].
      pose proof (proj1 (latest_None d s) Hl p Hp). lia. }
  split; [apply Hto; exact Hs |].
  intros (d' & Hin & Hle & Hmax).
  destruct (app.latest d s) as [w |] eqn:Hl.
  - destruct (Hto s w Hs Hl) as (d'' & Hin' & Hle' & Hmax').
    pose proof (Hmax _ Hin' Hle') as H1. pose proof (Hmax' _ Hin Hle) as H2.
    cbn in H1, H2. assert (d'' = d') by lia. subst d''.
    f_equal. exact (day_sorted_unique s d' w v Hs Hin' Hin).
  - pose proof (proj1 (latest_None d s) Hl _ Hin) as H. cbn in H. lia.
Qed.

Lemma latest_of_gap (d : Z) (s : list (Z * Z)) :
  app.lookup_day d s = None -> app.latest d s = app.latest (d - 1) s.
Proof.
  unfold app.lookup_day. induction s as [| a s IH]; [reflexivity |].
  cbn [List.find app.latest]. destruct (fst a =? d) eqn:Ha; [discriminate |].
  intros Hf. rewrite (IH Hf). destruct (app.latest (d - 1) s); [reflexivity |].
  replace (fst a <=? d - 1) with (fst a <=? d); [reflexivity |].
  apply Z.eqb_neq in Ha. destruct (fst a <=? d) eqn:H1, (fst a <=? d - 1) eqn:H2;
    try reflexivity; lia.
Qed.

(** The filled series day by day. *)
Lemma ffill_latest (s : list (Z * Z)) (c : Z) :
  StronglySorted app.day_lt s ->
  forall n i,
    app.ffill (app.latest (c + Z.of_nat i - 1) s)
      (List.map (fun k => (c + Z.of_nat k, app.lookup_day (c + Z.of_nat k) s)) (seq i n))
    = List.map (fun k => (c + Z.of_nat k, app.latest (c + Z.of_nat k) s)) (seq i n).
Proof.
  intros Hs. induction n as [| n IH]; intros i; [reflexivity |].
  cbn [seq List.map app.ffill].
  specialize (IH (S i)).
  replace (c + Z.of_nat (S i) - 1) with (c + Z.of_nat i) in IH by lia.
  destruct (app.lookup_day (c + Z.of_nat i) s) as [v |] eqn:Hl.
  - assert (Hv : app.latest (c + Z.of_nat i) s = Some v).
    { apply latest_Some; [exact Hs |]. exists (c + Z.of_nat i).
      split; [apply lookup_day_In; assumption |]. split; [lia |]. intros p _ H. exact H. }
    rewrite Hv in IH |- *. rewrite IH. reflexivity.
  - rewrite <- (latest_of_gap _ _ Hl). rewrite IH. reflexivity.
Qed.

Lemma filled_by_day (s : list (Z * Z)) :
  StronglySorted app.day_lt s ->
  app.filled s
  = match s with
    | [] => []
    | _ :: _ =>
        List.map (fun k => (app.first_day s + Z.of_nat k,
                            app.latest (app.first_day s + Z.of_nat k) s))
                 (seq 0 (Z.to_nat (app.last_day s - app.first_day s + 1)))
    end.
Proof.
  intros Hs. unfold app.filled, app.asfreq_D. destruct s as [| a s]; [reflexivity |].
  rewrite <- (ffill_latest (a :: s) (app.first_day (a :: s)) Hs). cbv zeta. f_equal.
  symmetry. apply latest_None. intros p Hp.
  pose proof (day_sorted_first _ p Hs Hp). lia.
Qed.

Lemma filled_days (s : list (Z * Z)) :
  StronglySorted app.day_lt s ->
  List.map fst (app.filled s)
  = match s with
    | [] => []
    | _ :: _ => List.map (fun k => app.first_day s + Z.of_nat k)
                  (seq 0 (Z.to_nat (app.last_day s - app.first_day s + 1)))
    end.
Proof.
  intros Hs. rewrite (filled_by_day s Hs). destruct s as [| a s]; [reflexivity |].
  rewrite List.map_map. reflexivity.
Qed.

Lemma filled_no_gap (s : list (Z * Z)) (p : Z * option Z) :
  StronglySorted app.day_lt s -> In p (app.filled s) -> exists v, snd p = Some v.
Proof.
  intros Hs. rewrite (filled_by_day s Hs). destruct s as [| a s]; [contradiction |].
  intros Hin. apply in_map_iff in Hin as (k & <- & _). cbn [snd].
  destruct (app.latest _ (a :: s)) as [v |] eqn:Hl; [exists v; reflexivity |].
  pose proof (proj1 (latest_None _ _) Hl a (or_introl eq_refl)) as H.
  unfold app.first_day in H. cbn [List.hd] in H. lia.
Qed.

(** X13.  Filling the daily series leaves a point for every day from the
    first to the last, none of them missing: the days the series had keep
    their values, and every other day carries the value of the last day
    before it that had one.  The series never gets shorter. *)
Theorem filled_series_has_every_day (s : list (Z * Z)) :
  StronglySorted app.day_lt s ->
  (length s <= length (app.filled s))%nat /\
  List.map fst (app.filled s)
    = match s with
      | [] => []
      | _ :: _ => List.map (fun k => app.first_day s + Z.of_nat k)
                    (seq 0 (Z.to_nat (app.last_day s - app.first_day s + 1)))
      end /\
  (forall d v, In (d, v) s -> In (d, Some v) (app.filled s)) /\
  (forall d x, In (d, x) (app.filled s) ->
     exists d' v, x = Some v /\ In (d', v) s /\ d' <= d /\
                  forall p, In p s -> fst p <= d -> fst p <= d').
Proof.
  intros Hs. rewrite (filled_by_day s Hs).
  destruct s as [| a s]; [cbn; repeat split; intros; first [lia | contradiction] |].
  remember (a :: s) as s0 eqn:Hs0.
  assert (Hne : s0 <> []) by (subst s0; discriminate).
  assert (Ha : In a s0) by (subst s0; left; reflexivity).
  pose proof (day_sorted_length s0 Hs Hne) as Hlen.
  split; [| split; [| split]].
  - rewrite length_map, length_seq. lia.
  - rewrite List.map_map. reflexivity.
  - intros d v Hin. apply in_map_iff.
    pose proof (day_sorted_first s0 _ Hs Hin) as H1.
    pose proof (day_sorted_last s0 _ Hs Hin) as H2. cbn [fst] in H1, H2.
    exists (Z.to_nat (d - app.first_day s0)). split.
    + replace (app.first_day s0 + Z.of_nat (Z.to_nat (d - app.first_day s0))) with d
        by lia.
      f_equal. apply latest_Some; [exact Hs |]. exists d.
      split; [exact Hin |]. split; [lia |]. intros p _ H. exact H.
    + apply in_seq. lia.
  - intros d x Hin. apply in_map_iff in Hin as (k & Heq & Hk).
    injection Heq as Hd Hx. apply in_seq in Hk.
    destruct x as [v |].
    + apply (latest_Some _ _ _ Hs) in Hx as (d' & Hin & Hle & Hmax).
      exists d', v. rewrite <- Hd.
      split; [reflexivity |]. split; [exact Hin |]. split; assumption.
    + pose proof (proj1 (latest_None _ _) Hx a Ha) as H.
      assert (Hf : app.first_day s0 = fst a) by (subst s0; reflexivity). lia.
Qed.

Lemma filled_series_has_every_day_witness :
  StronglySorted app.day_lt samples.daily_series /\
  app.filled samples.daily_series
    = [(10, Some 5); (11, Some 5); (12, Some 7); (13, Some 1)] /\
  (length samples.daily_series <= length (app.filled samples.daily_series))%nat.
Proof.
  assert (Hs : StronglySorted app.day_lt samples.daily_series).
  { repeat constructor; unfold app.day_lt; cbn; lia. }
  split; [exact Hs |]. split; [vm_compute; reflexivity |].
  exact (proj1 (filled_series_has_every_day _ Hs)).
Defined.

Lemma omap_all_some {A} (l : list (Z * option A)) :
  (forall p, In p l -> exists v, snd p = Some v) ->
  length (omap snd l) = length l.
Proof.
  induction l as [| p l IH]; intros Hall; [reflexivity |].
  destruct (Hall p (or_introl eq_refl)) as [v Hv].
  cbn [omap list_omap]. rewrite Hv. cbn [length]. f_equal.
  apply IH. intros q Hq. apply Hall. right. exact Hq.
Qed.

Lemma observed_length (s : list (Z * Z)) :
  StronglySorted app.day_lt s -> s <> [] ->
  Z.of_nat (length (omap snd (app.filled s)))
  = app.last_day s - app.first_day s + 1.
Proof.
  intros Hs Hne.
  rewrite omap_all_some.
  - rewrite <- (length_map fst), (filled_days s Hs).
    pose proof (day_sorted_length s Hs Hne).
    destruct s as [| a s]; [contradiction |].
    rewrite length_map, length_seq. lia.
  - intros p Hp. exact (filled_no_gap s p Hs Hp).
Qed.

(** X14.  [plot_forecasting] draws nothing for a series of fewer than 30
    days; otherwise the filled series has a point for each day from the
    first to the last, at least 30 of them, both moving averages have a point
    for each of these days, and the forecast is the mean of the last 30
    points: the fallback to the mean of the whole series is never taken. *)
Theorem plot_forecasting_uses_the_last_30_days (s : list (Z * Z)) :
  StronglySorted app.day_lt s ->
  ((length s < 30)%nat -> app.plot_forecasting s = Ok None) /\
  ((30 <= length s)%nat ->
   exists f, app.plot_forecasting s = Ok (Some f) /\
     Z.of_nat (length (app.observed f)) = app.last_day s - app.first_day s + 1 /\
     (30 <= length (app.observed f))%nat /\
     length (app.ma7_line f) = length (app.observed f) /\
     length (app.ma30_line f) = length (app.observed f) /\
     app.forecast_line f
     = repeat (app.series_mean (app.last_points 30 (app.observed f))) 30).
Proof.
  intros Hs. unfold app.plot_forecasting. split; intros Hlen.
  - apply Nat.ltb_lt in Hlen. rewrite Hlen. reflexivity.
  - replace (length s <? 30)%nat with false by (symmetry; apply Nat.ltb_ge; exact Hlen).
    cbv zeta. rewrite rolling_mean_7, rolling_mean_30. cbn [mbind result_bind].
    eexists. split; [reflexivity |].
    cbn [app.observed app.ma7_line app.ma30_line app.forecast_line].
    assert (Hne : s <> []) by (intros ->; cbn in Hlen; lia).
    pose proof (observed_length s Hs Hne) as Hobs.
    pose proof (day_sorted_length s Hs Hne) as Hdays.
    assert (H30 : (30 <= length (omap snd (app.filled s)))%nat) by lia.
    split; [exact Hobs |]. split; [exact H30 |].
    rewrite !length_map, !length_seq. split; [reflexivity |]. split; [reflexivity |].
    unfold app.forecast_values. apply Nat.leb_le in H30. rewrite H30. reflexivity.
Qed.

Lemma plot_forecasting_uses_the_last_30_days_witness :
  StronglySorted app.day_lt samples.month_series /\
  (30 <=? length samples.month_series)%nat = true /\
  exists f, app.plot_forecasting samples.month_series = Ok (Some f) /\
    Z.of_nat (length (app.observed f)) = 31 /\
    app.forecast_line f
    = repeat (app.series_mean (app.last_points 30 (app.observed f))) 30.
Proof.
  assert (Hs : StronglySorted app.day_lt samples.month_series).
  { unfold samples.month_series. cbn [seq List.map app].
    repeat constructor; unfold app.day_lt; cbn; lia. }
  assert (Hlen : (30 <= length samples.month_series)%nat) by (cbn; lia).
  split; [exact Hs |]. split; [reflexivity |].
  destruct (proj2 (plot_forecasting_uses_the_last_30_days _ Hs) Hlen)
    as (f & Hf & Hobs & _ & _ & _ & Hline).
  exists f. split; [exact Hf |]. split; [exact Hobs | exact Hline].
Defined.

(** ** Dates as text, there and back *)

(** A check over a range of numbers settles every number of the range. *)
Lemma checked_range (f : Z -> option Z) (lo len : nat) :
  forallb (fun n => match f n with Some m => m =? n | None => false end)
          (List.map Z.of_nat (seq lo len)) = true ->
  forall n, Z.of_nat lo <= n < Z.of_nat (lo + len) -> f n = Some n.
Proof.
  intros Hall n Hn. rewrite forallb_forall in Hall.
  assert (Hin : In n (List.map Z.of_nat (seq lo len))).
  { apply in_map_iff. exists (Z.to_nat n). split; [lia |]. apply in_seq. lia. }
  specialize (Hall n Hin). destruct (f n) as [m |]; [| discriminate].
  apply Z.eqb_eq in Hall. congruence.
Qed.

Lemma two_digits_day (n : Z) :
  1 <= n <= 31 -> Parse.directive_d (Format.two_digits n) = Some n.
Proof.
  intros Hn.
  apply (checked_range (fun n => Parse.directive_d (Format.two_digits n)) 1 31);
    [vm_compute; reflexivity | lia].
Qed.

Lemma two_digits_month (n : Z) :
  1 <= n <= 12 -> Parse.directive_m (Format.two_digits n) = Some n.
Proof.
  intros Hn.
  apply (checked_range (fun n => Parse.directive_m (Format.two_digits n)) 1 12);
    [vm_compute; reflexivity | lia].
Qed.

Lemma four_digits_year (n : Z) :
  1677 <= n <= 2262 -> Parse.directive_Y (Format.four_digits n) = Some n.
Proof.
  intros Hn.
  apply (checked_range (fun n => Parse.directive_Y (Format.four_digits n)) 1677 586);
    [vm_compute; reflexivity | lia].
Qed.

Lemma digit_is_no_dash (k : Z) :
  0 <= k <= 9 -> Ascii.eqb (Format.digit k) "-" = false.
Proof.
  intros Hk.
  assert (H : k = 0 \/ k = 1 \/ k = 2 \/ k = 3 \/ k = 4 \/ k = 5 \/ k = 6 \/ k = 7
              \/ k = 8 \/ k = 9) by lia.
  repeat destruct H as [-> | H]; try subst k; reflexivity.
Qed.

Lemma split_dash_digit (c : ascii) (s f : string) (fs : list string) :
  Ascii.eqb c "-" = false ->
  Parse.split_dash s = f :: fs ->
  Parse.split_dash (String c s) = String c f :: fs.
Proof. intros Hc Hs. cbn [Parse.split_dash]. rewrite Hs, Hc. reflexivity. Qed.

Lemma split_dash_dash (s f : string) (fs : list string) :
  Parse.split_dash s = f :: fs ->
  Parse.split_dash (String "-" s) = EmptyString :: f :: fs.
Proof. intros Hs. cbn [Parse.split_dash]. rewrite Hs. reflexivity. Qed.

(** The three fields of a written date. *)
Lemma split_dash_strftime (d : Frame.date) :
  0 <= Frame.day d < 100 -> 0 <= Frame.month d < 100 -> 0 <= Frame.year d < 10000 ->
  Parse.split_dash (Format.strftime d)
  = [Format.two_digits (Frame.day d); Format.two_digits (Frame.month d);
     Format.four_digits (Frame.year d)].
Proof.
  intros Hd Hm Hy. unfold Format.strftime, Format.four_digits, Format.two_digits.
  cbn [String.append].
  assert (Hdiv : forall n b, 0 < b -> 0 <= n < b * 10 -> 0 <= n / 10 <= b - 1).
  { intros n b Hb Hn. split; [apply Z.div_pos; lia |].
    assert (n / 10 < b) by (apply Z.div_lt_upper_bound; lia). lia. }
  assert (Hmod : forall n, 0 <= n mod 10 <= 9)
    by (intros n; pose proof (Z.mod_pos_bound n 10); lia).
  assert (Hy1 : 0 <= Frame.year d / 100 < 100).
  { split; [apply Z.div_pos; lia | apply Z.div_lt_upper_bound; lia]. }
  assert (Hy2 : 0 <= Frame.year d mod 100 < 100)
    by (apply Z.mod_pos_bound; lia).
  repeat first
    [ apply split_dash_dash
    | apply split_dash_digit;
        [apply digit_is_no_dash; first [apply Hmod | apply (Hdiv _ 10); lia] |] ].
  reflexivity.
Qed.

Lemma in_bounds_year (d : Frame.date) :
  Parse.in_bounds d = true -> 1677 <= Frame.year d <= 2262.
Proof.
  unfold Parse.in_bounds, Frame.date_compare. cbn [Frame.year Frame.month Frame.day].
  destruct (1677 ?= Frame.year d) eqn:H1; destruct (Frame.year d ?= 2262) eqn:H2;
    try (apply Z.compare_eq in H1); try (apply Z.compare_eq in H2);
    try (rewrite Z.compare_lt_iff in H1); try (rewrite Z.compare_lt_iff in H2);
    try (rewrite Z.compare_gt_iff in H1); try (rewrite Z.compare_gt_iff in H2);
    intros H; try lia;
    repeat match type of H with
           | context [match ?c with _ => _ end] => destruct c
           end; discriminate.
Qed.

Lemma days_in_month_le_31 (y m : Z) : Parse.days_in_month y m <= 31.
Proof.
  unfold Parse.days_in_month.
  destruct (m =? 2); [destruct (Parse.is_leap y); lia |].
  destruct ((m =? 4) || (m =? 6) || (m =? 9) || (m =? 11)); lia.
Qed.

(** A valid date, written and read again, is the same date. *)
Lemma strptime_strftime (d : Frame.date) :
  Parse.valid d = true -> Parse.strptime (Format.strftime d) = Some d.
Proof.
  unfold Parse.valid. intros Hv.
  apply andb_prop in Hv as [Hv Hb]. apply andb_prop in Hv as [Hv Hdim].
  apply andb_prop in Hv as [Hv Hd1]. apply andb_prop in Hv as [Hm1 Hm12].
  pose proof (in_bounds_year d Hb) as Hy.
  pose proof (days_in_month_le_31 (Frame.year d) (Frame.month d)) as H31.
  apply Z.leb_le in Hm1, Hm12, Hd1. pose proof Hdim as Hdim'. apply Z.leb_le in Hdim'.
  unfold Parse.strptime.
  rewrite split_dash_strftime by lia.
  rewrite two_digits_day, two_digits_month, four_digits_year by lia.
  destruct d as [y m dd]. cbn [Frame.year Frame.month Frame.day] in *.
  rewrite Hdim, Hb. reflexivity.
Qed.

Lemma single_digit_range (c : ascii) :
  Parse.is_digit c && negb (Ascii.eqb c "0") = true ->
  1 <= Parse.digit_value c <= 9.
Proof.
  destruct c as [[] [] [] [] [] [] [] []]; intros H; vm_compute in H;
    try discriminate H; vm_compute; split; discriminate.
Qed.

Lemma directive_d_one (a : ascii) :
  Parse.directive_d (String a EmptyString)
  = if Parse.is_digit a && negb (Ascii.eqb a "0")
    then Some (Parse.digit_value a) else None.
Proof. destruct a as [[] [] [] [] [] [] [] []]; reflexivity. Qed.

Lemma directive_d_two (a b : ascii) :
  Parse.directive_d (String a (String b EmptyString))
  = if Ascii.eqb a " "
    then (if Parse.is_digit b && negb (Ascii.eqb b "0")
          then Some (Parse.digit_value b) else None)
    else match Parse.digits (String a (String b EmptyString)) with
         | Some n => if (1 <=? n) && (n <=? 31) then Some n else None
         | None => None
         end.
Proof. destruct a as [[] [] [] [] [] [] [] []]; reflexivity. Qed.

Lemma directive_d_long (a b c : ascii) (s : string) :
  Parse.directive_d (String a (String b (String c s))) = None.
Proof. destruct a as [[] [] [] [] [] [] [] []]; reflexivity. Qed.

Lemma directive_d_range (s : string) (n : Z) :
  Parse.directive_d s = Some n -> 1 <= n <= 31.
Proof.
  destruct s as [| a [| b [| c s]]].
  - discriminate.
  - rewrite directive_d_one.
    destruct (Parse.is_digit a && negb (Ascii.eqb a "0")) eqn:Ha; [| discriminate].
    intros [= <-]. pose proof (single_digit_range a Ha). lia.
  - rewrite directive_d_two. destruct (Ascii.eqb a " ").
    + destruct (Parse.is_digit b && negb (Ascii.eqb b "0")) eqn:Hb; [| discriminate].
      intros [= <-]. pose proof (single_digit_range b Hb). lia.
    + destruct (Parse.digits _) as [m |]; [| discriminate].
      destruct ((1 <=? m) && (m <=? 31)) eqn:Hm; [| discriminate].
      intros [= <-]. apply andb_prop in Hm as [H1 H2]. lia.
  - rewrite directive_d_long. discriminate.
Qed.

Lemma directive_m_range (s : string) (n : Z) :
  Parse.directive_m s = Some n -> 1 <= n <= 12.
Proof.
  destruct s as [| a [| b [| c s]]]; cbn [Parse.directive_m]; try discriminate.
  - destruct (Parse.is_digit a && negb (Ascii.eqb a "0")) eqn:Ha; [| discriminate].
    intros [= <-]. pose proof (single_digit_range a Ha). lia.
  - destruct (Parse.digits _) as [m |]; [| discriminate].
    destruct ((1 <=? m) && (m <=? 12)) eqn:Hm; [| discriminate].
    intros [= <-]. apply andb_prop in Hm as [H1 H2]. lia.
Qed.

(** Whatever [strptime] returns is a valid date. *)
Lemma strptime_valid (s : string) (d : Frame.date) :
  Parse.strptime s = Some d -> Parse.valid d = true.
Proof.
  unfold Parse.strptime.
  destruct (Parse.split_dash s) as [| sd [| sm [| sy [| ? ?]]]]; try discriminate.
  destruct (Parse.directive_d sd) as [dd |] eqn:Hd; [| discriminate].
  destruct (Parse.directive_m sm) as [m |] eqn:Hm; [| discriminate].
  destruct (Parse.directive_Y sy) as [y |] eqn:Hy; [| discriminate].
  destruct ((dd <=? Parse.days_in_month y m) && Parse.in_bounds (Frame.mkDate y m dd))
    eqn:Hok; [| discriminate].
  intros [= <-]. apply andb_prop in Hok as [Hdim Hb].
  apply directive_d_range in Hd. apply directive_m_range in Hm.
  unfold Parse.valid. cbn [Frame.year Frame.month Frame.day].
  rewrite Hdim, Hb.
  replace (1 <=? m) with true by (symmetry; apply Z.leb_le; lia).
  replace (m <=? 12) with true by (symmetry; apply Z.leb_le; lia).
  replace (1 <=? dd) with true by (symmetry; apply Z.leb_le; lia).
  reflexivity.
Qed.

(** X15.  A date that [to_datetime] read from text survives the saving:
    written with ['%d-%m-%Y'] and read again with the same format, it is the
    same date. *)
Theorem parsed_date_survives_saving (s : string) (d : Frame.date) :
  Parse.strptime s = Some d ->
  Parse.strptime (Format.strftime d) = Some d.
Proof.
  intros Hs. apply strptime_strftime. exact (strptime_valid s d Hs).
Qed.

Lemma parsed_date_survives_saving_witness :
  Parse.strptime "1-3-2025" = Some (Frame.mkDate 2025 3 1) /\
  Format.strftime (Frame.mkDate 2025 3 1) = "01-03-2025" /\
  Parse.strptime (Format.strftime (Frame.mkDate 2025 3 1))
    = Some (Frame.mkDate 2025 3 1).
Proof.
  assert (H : Parse.strptime "1-3-2025" = Some (Frame.mkDate 2025 3 1))
    by (vm_compute; reflexivity).
  split; [exact H |]. split; [vm_compute; reflexivity |].
  exact (parsed_date_survives_saving "1-3-2025" _ H).
Defined.

(** ** analyze_enrollment.py: [sort_and_save_data] *)

Lemma strftime_is_no_nat (d : Frame.date) :
  existsb (String.eqb (Format.strftime d)) analyze_enrollment.nat_strings = false.
Proof.
  cbv [Format.strftime Format.four_digits Format.two_digits
       analyze_enrollment.nat_strings String.append String.eqb existsb].
  repeat match goal with
         | |- context [Ascii.eqb ?a ?b] => destruct (Ascii.eqb a b)
         end; reflexivity.
Qed.

(** A cell of a datetime column, written and read again, is the same cell. *)
Lemma reread_cell (c : Frame.cell) :
  analyze_enrollment.datetime_cell c = true ->
  analyze_enrollment.parses (analyze_enrollment.strftime_cell c) = true /\
  analyze_enrollment.date_value (analyze_enrollment.strftime_cell c) = c.
Proof.
  unfold analyze_enrollment.parses, analyze_enrollment.date_value.
  destruct c as [| z | s | d]; cbn [analyze_enrollment.datetime_cell
    analyze_enrollment.strftime_cell analyze_enrollment.to_datetime];
    try discriminate.
  - split; reflexivity.
  - intros Hv. rewrite strftime_is_no_nat, (strptime_strftime d Hv).
    split; reflexivity.
Qed.

Lemma insert_back (r : list Frame.cell) (i : nat) (c : Frame.cell) :
  <[i := Frame.at_ r i]> (<[i := c]> r) = r.
Proof.
  rewrite list_insert_insert_eq. apply list_insert_id'. intros Hlt.
  unfold Frame.at_. destruct (nth_lookup_or_length r i Frame.NaN) as [H | H];
    [exact H | lia].
Qed.

Lemma reread_rows (i : nat) (cols : list string) (rs : list (list Frame.cell)) :
  Forall (fun r => analyze_enrollment.datetime_cell (Frame.at_ r i) = true) rs ->
  Frame.assign i analyze_enrollment.to_datetime
    (Frame.assign_total i analyze_enrollment.strftime_cell (Frame.mkFrame cols rs))
  = Ok (Frame.mkFrame cols rs).
Proof.
  intros Hall. rewrite assign_to_datetime.
  unfold Frame.assign_total. cbn [Frame.rows Frame.columns].
  rewrite List.map_map.
  assert (Hrow : forall r, In r rs ->
            analyze_enrollment.parses
              (Frame.at_ (<[i := analyze_enrollment.strftime_cell (Frame.at_ r i)]> r) i)
            = true /\
            <[i := analyze_enrollment.date_value
                     (Frame.at_
                        (<[i := analyze_enrollment.strftime_cell (Frame.at_ r i)]> r) i)]>
              (<[i := analyze_enrollment.strftime_cell (Frame.at_ r i)]> r) = r).
  { intros r Hr. rewrite List.Forall_forall in Hall.
    destruct (reread_cell _ (Hall r Hr)) as [Hp Hv].
    rewrite (at_insert_same analyze_enrollment.strftime_cell) by reflexivity.
    split; [exact Hp |]. rewrite Hv. apply insert_back. }
  replace (forallb _ _) with true.
  - f_equal. f_equal. rewrite <- (List.map_id rs) at 2.
    apply List.map_ext_in. intros r Hr. apply (Hrow r Hr).
  - symmetry. apply forallb_forall. intros r' Hr'.
    apply in_map_iff in Hr' as (r & <- & Hr). apply (Hrow r Hr).
Qed.

Lemma filter_partition {A} (p : A -> bool) (l : list A) :
  Permutation l (List.filter p l ++ List.filter (fun x => negb (p x)) l).
Proof.
  induction l as [| a l IH]; [reflexivity |]. cbn [List.filter].
  destruct (p a); cbn [negb].
  - cbn. constructor. exact IH.
  - apply Permutation_cons_app. exact IH.
Qed.

Lemma date_ascending_total (df : Frame.DataFrame) :
  Total (analyze_enrollment.date_ascending df).
Proof.
  intros a b. unfold analyze_enrollment.date_ascending.
  destruct (Frame.date_key (Frame.loc df a "date")) as [x |];
    destruct (Frame.date_key (Frame.loc df b "date")) as [y |]; auto.
  rewrite (date_compare_antisym y x).
  destruct (Frame.date_compare x y); cbn; [left | left | right]; discriminate.
Qed.

Lemma sort_values_date_exists (df : Frame.DataFrame) :
  exists sorted, analyze_enrollment.sort_values_date df sorted.
Proof.
  assert (Hdec : forall a b, Decision (analyze_enrollment.date_ascending df a b)).
  { intros a b. unfold analyze_enrollment.date_ascending.
    destruct (Frame.date_key (Frame.loc df a "date")) as [x |];
      destruct (Frame.date_key (Frame.loc df b "date")) as [y |];
      try (left; exact I).
    destruct (Frame.date_compare x y); [left | left | right]; congruence. }
  eexists. exists (merge_sort (analyze_enrollment.date_ascending df)
                     (List.filter (analyze_enrollment.has_date df) (Frame.rows df))).
  split; [symmetry; apply merge_sort_Permutation |].
  split; [apply (Sorted_merge_sort _ (Total0 := date_ascending_total df)) |].
  reflexivity.
Qed.

Lemma sort_values_date_Permutation (df : Frame.DataFrame)
    (sorted : list (list Frame.cell)) :
  analyze_enrollment.sort_values_date df sorted -> Permutation (Frame.rows df) sorted.
Proof.
  intros (dated & Hperm & _ & ->).
  rewrite (filter_partition (analyze_enrollment.has_date df) (Frame.rows df)) at 1.
  apply Permutation_app_tail. exact Hperm.
Qed.

(** X16.  On a frame whose date column holds valid timestamps and NaT,
    [sort_and_save_data] raises nothing, and whatever order the sort leaves
    among equal dates, the frame it returns holds the very rows of the input
    (the dates written as text and read back are the same dates), those with
    a date in ascending order of the date and then those without; the saved
    file has the same number of records and the same header. *)
Theorem sort_and_save_data_keeps_the_records (df : Frame.DataFrame) (i : nat) :
  Frame.index_of "date" (Frame.columns df) = Some i ->
  Forall (fun r => analyze_enrollment.datetime_cell (Frame.at_ r i) = true)
         (Frame.rows df) ->
  (exists outcome, analyze_enrollment.sort_and_save_data df outcome) /\
  forall outcome, analyze_enrollment.sort_and_save_data df outcome ->
    exists saved sorted,
      outcome = Ok (saved, Frame.mkFrame (Frame.columns df) sorted) /\
      analyze_enrollment.sort_values_date df sorted /\
      Permutation (Frame.rows df) sorted /\
      Frame.columns saved = Frame.columns df /\
      length (Frame.rows saved) = length (Frame.rows df).
Proof.
  intros Hi Hall. unfold analyze_enrollment.sort_and_save_data. rewrite Hi.
  assert (Hread : forall sorted,
            analyze_enrollment.sort_values_date df sorted ->
            Frame.assign i analyze_enrollment.to_datetime
              (Frame.assign_total i analyze_enrollment.strftime_cell
                 (Frame.mkFrame (Frame.columns df) sorted))
            = Ok (Frame.mkFrame (Frame.columns df) sorted)).
  { intros sorted Hsorted. apply reread_rows.
    apply sort_values_date_Permutation in Hsorted.
    rewrite List.Forall_forall in Hall |- *. intros r Hr. apply Hall.
    apply (Permutation_in _ (Permutation_sym Hsorted)). exact Hr. }
  split.
  - destruct (sort_values_date_exists df) as [sorted Hsorted].
    eexists. exists sorted. split; [exact Hsorted | reflexivity].
  - intros outcome (sorted & Hsorted & ->). cbv zeta. rewrite (Hread sorted Hsorted).
    cbn [mbind result_bind]. eexists. exists sorted.
    split; [reflexivity |]. split; [exact Hsorted |].
    pose proof (sort_values_date_Permutation df sorted Hsorted) as Hperm.
    split; [exact Hperm |]. split; [reflexivity |].
    cbn [Frame.assign_total Frame.rows]. rewrite length_map.
    symmetry. apply Permutation_length. exact Hperm.
Qed.

Lemma sort_and_save_data_keeps_the_records_witness :
  Frame.index_of "date" (Frame.columns samples.cleaned_records) = Some 0%nat /\
  Forall (fun r => analyze_enrollment.datetime_cell (Frame.at_ r 0) = true)
         (Frame.rows samples.cleaned_records) /\
  exists outcome, analyze_enrollment.sort_and_save_data samples.cleaned_records outcome.
Proof.
  assert (Hi : Frame.index_of "date" (Frame.columns samples.cleaned_records)
               = Some 0%nat) by reflexivity.
  assert (Hall : Forall (fun r => analyze_enrollment.datetime_cell (Frame.at_ r 0) = true)
                        (Frame.rows samples.cleaned_records)).
  { repeat constructor. }
  split; [exact Hi |]. split; [exact Hall |].
  exact (proj1 (sort_and_save_data_keeps_the_records samples.cleaned_records 0 Hi Hall)).
Defined.

Lemma date_value_of_text (c : Frame.cell) :
  Frame.date_key c = None ->
  analyze_enrollment.parses c = true ->
  analyze_enrollment.datetime_cell (analyze_enrollment.date_value c) = true.
Proof.
  unfold analyze_enrollment.parses, analyze_enrollment.date_value.
  destruct c as [| z | s | d]; cbn [analyze_enrollment.to_datetime Frame.date_key];
    try discriminate; try reflexivity.
  intros _. destruct (existsb _ _); [reflexivity |].
  destruct (Parse.strptime s) as [d |] eqn:Hs; [| discriminate].
  intros _. exact (strptime_valid s d Hs).
Qed.

(** X17.  What [clean_data] returns for a frame read from text (no cell
    of the date column is a timestamp yet) has a date column of valid
    timestamps and NaT only, so the saving that follows reads every date
    back. *)
Theorem clean_data_leaves_valid_dates (raw df : Frame.DataFrame) (i : nat) :
  Frame.index_of "date" (List.map Parse.strip (Frame.columns raw)) = Some i ->
  Forall (fun r => Frame.date_key (Frame.at_ r i) = None) (Frame.rows raw) ->
  analyze_enrollment.clean_data raw = Ok df ->
  Frame.index_of "date" (Frame.columns df) = Some i /\
  Forall (fun r => analyze_enrollment.datetime_cell (Frame.at_ r i) = true)
         (Frame.rows df).
Proof.
  intros Hi Htext. rewrite (clean_data_by_dates raw i Hi).
  destruct (forallb _ (Frame.rows raw)) eqn:Hparse; [| discriminate].
  unfold Frame.dropna_all.
  destruct (Frame.missing_labels _ analyze_enrollment.key_columns); [| discriminate].
  intros [= <-]. cbn [Frame.columns Frame.rows]. split; [exact Hi |].
  apply List.Forall_forall. intros r' Hr'.
  apply filter_In in Hr' as [Hr' _]. apply in_map_iff in Hr' as (r & <- & Hr).
  rewrite forallb_forall in Hparse. rewrite List.Forall_forall in Htext.
  pose proof (clean_row_cells (List.map Parse.strip (Frame.columns raw)) i r "date" Hi)
    as Hcell.
  unfold Frame.loc in Hcell. cbn [Frame.columns] in Hcell. rewrite Hi in Hcell.
  rewrite Hcell. unfold analyze_enrollment.cleaned. cbn [String.eqb Ascii.eqb].
  change (String.eqb "date" "date") with true. cbv iota.
  apply date_value_of_text; [apply Htext | apply Hparse]; exact Hr.
Qed.

Lemma clean_data_leaves_valid_dates_witness :
  Frame.index_of "date" (List.map Parse.strip (Frame.columns samples.bad_buckets))
    = Some 0%nat /\
  Forall (fun r => Frame.date_key (Frame.at_ r 0) = None)
         (Frame.rows samples.bad_buckets) /\
  (exists df, analyze_enrollment.clean_data samples.bad_buckets = Ok df /\
              Forall (fun r => analyze_enrollment.datetime_cell (Frame.at_ r 0) = true)
                     (Frame.rows df)).
Proof.
  assert (Hi : Frame.index_of "date"
                 (List.map Parse.strip (Frame.columns samples.bad_buckets))
               = Some 0%nat) by (vm_compute; reflexivity).
  assert (Htext : Forall (fun r => Frame.date_key (Frame.at_ r 0) = None)
                         (Frame.rows samples.bad_buckets)).
  { repeat constructor. }
  split; [exact Hi |]. split; [exact Htext |].
  destruct (analyze_enrollment.clean_data samples.bad_buckets) as [df | e] eqn:Hc;
    [| vm_compute in Hc; discriminate Hc].
  exists df. split; [reflexivity |].
  exact (proj2 (clean_data_leaves_valid_dates samples.bad_buckets df 0 Hi Htext Hc)).
Defined.

(** ** generate_data.py: the sign of the counts *)

Lemma binary_round_aux_sign (s : bool) (m e : Z) (l : location) :
  Binary64.not_negative (binary_round_aux Binary64.prec Binary64.emax s m e l)
  = negb s \/
  binary_round_aux Binary64.prec Binary64.emax s m e l = S754_nan.
Proof.
  unfold binary_round_aux.
  destruct (shr_fexp _ _ m e l) as [mrs' e'].
  destruct (shr_fexp _ _ _ e' loc_Exact) as [mrs'' e''].
  destruct (shr_m mrs'') as [| q | q]; [left; reflexivity | | right; reflexivity].
  destruct (e'' <=? Binary64.emax - Binary64.prec); left; reflexivity.
Qed.

Lemma of_Z_not_negative (z : Z) :
  0 <= z -> Binary64.not_negative (Binary64.of_Z z) = true.
Proof.
  intros Hz. unfold Binary64.of_Z, binary_normalize.
  destruct z as [| q | q]; [reflexivity | | lia].
  unfold binary_round. destruct (shl_align _ _ _) as [mz ez].
  destruct (binary_round_aux_sign false (Zpos mz) ez loc_Exact) as [H | H];
    rewrite H; reflexivity.
Qed.

(** A product of two floats that are not negative is not negative. *)
Lemma mul_not_negative (x y : Binary64.t) :
  Binary64.not_negative x = true -> Binary64.not_negative y = true ->
  Binary64.not_negative (Binary64.mul x y) = true.
Proof.
  unfold Binary64.mul.
  destruct x as [sx | sx | | sx mx ex], y as [sy | sy | | sy my ey];
    cbn [Binary64.not_negative SFmul]; intros Hx Hy;
    try reflexivity;
    try (apply negb_true_iff in Hx); try (apply negb_true_iff in Hy);
    subst; try reflexivity.
  destruct (binary_round_aux_sign (xorb false false) (Zpos (mx * my)) (ex + ey) loc_Exact)
    as [H | H]; rewrite H; reflexivity.
Qed.

Lemma to_int_not_negative (x : Binary64.t) (z : Z) :
  Binary64.not_negative x = true -> Binary64.to_int x = Some z -> 0 <= z.
Proof.
  destruct x as [s | s | | s m e]; cbn [Binary64.not_negative Binary64.to_int];
    try discriminate.
  - intros _ [= <-]. lia.
  - intros Hs [= <-]. apply negb_true_iff in Hs. subst s. cbn [cond_Zopp].
    destruct (0 <=? e) eqn:He.
    + apply Z.shiftl_nonneg. lia.
    + apply Z.shiftr_nonneg. lia.
Qed.

Lemma base_enrollments_not_negative (month day_of_week : Z)
    (state_factor : Binary64.t) (poisson : Z) :
  0 <= poisson ->
  Binary64.not_negative state_factor = true ->
  Binary64.not_negative
    (generate_data.base_enrollments month day_of_week state_factor poisson) = true.
Proof.
  intros Hp Hs. unfold generate_data.base_enrollments.
  repeat apply mul_not_negative.
  - apply of_Z_not_negative. exact Hp.
  - exact Hs.
  - unfold generate_data.seasonal_factor.
    destruct (generate_data.winter month); [vm_compute; reflexivity |].
    destruct (generate_data.monsoon month); vm_compute; reflexivity.
  - unfold generate_data.weekend_factor.
    destruct (5 <=? day_of_week); vm_compute; reflexivity.
Qed.

(** X18.  With the script's float64 arithmetic, no generated count is
    negative: for a Poisson draw that is not negative, a state factor that is
    not negative and a male ratio between 0 and 1 (neither it nor
    [1 - male_ratio] is negative), every count of a generated row is at
    least 0. *)
Theorem generated_counts_are_not_negative (month day_of_week : Z)
    (state_factor : Binary64.t) (poisson : Z) (male_ratio : Binary64.t)
    (r : generate_data.row) :
  0 <= poisson ->
  Binary64.not_negative state_factor = true ->
  Binary64.not_negative male_ratio = true ->
  Binary64.not_negative (Binary64.sub (Binary64.of_Z 1) male_ratio) = true ->
  generate_data.make_row month day_of_week state_factor poisson male_ratio = Some r ->
  0 <= generate_data.total_enrollments r /\
  0 <= generate_data.male_enrollments r /\
  0 <= generate_data.female_enrollments r /\
  0 <= generate_data.child_enrollments r /\
  0 <= generate_data.adult_enrollments r /\
  0 <= generate_data.senior_enrollments r.
Proof.
  intros Hp Hs Hm Hf. unfold generate_data.make_row. cbv zeta.
  pose proof (base_enrollments_not_negative month day_of_week state_factor poisson Hp Hs)
    as Hbase.
  set (base := generate_data.base_enrollments month day_of_week state_factor poisson)
    in *.
  destruct (Binary64.to_int (Binary64.mul base male_ratio)) as [male |] eqn:Emale;
    [| discriminate].
  destruct (Binary64.to_int
              (Binary64.mul base (Binary64.sub (Binary64.of_Z 1) male_ratio)))
    as [female |] eqn:Efemale; [| discriminate].
  destruct (Binary64.to_int (Binary64.mul base (Binary64.lit 25 100)))
    as [child |] eqn:Echild; [| discriminate].
  destruct (Binary64.to_int (Binary64.mul base (Binary64.lit 55 100)))
    as [adult |] eqn:Eadult; [| discriminate].
  destruct (Binary64.to_int (Binary64.mul base (Binary64.lit 20 100)))
    as [senior |] eqn:Esenior; [| discriminate].
  destruct (Binary64.to_int base) as [total |] eqn:Etotal; [| discriminate].
  intros [= <-]. cbn [generate_data.total_enrollments generate_data.male_enrollments
    generate_data.female_enrollments generate_data.child_enrollments
    generate_data.adult_enrollments generate_data.senior_enrollments].
  assert (Hlit : forall n, Binary64.not_negative (Binary64.lit n 100) = true ->
            forall z, Binary64.to_int (Binary64.mul base (Binary64.lit n 100)) = Some z ->
                      0 <= z).
  { intros n Hn z. apply to_int_not_negative, mul_not_negative; assumption. }
  repeat split.
  - exact (to_int_not_negative base total Hbase Etotal).
  - apply (to_int_not_negative _ male (mul_not_negative _ _ Hbase Hm) Emale).
  - apply (to_int_not_negative _ female (mul_not_negative _ _ Hbase Hf) Efemale).
  - apply (Hlit 25); [vm_compute; reflexivity | exact Echild].
  - apply (Hlit 55); [vm_compute; reflexivity | exact Eadult].
  - apply (Hlit 20); [vm_compute; reflexivity | exact Esenior].
Qed.

Lemma generated_counts_are_not_negative_witness :
  (0 <=? 500) = true /\
  Binary64.not_negative (Binary64.lit 3 2) = true /\
  Binary64.not_negative (Binary64.lit 1 2) = true /\
  Binary64.not_negative (Binary64.sub (Binary64.of_Z 1) (Binary64.lit 1 2)) = true /\
  generate_data.make_row 1 0 (Binary64.lit 3 2) 500 (Binary64.lit 1 2)
    = Some (generate_data.mkRow 900 450 450 225 495 180) /\
  (0 <=? generate_data.total_enrollments (generate_data.mkRow 900 450 450 225 495 180))
    = true.
Proof.
  assert (Hrow : generate_data.make_row 1 0 (Binary64.lit 3 2) 500 (Binary64.lit 1 2)
                 = Some (generate_data.mkRow 900 450 450 225 495 180))
    by (vm_compute; reflexivity).
  do 4 (split; [vm_compute; reflexivity |]). split; [exact Hrow |].
  apply Z.leb_le.
  apply (generated_counts_are_not_negative 1 0 (Binary64.lit 3 2) 500 (Binary64.lit 1 2));
    [lia | vm_compute; reflexivity | vm_compute; reflexivity | vm_compute; reflexivity
    | exact Hrow].
Defined.

(** ** app.py: the columns [load_data] adds *)

Lemma index_of_lt (n : string) (cols : list string) (j : nat) :
  Frame.index_of n cols = Some j -> (j < length cols)%nat.
Proof.
  intros H. apply index_of_nth in H.
  apply nth_error_Some. congruence.
Qed.

Lemma index_of_last (m n : string) (cols : list string) :
  Frame.index_of m (cols ++ [n])
  = match Frame.index_of m cols with
    | Some j => Some j
    | None => if String.eqb n m then Some (length cols) else None
    end.
Proof.
  induction cols as [| c cols IH]; cbn [Frame.index_of List.app length].
  - destruct (String.eqb n m); reflexivity.
  - destruct (String.eqb c m); [reflexivity |]. rewrite IH.
    destruct (Frame.index_of m cols); [reflexivity |].
    destruct (String.eqb n m); reflexivity.
Qed.

Lemma has_column_add (n : string) (v : Frame.cell) (df : Frame.DataFrame) (m : string) :
  Frame.has_column (Frame.add_column n v df) m
  = Frame.has_column df m || String.eqb n m.
Proof.
  unfold Frame.has_column, Frame.add_column. cbn [Frame.columns].
  rewrite index_of_last. destruct (Frame.index_of m (Frame.columns df)); [reflexivity |].
  destruct (String.eqb n m); reflexivity.
Qed.

Lemma padded_length (r : list Frame.cell) (n : nat) :
  length (firstn n (r ++ repeat Frame.NaN (n - length r))) = n.
Proof. rewrite length_firstn, length_app, repeat_length. lia. Qed.

(** The cells of a row after a column was added. *)
Lemma loc_add_old (n : string) (v : Frame.cell) (df : Frame.DataFrame)
    (r : list Frame.cell) (m : string) :
  Frame.has_column df m = true ->
  Frame.loc (Frame.add_column n v df)
    (firstn (length (Frame.columns df))
            (r ++ repeat Frame.NaN (length (Frame.columns df) - length r)) ++ [v]) m
  = Frame.loc df r m.
Proof.
  unfold Frame.has_column, Frame.loc, Frame.add_column. cbn [Frame.columns].
  rewrite index_of_last.
  destruct (Frame.index_of m (Frame.columns df)) as [j |] eqn:Hj; [| discriminate].
  intros _. apply index_of_lt in Hj. unfold Frame.at_.
  rewrite app_nth1 by (rewrite padded_length; exact Hj).
  rewrite nth_firstn. replace (j <? length (Frame.columns df))%nat with true
    by (symmetry; apply Nat.ltb_lt; exact Hj).
  destruct (Nat.lt_ge_cases j (length r)) as [Hlt | Hge].
  - apply app_nth1. exact Hlt.
  - rewrite app_nth2 by exact Hge. rewrite nth_repeat.
    symmetry. apply nth_overflow. exact Hge.
Qed.

Lemma loc_add_new (n : string) (v : Frame.cell) (df : Frame.DataFrame)
    (r : list Frame.cell) :
  Frame.has_column df n = false ->
  Frame.loc (Frame.add_column n v df)
    (firstn (length (Frame.columns df))
            (r ++ repeat Frame.NaN (length (Frame.columns df) - length r)) ++ [v]) n
  = v.
Proof.
  unfold Frame.has_column, Frame.loc, Frame.add_column. cbn [Frame.columns].
  rewrite index_of_last.
  destruct (Frame.index_of n (Frame.columns df)); [discriminate |].
  intros _. rewrite String.eqb_refl. unfold Frame.at_.
  rewrite app_nth2 by (rewrite padded_length; lia).
  rewrite padded_length, Nat.sub_diag. reflexivity.
Qed.

Lemma groupby_sum_map {K} (cmp : K -> K -> comparison)
    (key : list Frame.cell -> option K) (val : list Frame.cell -> Z)
    (g : list Frame.cell -> list Frame.cell) (rs : list (list Frame.cell)) :
  Frame.groupby_sum cmp key val (List.map g rs)
  = Frame.groupby_sum cmp (fun r => key (g r)) (fun r => val (g r)) rs.
Proof.
  unfold Frame.groupby_sum. generalize (@nil (K * Z)) as acc.
  induction rs as [| r rs IH]; intros acc; [reflexivity |].
  cbn [List.map fold_left]. apply IH.
Qed.

(** Rows that all have the same key make one group. *)
Lemma groupby_sum_one_key {K} (cmp : K -> K -> comparison)
    (cmp_refl : forall a, cmp a a = Eq) (k : K)
    (key : list Frame.cell -> option K) (val : list Frame.cell -> Z)
    (rs : list (list Frame.cell)) :
  (forall r, In r rs -> key r = Some k) ->
  Frame.groupby_sum cmp key val rs
  = match rs with
    | [] => []
    | _ :: _ => [(k, Frame.column_sum val rs)]
    end.
Proof.
  intros Hkey. unfold Frame.groupby_sum.
  assert (Hacc : forall rs a,
            (forall r, In r rs -> key r = Some k) ->
            fold_left (fun g r => match key r with
                                  | Some k => Frame.group_add cmp k (val r) g
                                  | None => g
                                  end) rs [(k, a)]
            = [(k, a + Frame.column_sum val rs)]).
  { clear rs Hkey. induction rs as [| r rs IH]; intros a Hkey.
    - unfold Frame.column_sum. cbn. rewrite Z.add_0_r. reflexivity.
    - cbn [fold_left]. rewrite (Hkey r (or_introl eq_refl)).
      cbn [Frame.group_add]. rewrite cmp_refl.
      rewrite IH by (intros r' Hr'; apply Hkey; right; exact Hr').
      rewrite column_sum_cons. do 2 f_equal. lia. }
  destruct rs as [| r rs]; [reflexivity |].
  cbn [fold_left]. rewrite (Hkey r (or_introl eq_refl)). cbn [Frame.group_add].
  rewrite Hacc by (intros r' Hr'; apply Hkey; right; exact Hr').
  rewrite column_sum_cons. reflexivity.
Qed.

Lemma state_data_of_added_state (df : Frame.DataFrame) (val : list Frame.cell -> Z) :
  Frame.has_column df "State" = false ->
  Frame.has_column df "Total_Enrolments" = true ->
  (forall r, val r = Frame.cell_value (Frame.loc df r "Total_Enrolments")) ->
  app.state_data (Frame.add_column "State" (Frame.Str "Unknown") df)
  = Ok (Some match Frame.rows df with
             | [] => []
             | _ :: _ => [("Unknown", Frame.column_sum val (Frame.rows df))]
             end).
Proof.
  intros Hstate Htotal Hval. unfold app.state_data.
  rewrite !has_column_add, Htotal, Hstate. cbn [orb String.eqb Ascii.eqb].
  change (String.eqb "State" "State") with true. cbv iota. do 2 f_equal.
  change (Frame.rows (Frame.add_column "State" (Frame.Str "Unknown") df))
    with (List.map
            (fun r => (firstn (length (Frame.columns df))
                         (r ++ repeat Frame.NaN (length (Frame.columns df) - length r))
                       ++ [Frame.Str "Unknown"])%list)
            (Frame.rows df)).
  rewrite groupby_sum_map.
  rewrite (groupby_sum_one_key String.compare string_compare_refl "Unknown").
  - destruct (Frame.rows df) as [| r rs]; [reflexivity |].
    do 2 f_equal. unfold Frame.column_sum. f_equal.
    apply List.map_ext. intros r0. rewrite Hval.
    rewrite loc_add_old by exact Htotal. reflexivity.
  - intros r _. rewrite loc_add_new by exact Hstate. reflexivity.
Qed.

(** X19.  After [load_data] the frame always has a [State] column, so the
    state table is always shown; and when the data file has no such column
    (but has [Total_Enrolments]), the table holds the single state
    ["Unknown"] with the total of all rows, or nothing when there are no
    rows. *)
Theorem missing_state_becomes_unknown (today : string) (csv : Frame.DataFrame) :
  Frame.has_column (app.load_data today csv) "State" = true /\
  (Frame.has_column csv "State" = false ->
   Frame.has_column csv "Total_Enrolments" = true ->
   app.state_data (app.load_data today csv)
   = Ok (Some match Frame.rows csv with
              | [] => []
              | _ :: _ =>
                  [("Unknown",
                    Frame.column_sum
                      (fun r => Frame.cell_value (Frame.loc csv r "Total_Enrolments"))
                      (Frame.rows csv))]
              end)).
Proof.
  unfold app.load_data. cbv zeta. split.
  - destruct (Frame.has_column (if Frame.has_column csv "Date" then csv else _) "State")
      eqn:Hs; [exact Hs |].
    rewrite has_column_add. apply orb_true_r.
  - intros Hstate Htotal.
    destruct (Frame.has_column csv "Date") eqn:Hdate.
    + rewrite Hstate. apply state_data_of_added_state; [assumption | assumption |].
      intros r. reflexivity.
    + rewrite has_column_add, Hstate. cbn [orb].
      change (String.eqb "Date" "State") with false. cbv iota.
      rewrite (state_data_of_added_state _
                 (fun r => Frame.cell_value
                             (Frame.loc (Frame.add_column "Date" (Frame.Str today) csv)
                                        r "Total_Enrolments"))).
      * change (Frame.rows (Frame.add_column "Date" (Frame.Str today) csv))
          with (List.map
                  (fun r => (firstn (length (Frame.columns csv))
                               (r ++ repeat Frame.NaN
                                       (length (Frame.columns csv) - length r))
                             ++ [Frame.Str today])%list)
                  (Frame.rows csv)).
        destruct (Frame.rows csv) as [| r rs]; [reflexivity |].
        cbn [List.map]. do 4 f_equal. rewrite !column_sum_cons.
        rewrite loc_add_old by exact Htotal. f_equal.
        unfold Frame.column_sum. rewrite List.map_map. f_equal.
        apply List.map_ext. intros r0.
        rewrite loc_add_old by exact Htotal. reflexivity.
      * rewrite has_column_add, Hstate. reflexivity.
      * rewrite has_column_add, Htotal. reflexivity.
      * intros r. reflexivity.
Qed.

Lemma missing_state_becomes_unknown_witness :
  Frame.has_column samples.no_state_file "State" = false /\
  Frame.has_column samples.no_state_file "Total_Enrolments" = true /\
  app.state_data (app.load_data "2025-03-03" samples.no_state_file)
  = Ok (Some [("Unknown", 42)]).
Proof.
  split; [reflexivity |]. split; [reflexivity |].
  exact (proj2 (missing_state_becomes_unknown "2025-03-03" samples.no_state_file)
               eq_refl eq_refl).
Defined.
